(** * ComplianceHealth: scoring, branching rules, assessment lifecycle and
      remediation workflow

    A shallow embedding of the server-side core of the ComplianceHealth
    application:

    - [services/scoring]        ([calculateScores], [getPointsForAnswer],
                                 [getDefaultDeadlineDays]);
    - [services/branchingRules] ([evaluateBranchingRules],
                                 [isControlApplicable], [isHealthOrg]);
    - [routes/assessments]      (create, detail, submit response, finalize,
                                 submit for review);
    - [routes/remediation]      (task list order, task status change);
    - [routes/controls]         (applicable controls);
    - [routes/dashboard]        (score and task figures).

    Conventions.  A JavaScript [number] that holds points, weights or a
    percentage is an exact rational ([Q]); counters, versions and domain
    numbers are integers ([Z]).  Strings are [string].  The relational store
    behind Prisma is a record of tables, each table a list of rows in
    insertion order; a route handler is a function from the store and the
    request to an HTTP reply and the new store. *)

From Stdlib Require Import ZArith QArith Qround List String Bool Lia Lqa.
From Stdlib Require Import DecimalString Permutation Sorted.
Import ListNotations.

Set Implicit Arguments.

Local Open Scope string_scope.
Local Open Scope Z_scope.

(* ===================================================================== *)
(** ** JavaScript primitives used by the sources *)
(* ===================================================================== *)

Module JS.

(** [Math.round]: the nearest integer, a tie going towards +infinity. *)
Definition Math_round (x : Q) : Z := Qfloor (x + (1 # 2)).

(** [a > b] on numbers. *)
Definition gt (a b : Q) : bool := negb (Qle_bool a b).

(** Template-literal rendering of an integral number. *)
Definition toString (n : Z) : string := NilZero.string_of_int (Z.to_int n).

(** Truthiness of a string: only the empty string is falsy. *)
Definition truthy (s : string) : bool := negb (s =? EmptyString)%string.

(** Truthiness of an optional string ([undefined] and [null] are falsy). *)
Definition truthy_opt (o : option string) : bool :=
  match o with
  | Some s => truthy s
  | None => false
  end.

(** [Array.prototype.includes] on an array of strings. *)
Definition includes (l : list string) (s : string) : bool :=
  existsb (String.eqb s) l.

(** [String.prototype.startsWith]. *)
Definition startsWith (s p : string) : bool := String.prefix p s.

(** [Array.prototype.join]. *)
Definition join (sep : string) (l : list string) : string :=
  String.concat sep l.

(** [String.prototype.substring(0, n)]. *)
Definition substring0 (n : nat) (s : string) : string :=
  String.substring 0 n s.

(** An insertion-ordered [Map<number, V>]. *)
Section NumberMap.
Variable V : Type.

Definition Map := list (Z * V).

Fixpoint has (k : Z) (m : Map) : bool :=
  match m with
  | [] => false
  | (k', _) :: m' => if k =? k' then true else has k m'
  end.

Fixpoint get (k : Z) (m : Map) : option V :=
  match m with
  | [] => None
  | (k', v) :: m' => if k =? k' then Some v else get k m'
  end.

(** [set] overwrites the value of a present key where it stands and
    appends an absent key at the end. *)
Fixpoint set (k : Z) (v : V) (m : Map) : Map :=
  match m with
  | [] => [(k, v)]
  | (k', v') :: m' =>
      if k =? k' then (k', v) :: m' else (k', v') :: set k v m'
  end.

Definition entries (m : Map) : list (Z * V) := m.
End NumberMap.

(** A [Set<string>], insertion-ordered; [Array.from] lists it in that
    order. *)
Definition StringSet := list string.

Definition add (c : string) (s : StringSet) : StringSet :=
  if includes s c then s else (s ++ [c])%list.

(** [arr.forEach(c => s.add(c))]. *)
Definition addAll (arr : list string) (s : StringSet) : StringSet :=
  fold_left (fun acc c => add c acc) arr s.

Definition Array_from (s : StringSet) : list string := s.

End JS.

(* ===================================================================== *)
(** ** services/scoring *)
(* ===================================================================== *)

Module ControlScore.
Record t := mk {
  controlId : string;
  domainNumber : Z;
  riskLevel : string;
  answer : string;
  pointsYes : Q;
  pointsPartial : Q;
  pointsEarned : Q;
  weightMultiplier : Q
}.
End ControlScore.

Module DomainScore.
Record t := mk {
  domainNumber : Z;
  domainName : string;
  totalPoints : Q;
  earnedPoints : Q;
  percentage : Q;
  controlCount : Z;
  gapCount : Z;
  partialCount : Z
}.
End DomainScore.

Module ScoreResult.
Record t := mk {
  overallScore : Q;
  totalControlsAssessed : Z;
  criticalGaps : Z;
  highGaps : Z;
  mediumGaps : Z;
  lowGaps : Z;
  domainScores : list DomainScore.t
}.
End ScoreResult.

Module Scoring.

Definition DOMAIN_NAMES : list (Z * string) :=
  [ (1, "Governance & Accountability");
    (2, "Lawful Basis & Consent Management");
    (3, "Data Subject Rights Fulfillment");
    (4, "Data Security & Cybersecurity (NCA ECC)");
    (5, "Third-Party & Data Transfer Compliance");
    (6, "Breach Management & Notification");
    (7, "Records & Documentation");
    (8, "Training & Awareness");
    (9, "Sectoral & Special Processing");
    (10, "MoH Health Sector Controls") ].

(** [DOMAIN_NAMES[num] || `Domain ${num}`] *)
Definition domainNameOf (num : Z) : string :=
  match JS.get num DOMAIN_NAMES with
  | Some s => s
  | None => "Domain " ++ JS.toString num
  end.

(** The value type of [domainMap]. *)
Record DomainData := mkDomainData {
  totalPoints : Q;
  earnedPoints : Q;
  controlCount : Z;
  gapCount : Z;
  partialCount : Z
}.

Definition emptyDomain : DomainData := mkDomainData 0 0 0 0 0.

(** The mutable locals of [calculateScores]. *)
Record Locals := mkLocals {
  totalPointsAvailable : Q;
  totalPointsEarned : Q;
  criticalGaps : Z;
  highGaps : Z;
  mediumGaps : Z;
  lowGaps : Z;
  domainMap : JS.Map DomainData
}.

Definition initLocals : Locals := mkLocals 0 0 0 0 0 0 [].

Definition isNA (c : ControlScore.t) : bool := (ControlScore.answer c =? "NA")%string.
Definition isNO (c : ControlScore.t) : bool := (ControlScore.answer c =? "NO")%string.
Definition isPARTIAL (c : ControlScore.t) : bool :=
  (ControlScore.answer c =? "PARTIAL")%string.

Definition maxPointsOf (cs : ControlScore.t) : Q :=
  (ControlScore.pointsYes cs * ControlScore.weightMultiplier cs)%Q.

Definition earnedOf (cs : ControlScore.t) : Q :=
  (ControlScore.pointsEarned cs * ControlScore.weightMultiplier cs)%Q.

(** The in-place update of the domain object fetched from the map. *)
Definition bumpDomain (cs : ControlScore.t) (d : DomainData) : DomainData :=
  mkDomainData
    (totalPoints d + maxPointsOf cs)%Q
    (earnedPoints d + earnedOf cs)%Q
    (controlCount d + 1)
    (if isNO cs then gapCount d + 1 else gapCount d)
    (if isPARTIAL cs then partialCount d + 1 else partialCount d).

(** One iteration of [for (const cs of assessed)]. *)
Definition loopBody (st : Locals) (cs : ControlScore.t) : Locals :=
  let maxPoints := maxPointsOf cs in
  let earned := earnedOf cs in
  let risk := ControlScore.riskLevel cs in
  let bump (level : string) (n : Z) : Z :=
    if isNO cs && (risk =? level)%string then n + 1 else n in
  let dn := ControlScore.domainNumber cs in
  let dm1 :=
    if negb (JS.has dn (domainMap st))
    then JS.set dn emptyDomain (domainMap st)
    else domainMap st in
  let dm2 :=
    match JS.get dn dm1 with
    | Some domain => JS.set dn (bumpDomain cs domain) dm1
    | None => dm1
    end in
  mkLocals
    (totalPointsAvailable st + maxPoints)%Q
    (totalPointsEarned st + earned)%Q
    (bump "CRITICAL" (criticalGaps st))
    (bump "HIGH" (highGaps st))
    (bump "MEDIUM" (mediumGaps st))
    (bump "LOW" (lowGaps st))
    dm2.

(** [t > 0 ? Math.round((e / t) * 10000) / 100 : 0] *)
Definition percentOf (e t : Q) : Q :=
  if JS.gt t 0
  then (inject_Z (JS.Math_round ((e / t) * 10000)) / 100)%Q
  else 0%Q.

Definition toDomainScore (entry : Z * DomainData) : DomainScore.t :=
  let (num, data) := entry in
  DomainScore.mk num (domainNameOf num)
    (totalPoints data) (earnedPoints data)
    (percentOf (earnedPoints data) (totalPoints data))
    (controlCount data) (gapCount data) (partialCount data).

(** [domainScores.sort((a, b) => a.domainNumber - b.domainNumber)]: a
    stable sort, ascending in [domainNumber]. *)
Fixpoint insertByDomain (x : DomainScore.t) (l : list DomainScore.t)
  : list DomainScore.t :=
  match l with
  | [] => [x]
  | y :: l' =>
      if DomainScore.domainNumber x <=? DomainScore.domainNumber y
      then x :: y :: l'
      else y :: insertByDomain x l'
  end.

Definition sortByDomain (l : list DomainScore.t) : list DomainScore.t :=
  fold_right insertByDomain [] l.

Definition calculateScores (controlScores : list ControlScore.t)
  : ScoreResult.t :=
  let assessed := filter (fun c => negb (isNA c)) controlScores in
  let st := fold_left loopBody assessed initLocals in
  let domainScores :=
    sortByDomain (map toDomainScore (JS.entries (domainMap st))) in
  let overallScore :=
    percentOf (totalPointsEarned st) (totalPointsAvailable st) in
  ScoreResult.mk overallScore
    (Z.of_nat (List.length assessed))
    (criticalGaps st) (highGaps st) (mediumGaps st) (lowGaps st)
    domainScores.

Definition getPointsForAnswer (answer : string) (pointsYes pointsPartial : Q)
  : Q :=
  if (answer =? "YES")%string then pointsYes
  else if (answer =? "PARTIAL")%string then pointsPartial
  else if (answer =? "NO")%string then 0%Q
  else if (answer =? "NA")%string then 0%Q
  else 0%Q.

Definition getDefaultDeadlineDays (riskLevel : string) : Z :=
  if (riskLevel =? "CRITICAL")%string then 30
  else if (riskLevel =? "HIGH")%string then 60
  else if (riskLevel =? "MEDIUM")%string then 90
  else if (riskLevel =? "LOW")%string then 180
  else 90.

End Scoring.

(* ===================================================================== *)
(** ** services/branchingRules *)
(* ===================================================================== *)

Module OrgProfile.
Record t := mk {
  orgType : string;
  processesMinors : bool;
  crossBorderTransfers : bool;
  usesCloud : string;
  conductsResearch : bool;
  usesAiOrAutomatedDecisions : bool;
  continuousMonitoring : bool
}.
End OrgProfile.

Module BranchingResult.
Record t := mk {
  activatedControls : list string;
  naControls : list string
}.
End BranchingResult.

(** The JSON values a control's [conditionalOn] column can hold; [Null]
    also stands for an absent value. *)
Module Json.
#[local] Unset Elimination Schemes.
Inductive t :=
| Null
| Bool (b : bool)
| Num (q : Q)
| Str (s : string)
| Arr (l : list t)
| Obj (l : list (string * t)).
#[local] Set Elimination Schemes.
End Json.

Module Branching.

Definition HEALTH_ORG_TYPES : list string :=
  [ "government_hospital"; "private_hospital"; "clinic_small";
    "clinic_large"; "insurer"; "pharma"; "health_tech" ].

Definition evaluateBranchingRules (profile : OrgProfile.t)
  : BranchingResult.t :=
  let activated : JS.StringSet := [] in
  let naControls : JS.StringSet := [] in
  (* Rule 1 *)
  let activated :=
    if OrgProfile.processesMinors profile
    then JS.addAll ["PDPL-G.10"; "PDPL-R.10"] activated
    else activated in
  (* Rule 2 *)
  let activated :=
    if OrgProfile.crossBorderTransfers profile
    then JS.addAll ["PDPL-T.5"; "PDPL-T.6"; "PDPL-T.7"; "PDPL-T.8";
                    "PDPL-T.9"; "HS-PDPL-013"; "NCA-D4.R2"] activated
    else activated in
  (* Rule 3 *)
  let naControls :=
    if negb (OrgProfile.crossBorderTransfers profile)
    then JS.addAll ["PDPL-T.5"; "PDPL-T.6"; "PDPL-T.7"; "PDPL-T.8";
                    "PDPL-T.9"; "HS-PDPL-013"] naControls
    else naControls in
  (* Rule 4 *)
  let activated :=
    if JS.includes HEALTH_ORG_TYPES (OrgProfile.orgType profile)
    then JS.addAll ["PDPL-C.1"; "HS-PDPL-001"; "HS-PDPL-002";
                    "HS-PDPL-003"; "PDPL-G.1"] activated
    else activated in
  (* Rule 5 *)
  let activated :=
    if (OrgProfile.usesCloud profile =? "yes")%string
       || (OrgProfile.usesCloud profile =? "partial")%string
    then JS.addAll ["PDPL-T.2"; "NCA-D4.R2"] activated
    else activated in
  (* Rule 6 *)
  let activated :=
    if OrgProfile.usesAiOrAutomatedDecisions profile
    then JS.addAll ["PDPL-G.3"; "HS-PDPL-020"] activated
    else activated in
  BranchingResult.mk (JS.Array_from activated) (JS.Array_from naControls).

(** What [(profile as any)[key]] can evaluate to.  [None] is [undefined]
    (no such field) or a member inherited from [Object.prototype]; neither
    is strictly equal to any JSON value. *)
Inductive ProfileValue :=
| PVBool (b : bool)
| PVStr (s : string).

Definition profileField (profile : OrgProfile.t) (key : string)
  : option ProfileValue :=
  if (key =? "orgType")%string
  then Some (PVStr (OrgProfile.orgType profile))
  else if (key =? "processesMinors")%string
  then Some (PVBool (OrgProfile.processesMinors profile))
  else if (key =? "crossBorderTransfers")%string
  then Some (PVBool (OrgProfile.crossBorderTransfers profile))
  else if (key =? "usesCloud")%string
  then Some (PVStr (OrgProfile.usesCloud profile))
  else if (key =? "conductsResearch")%string
  then Some (PVBool (OrgProfile.conductsResearch profile))
  else if (key =? "usesAiOrAutomatedDecisions")%string
  then Some (PVBool (OrgProfile.usesAiOrAutomatedDecisions profile))
  else if (key =? "continuousMonitoring")%string
  then Some (PVBool (OrgProfile.continuousMonitoring profile))
  else None.

(** [profileValue === value] for a JSON [value]. *)
Definition strictEq (pv : option ProfileValue) (value : Json.t) : bool :=
  match pv, value with
  | Some (PVBool a), Json.Bool b => Bool.eqb a b
  | Some (PVStr a), Json.Str b => (a =? b)%string
  | _, _ => false
  end.

(** [conditionalOn && typeof conditionalOn === 'object'] *)
Definition isObject (v : Json.t) : bool :=
  match v with
  | Json.Obj _ | Json.Arr _ => true
  | _ => false
  end.

(** [Object.entries]: the members of an object, the indexed elements of
    an array. *)
Definition Object_entries (v : Json.t) : list (string * Json.t) :=
  match v with
  | Json.Obj l => l
  | Json.Arr l =>
      combine
        (map (fun i => JS.toString (Z.of_nat i)) (seq 0 (List.length l))) l
  | _ => []
  end.

(** The [for ... of Object.entries(conditionalOn)] loop, which leaves the
    function with [false] at the first mismatch. *)
Fixpoint allEntriesMatch (profile : OrgProfile.t)
  (es : list (string * Json.t)) : bool :=
  match es with
  | [] => true
  | (key, value) :: es' =>
      let profileValue := profileField profile key in
      if negb (strictEq profileValue value) then false
      else allEntriesMatch profile es'
  end.

Definition isControlApplicable (controlId : string) (conditionalOn : Json.t)
  (profile : OrgProfile.t) (branchingResult : BranchingResult.t) : bool :=
  if JS.includes (BranchingResult.naControls branchingResult) controlId
  then false
  else if isObject conditionalOn
  then allEntriesMatch profile (Object_entries conditionalOn)
  else true.

Definition isHealthOrg (orgType : string) : bool :=
  JS.includes HEALTH_ORG_TYPES orgType.

End Branching.

(* ===================================================================== *)
(** ** The relational store *)
(* ===================================================================== *)

(** Primary keys generated by the database. *)
Definition Id := nat.

(** An instant, in milliseconds since the epoch. *)
Definition Date := Z.

Definition msPerDay : Z := 86400000.

(** [addDays] of date-fns, in a time zone with a fixed offset. *)
Definition addDays (d : Date) (amount : Z) : Date := d + amount * msPerDay.

(** Modelled from the spec: the Prisma schema is not among the sources; the
    status column of an assessment holds one of the four statuses of the
    data model. *)
Inductive AssessmentStatus := DRAFT | IN_REVIEW | FINALIZED | ARCHIVED.

(** Modelled from the spec: the Prisma schema is not among the sources; the
    status column of a remediation task holds one of the five statuses of
    the data model. *)
Inductive TaskStatus := OPEN | IN_PROGRESS | UNDER_REVIEW | CLOSED | DEFERRED.

Definition AssessmentStatus_eqb (a b : AssessmentStatus) : bool :=
  match a, b with
  | DRAFT, DRAFT | IN_REVIEW, IN_REVIEW
  | FINALIZED, FINALIZED | ARCHIVED, ARCHIVED => true
  | _, _ => false
  end.

Definition TaskStatus_toString (s : TaskStatus) : string :=
  match s with
  | OPEN => "OPEN"
  | IN_PROGRESS => "IN_PROGRESS"
  | UNDER_REVIEW => "UNDER_REVIEW"
  | CLOSED => "CLOSED"
  | DEFERRED => "DEFERRED"
  end.

Definition TaskStatus_eqb (a b : TaskStatus) : bool :=
  (TaskStatus_toString a =? TaskStatus_toString b)%string.

(** The value of the column when a request writes a status it has
    validated against the transition table. *)
Definition TaskStatus_ofString (s : string) : option TaskStatus :=
  if (s =? "OPEN")%string then Some OPEN
  else if (s =? "IN_PROGRESS")%string then Some IN_PROGRESS
  else if (s =? "UNDER_REVIEW")%string then Some UNDER_REVIEW
  else if (s =? "CLOSED")%string then Some CLOSED
  else if (s =? "DEFERRED")%string then Some DEFERRED
  else None.

Module Organization.
Record t := mk {
  id : Id;
  orgType : string;
  processesMinors : bool;
  crossBorderTransfers : bool;
  usesCloud : string;
  conductsResearch : bool;
  usesAiOrAutomatedDecisions : bool;
  continuousMonitoring : bool;
  onboardingCompleted : bool
}.
End Organization.

Module Control.
Record t := mk {
  id : string;
  domainNumber : Z;
  riskLevel : string;
  pointsYes : Q;
  pointsPartial : Q;
  weightMultiplier : Q;
  objectiveEn : string;
  regArticles : option string;
  transferRegArticles : option string;
  ncaRef : option string;
  mohPolicyRef : option string;
  evidenceGuidanceEn : option string;
  responsibleRoles : list string;
  conditionalOn : Json.t
}.
End Control.

Module Assessment.
Record t := mk {
  id : Id;
  orgId : Id;
  assessmentVersion : Z;
  status : AssessmentStatus;
  isDeleted : bool;
  createdBy : Id;
  overallScore : option Q;
  totalControlsAssessed : option Z;
  criticalGaps : option Z;
  highGaps : option Z;
  mediumGaps : option Z;
  lowGaps : option Z;
  domainScores : option (list DomainScore.t);
  finalizedBy : option Id;
  finalizedAt : option Date
}.

Definition withStatus (s : AssessmentStatus) (a : t) : t :=
  mk (id a) (orgId a) (assessmentVersion a) s (isDeleted a) (createdBy a)
     (overallScore a) (totalControlsAssessed a) (criticalGaps a)
     (highGaps a) (mediumGaps a) (lowGaps a) (domainScores a)
     (finalizedBy a) (finalizedAt a).
End Assessment.

Module Response.
Record t := mk {
  id : Id;
  assessmentId : Id;
  controlId : string;
  answer : string;
  naJustification : option string;
  pointsEarned : Q;
  notes : option string;
  answeredBy : Id;
  lastModifiedBy : option Id;
  lastModifiedAt : option Date
}.
End Response.

Module RemediationTask.
Record t := mk {
  id : Id;
  orgId : Id;
  assessmentId : Id;
  controlId : string;
  gapType : string;
  riskLevel : string;
  title : string;
  status : TaskStatus;
  legalBasis : string;
  evidenceRequired : list string;
  responsibleRole : option string;
  deadline : Date;
  evidenceRequiredForClosure : bool;
  isDeleted : bool;
  notes : option string;
  closedAt : option Date
}.
End RemediationTask.

Module EvidenceFile.
Record t := mk {
  id : Id;
  taskId : Id;
  orgId : Id;
  isDeleted : bool
}.
End EvidenceFile.

Module AuditLog.
Record t := mk {
  orgId : Id;
  userId : Id;
  action : string;
  entityType : option string;
  entityId : option Id;
  oldValue : option Json.t;
  newValue : option Json.t;
  ipAddress : string;
  userAgent : option string
}.
End AuditLog.

Module Store.
Record t := mk {
  organizations : list Organization.t;
  controls : list Control.t;
  assessments : list Assessment.t;
  responses : list Response.t;
  remediationTasks : list RemediationTask.t;
  evidenceFiles : list EvidenceFile.t;
  auditLogs : list AuditLog.t;
  nextId : Id
}.

Definition withAssessments (l : list Assessment.t) (db : t) : t :=
  mk (organizations db) (controls db) l (responses db)
     (remediationTasks db) (evidenceFiles db) (auditLogs db) (nextId db).

Definition withResponses (l : list Response.t) (db : t) : t :=
  mk (organizations db) (controls db) (assessments db) l
     (remediationTasks db) (evidenceFiles db) (auditLogs db) (nextId db).

Definition withTasks (l : list RemediationTask.t) (db : t) : t :=
  mk (organizations db) (controls db) (assessments db) (responses db)
     l (evidenceFiles db) (auditLogs db) (nextId db).

Definition withAuditLogs (l : list AuditLog.t) (db : t) : t :=
  mk (organizations db) (controls db) (assessments db) (responses db)
     (remediationTasks db) (evidenceFiles db) l (nextId db).

(** Drawing the key of a new row. *)
Definition bumpId (db : t) : t :=
  mk (organizations db) (controls db) (assessments db) (responses db)
     (remediationTasks db) (evidenceFiles db) (auditLogs db)
     (S (nextId db)).
End Store.

(* ===================================================================== *)
(** ** Requests and replies *)
(* ===================================================================== *)

(** middleware/auth: the payload of the verified token. *)
Module JwtPayload.
Record t := mk {
  userId : Id;
  orgId : Id;
  role : string
}.
End JwtPayload.

Module ROLES.
Definition SUPER_ADMIN := "super_admin".
Definition ORG_ADMIN := "org_admin".
Definition DPO := "dpo".
Definition CISO := "ciso".
Definition CDO := "cdo".
Definition COMPLIANCE_OFFICER := "compliance_officer".
Definition DATA_STEWARD := "data_steward".
Definition DATA_CUSTODIAN := "data_custodian".
Definition DEPARTMENT_MANAGER := "department_manager".
Definition STAFF := "staff".
Definition AUDITOR := "auditor".
End ROLES.

(** What every authenticated request carries besides its body. *)
Module Req.
Record t := mk {
  user : JwtPayload.t;
  ip : string;
  userAgent : option string;
  now : Date
}.
End Req.

(** A textual field of a request body. *)
Inductive BodyField :=
| Undefined
| NullValue
| Text (s : string).

Definition BodyField_truthy (f : BodyField) : bool :=
  match f with
  | Text s => JS.truthy s
  | _ => false
  end.

(** The [code] member of an error reply. *)
Inductive ErrorCode :=
| ONBOARDING_REQUIRED
| VALIDATION_ERROR
| NOT_FOUND
| ASSESSMENT_LOCKED
| MANDATORY_CONTROL
| JUSTIFICATION_REQUIRED
| INVALID_STATUS
| INVALID_TRANSITION
| NOTES_REQUIRED
| EVIDENCE_REQUIRED
| REJECTION_NOTE_REQUIRED
| FORBIDDEN
| INTERNAL_ERROR.

Inductive Reply (A : Type) :=
| Json (status : Z) (body : A)
| Error (status : Z) (code : ErrorCode).

Arguments Json {A} status body.
Arguments Error {A} status code.

Definition isSuccess {A} (r : Reply A) : bool :=
  match r with
  | Json _ _ => true
  | Error _ _ => false
  end.

(* ===================================================================== *)
(** ** utils/auditLogger *)
(* ===================================================================== *)

Module AuditLogger.

(** [getClientIp] *)
Definition getClientIp (req : Req.t) : string := Req.ip req.

(** [logAudit]: one more row in the audit table. *)
Definition logAudit (req : Req.t) (action : string)
  (entityType : option string) (entityId : option Id)
  (oldValue newValue : option Json.t) (db : Store.t) : Store.t :=
  let row :=
    AuditLog.mk (JwtPayload.orgId (Req.user req))
      (JwtPayload.userId (Req.user req)) action entityType entityId
      oldValue newValue (getClientIp req) (Req.userAgent req) in
  Store.withAuditLogs (Store.auditLogs db ++ [row])%list db.

End AuditLogger.

(* ===================================================================== *)
(** ** routes/assessments *)
(* ===================================================================== *)

Module Assessments.

(** middleware/auth [authorize(...allowedRoles)] *)
Definition authorize (allowedRoles : list string) (req : Req.t) : bool :=
  negb ((0 <? Z.of_nat (List.length allowedRoles))
        && negb (JS.includes allowedRoles (JwtPayload.role (Req.user req)))).

Definition findOrganization (db : Store.t) (orgId : Id)
  : option Organization.t :=
  find (fun o => Nat.eqb (Organization.id o) orgId) (Store.organizations db).

Definition findControl (db : Store.t) (controlId : string)
  : option Control.t :=
  find (fun c => (Control.id c =? controlId)%string) (Store.controls db).

(** [findFirst({ where: { id, orgId, isDeleted: false } })] *)
Definition findAssessment (db : Store.t) (assessmentId orgId : Id)
  : option Assessment.t :=
  find (fun a => Nat.eqb (Assessment.id a) assessmentId
                 && Nat.eqb (Assessment.orgId a) orgId
                 && negb (Assessment.isDeleted a))
       (Store.assessments db).

(** The first row of a table ordered by [assessmentVersion] descending. *)
Fixpoint maxByVersion (l : list Assessment.t) : option Assessment.t :=
  match l with
  | [] => None
  | a :: l' =>
      match maxByVersion l' with
      | None => Some a
      | Some b =>
          if Assessment.assessmentVersion b <=? Assessment.assessmentVersion a
          then Some a else Some b
      end
  end.

(** [findFirst({ where: { orgId, isDeleted: false },
                 orderBy: { assessmentVersion: 'desc' } })] *)
Definition findLatestAssessment (db : Store.t) (orgId : Id)
  : option Assessment.t :=
  maxByVersion
    (filter (fun a => Nat.eqb (Assessment.orgId a) orgId
                      && negb (Assessment.isDeleted a))
            (Store.assessments db)).

(** [assessment.update({ where: { id }, data })] *)
Definition updateAssessment (id : Id) (data : Assessment.t -> Assessment.t)
  (db : Store.t) : Store.t :=
  Store.withAssessments
    (map (fun a => if Nat.eqb (Assessment.id a) id then data a else a)
         (Store.assessments db))
    db.

(** POST /assessments *)
Definition createAssessment (req : Req.t) (db : Store.t)
  : Reply Assessment.t * Store.t :=
  if negb (authorize [ROLES.ORG_ADMIN; ROLES.DPO; ROLES.COMPLIANCE_OFFICER]
                     req)
  then (Error 403 FORBIDDEN, db)
  else
    let orgId := JwtPayload.orgId (Req.user req) in
    match findOrganization db orgId with
    | None => (Error 400 ONBOARDING_REQUIRED, db)
    | Some org =>
        if negb (Organization.onboardingCompleted org)
        then (Error 400 ONBOARDING_REQUIRED, db)
        else
          let latestAssessment := findLatestAssessment db orgId in
          let newVersion :=
            match latestAssessment with
            | Some latest => Assessment.assessmentVersion latest + 1
            | None => 1
            end in
          let db1 :=
            match latestAssessment with
            | Some latest =>
                if negb (AssessmentStatus_eqb (Assessment.status latest)
                                              ARCHIVED)
                then updateAssessment (Assessment.id latest)
                       (Assessment.withStatus ARCHIVED) db
                else db
            | None => db
            end in
          let assessment :=
            Assessment.mk (Store.nextId db1) orgId newVersion DRAFT false
              (JwtPayload.userId (Req.user req))
              None None None None None None None None None in
          let db2 :=
            Store.bumpId
              (Store.withAssessments
                 (Store.assessments db1 ++ [assessment])%list db1) in
          let db3 :=
            AuditLogger.logAudit req "ASSESSMENT_CREATED"
              (Some "assessment") (Some (Assessment.id assessment)) None
              (Some (Json.Obj [("version", Json.Num (inject_Z newVersion))]))
              db2 in
          (Json 201 assessment, db3)
    end.

(** The body of PUT /assessments/:id/responses/:controlId *)
Module ResponseBody.
Record t := mk {
  answer : string;
  naJustification : BodyField;
  notes : BodyField
}.
End ResponseBody.

Definition mandatoryControls : list string :=
  ["PDPL-C.1"; "PDPL-G.1"; "HS-PDPL-001"; "HS-PDPL-002"; "HS-PDPL-003"].

(** [!naJustification || naJustification.length < 20] *)
Definition justificationMissing (naJustification : BodyField) : bool :=
  match naJustification with
  | Text s => negb (JS.truthy s) || (Z.of_nat (String.length s) <? 20)
  | _ => true
  end.

(** The column value written for a body field. *)
Definition columnOf (f : BodyField) : option string :=
  match f with
  | Text s => Some s
  | _ => None
  end.

(** [findUnique({ where: { assessmentId_controlId } })] *)
Definition findResponse (db : Store.t) (assessmentId : Id)
  (controlId : string) : option Response.t :=
  find (fun r => Nat.eqb (Response.assessmentId r) assessmentId
                 && (Response.controlId r =? controlId)%string)
       (Store.responses db).

(** [findFirst({ where: { assessmentId, controlId, orgId,
                          isDeleted: false } })] *)
Definition findTask (db : Store.t) (assessmentId : Id) (controlId : string)
  (orgId : Id) : option RemediationTask.t :=
  find (fun t => Nat.eqb (RemediationTask.assessmentId t) assessmentId
                 && (RemediationTask.controlId t =? controlId)%string
                 && Nat.eqb (RemediationTask.orgId t) orgId
                 && negb (RemediationTask.isDeleted t))
       (Store.remediationTasks db).

(** [remediationTask.create({ data })]; the key is drawn by the store. *)
Definition createTask (mkRow : Id -> RemediationTask.t) (db : Store.t)
  : Store.t :=
  Store.bumpId
    (Store.withTasks
       (Store.remediationTasks db ++ [mkRow (Store.nextId db)])%list db).

(** [[a, b, c, d].filter(Boolean)] *)
Definition filterBoolean (l : list (option string)) : list string :=
  flat_map (fun o => match o with
                     | Some s => if JS.truthy s then [s] else []
                     | None => []
                     end) l.

(** The row of the automatically created task for a NO or PARTIAL. *)
Definition gapTask (req : Req.t) (assessmentId : Id) (control : Control.t)
  (controlId answer : string) (id : Id) : RemediationTask.t :=
  let deadlineDays :=
    Scoring.getDefaultDeadlineDays (Control.riskLevel control) in
  RemediationTask.mk id
    (JwtPayload.orgId (Req.user req))
    assessmentId
    controlId
    (if (answer =? "NO")%string then "GAP" else "PARTIAL")
    (Control.riskLevel control)
    ("Implement: " ++ JS.substring0 200 (Control.objectiveEn control))
    OPEN
    (JS.join " | "
       (filterBoolean [Control.regArticles control;
                       Control.transferRegArticles control;
                       Control.ncaRef control;
                       Control.mohPolicyRef control]))
    (match Control.evidenceGuidanceEn control with
     | Some g => if JS.truthy g then [g] else []
     | None => []
     end)
    (match Control.responsibleRoles control with
     | r :: _ => if JS.truthy r then Some r else None
     | [] => None
     end)
    (addDays (Req.now req) deadlineDays)
    ((Control.riskLevel control =? "CRITICAL")%string
     || (Control.riskLevel control =? "HIGH")%string)
    false None None.

(** The row of the transfer-suspension alert. *)
Definition alertTask (req : Req.t) (assessmentId : Id) (controlId : string)
  (id : Id) : RemediationTask.t :=
  RemediationTask.mk id
    (JwtPayload.orgId (Req.user req))
    assessmentId
    controlId
    "GAP"
    "CRITICAL"
    ("URGENT: Transfer suspension required — " ++ controlId)
    OPEN
    "Transfer Reg. Art. 7"
    [] None
    (Req.now req)
    true
    false None None.

(** PUT /assessments/:id/responses/:controlId *)
Definition submitResponse (req : Req.t) (assessmentId : Id)
  (controlId : string) (body : ResponseBody.t) (db : Store.t)
  : Reply Response.t * Store.t :=
  let answer := ResponseBody.answer body in
  let naJustification := ResponseBody.naJustification body in
  let notes := ResponseBody.notes body in
  let user := Req.user req in
  if negb (JS.includes ["YES"; "PARTIAL"; "NO"; "NA"] answer)
  then (Error 400 VALIDATION_ERROR, db)
  else
  match findAssessment db assessmentId (JwtPayload.orgId user) with
  | None => (Error 404 NOT_FOUND, db)
  | Some assessment =>
  if negb (AssessmentStatus_eqb (Assessment.status assessment) DRAFT)
     && negb (AssessmentStatus_eqb (Assessment.status assessment) IN_REVIEW)
  then (Error 400 ASSESSMENT_LOCKED, db)
  else
  match findControl db controlId with
  | None => (Error 404 NOT_FOUND, db)
  | Some control =>
  let org := findOrganization db (JwtPayload.orgId user) in
  (* Rule 4; [org!.orgType] throws when the organization row is missing *)
  let rule4 : option bool :=
    if (answer =? "NA")%string && JS.includes mandatoryControls controlId
    then match org with
         | Some o => Some (Branching.isHealthOrg (Organization.orgType o))
         | None => None
         end
    else Some false in
  match rule4 with
  | None => (Error 500 INTERNAL_ERROR, db)
  | Some true => (Error 400 MANDATORY_CONTROL, db)
  | Some false =>
  if (answer =? "NA")%string && justificationMissing naJustification
  then (Error 400 JUSTIFICATION_REQUIRED, db)
  else
  let pointsEarned :=
    Scoring.getPointsForAnswer answer (Control.pointsYes control)
      (Control.pointsPartial control) in
  let existingResponse := findResponse db assessmentId controlId in
  let storedJustification :=
    if (answer =? "NA")%string then columnOf naJustification else None in
  let '(response, db1) :=
    match existingResponse with
    | Some existing =>
        let updated :=
          Response.mk (Response.id existing)
            (Response.assessmentId existing) (Response.controlId existing)
            answer storedJustification pointsEarned
            (match notes with
             | Undefined => Response.notes existing
             | _ => columnOf notes
             end)
            (Response.answeredBy existing)
            (Some (JwtPayload.userId user)) (Some (Req.now req)) in
        (updated,
         Store.withResponses
           (map (fun r => if Nat.eqb (Response.id r) (Response.id existing)
                          then updated else r)
                (Store.responses db))
           db)
    | None =>
        let created :=
          Response.mk (Store.nextId db) assessmentId controlId answer
            storedJustification pointsEarned (columnOf notes)
            (JwtPayload.userId user) None None in
        (created,
         Store.bumpId
           (Store.withResponses (Store.responses db ++ [created])%list db))
    end in
  (* Auto-create remediation task for NO or PARTIAL *)
  let db2 :=
    if (answer =? "NO")%string || (answer =? "PARTIAL")%string
    then match findTask db1 assessmentId controlId (JwtPayload.orgId user)
         with
         | None =>
             createTask (gapTask req assessmentId control controlId answer)
                        db1
         | Some _ => db1
         end
    else db1 in
  (* T.8 auto-alert *)
  let db3 :=
    if JS.startsWith controlId "PDPL-T.8" && (answer =? "YES")%string
    then createTask (alertTask req assessmentId controlId) db2
    else db2 in
  let db4 :=
    AuditLogger.logAudit req "RESPONSE_SUBMITTED" (Some "response")
      (Some (Response.id response))
      (match existingResponse with
       | Some existing =>
           Some (Json.Obj [("answer", Json.Str (Response.answer existing))])
       | None => None
       end)
      (Some (Json.Obj [("controlId", Json.Str controlId);
                       ("answer", Json.Str answer);
                       ("pointsEarned", Json.Num pointsEarned)]))
      db3 in
  (Json 200 response, db4)
  end end end.

(** The rows of [include: { responses: { include: { control: true } } }],
    mapped to the input of the scoring service; every response refers to
    a control of the catalogue. *)
Definition controlScoresOf (db : Store.t) (assessmentId : Id)
  : list ControlScore.t :=
  flat_map
    (fun r =>
       if Nat.eqb (Response.assessmentId r) assessmentId
       then match findControl db (Response.controlId r) with
            | Some control =>
                [ControlScore.mk (Response.controlId r)
                   (Control.domainNumber control)
                   (Control.riskLevel control)
                   (Response.answer r)
                   (Control.pointsYes control)
                   (Control.pointsPartial control)
                   (Response.pointsEarned r)
                   (Control.weightMultiplier control)]
            | None => []
            end
       else [])
    (Store.responses db).

(** POST /assessments/:id/finalize *)
Definition finalizeAssessment (req : Req.t) (assessmentId : Id)
  (db : Store.t) : Reply Assessment.t * Store.t :=
  let user := Req.user req in
  if negb (authorize [ROLES.DPO; ROLES.ORG_ADMIN] req)
  then (Error 403 FORBIDDEN, db)
  else
  match findAssessment db assessmentId (JwtPayload.orgId user) with
  | None => (Error 404 NOT_FOUND, db)
  | Some assessment =>
  if negb (AssessmentStatus_eqb (Assessment.status assessment) DRAFT)
     && negb (AssessmentStatus_eqb (Assessment.status assessment) IN_REVIEW)
  then (Error 400 INVALID_STATUS, db)
  else
  let scores :=
    Scoring.calculateScores (controlScoresOf db (Assessment.id assessment)) in
  let data (a : Assessment.t) : Assessment.t :=
    Assessment.mk (Assessment.id a) (Assessment.orgId a)
      (Assessment.assessmentVersion a) FINALIZED (Assessment.isDeleted a)
      (Assessment.createdBy a)
      (Some (ScoreResult.overallScore scores))
      (Some (ScoreResult.totalControlsAssessed scores))
      (Some (ScoreResult.criticalGaps scores))
      (Some (ScoreResult.highGaps scores))
      (Some (ScoreResult.mediumGaps scores))
      (Some (ScoreResult.lowGaps scores))
      (Some (ScoreResult.domainScores scores))
      (Some (JwtPayload.userId user)) (Some (Req.now req)) in
  let db1 := updateAssessment (Assessment.id assessment) data db in
  let db2 :=
    AuditLogger.logAudit req "ASSESSMENT_FINALIZED" (Some "assessment")
      (Some (Assessment.id assessment)) None
      (Some (Json.Obj
               [("overallScore", Json.Num (ScoreResult.overallScore scores));
                ("version",
                 Json.Num (inject_Z (Assessment.assessmentVersion
                                       assessment)))]))
      db1 in
  (Json 200 (data assessment), db2)
  end.

(** PUT /assessments/:id/submit-review *)
Definition submitForReview (req : Req.t) (assessmentId : Id) (db : Store.t)
  : Reply Assessment.t * Store.t :=
  match findAssessment db assessmentId (JwtPayload.orgId (Req.user req)) with
  | None => (Error 400 INVALID_STATUS, db)
  | Some assessment =>
      if negb (AssessmentStatus_eqb (Assessment.status assessment) DRAFT)
      then (Error 400 INVALID_STATUS, db)
      else
        (Json 200 (Assessment.withStatus IN_REVIEW assessment),
         updateAssessment (Assessment.id assessment)
           (Assessment.withStatus IN_REVIEW) db)
  end.

End Assessments.

(* ===================================================================== *)
(** ** routes/remediation *)
(* ===================================================================== *)

Module Remediation.

(** The body of PUT /remediation/tasks/:id/status *)
Module StatusBody.
Record t := mk {
  status : string;
  notes : BodyField;
  rejectionNote : BodyField
}.
End StatusBody.

(** [validTransitions[task.status]] *)
Definition validTransitions (current : TaskStatus) : list string :=
  match current with
  | OPEN => ["IN_PROGRESS"; "DEFERRED"]
  | IN_PROGRESS => ["UNDER_REVIEW"; "DEFERRED"]
  | UNDER_REVIEW => ["CLOSED"; "IN_PROGRESS"; "DEFERRED"]
  | CLOSED => []
  | DEFERRED => ["OPEN"; "IN_PROGRESS"]
  end.

(** [findFirst({ where: { id, orgId, isDeleted: false } })] *)
Definition findTask (db : Store.t) (taskId orgId : Id)
  : option RemediationTask.t :=
  find (fun t => Nat.eqb (RemediationTask.id t) taskId
                 && Nat.eqb (RemediationTask.orgId t) orgId
                 && negb (RemediationTask.isDeleted t))
       (Store.remediationTasks db).

(** [evidenceFile.findFirst({ where: { taskId, orgId,
                                       isDeleted: false } })] *)
Definition findEvidence (db : Store.t) (taskId orgId : Id)
  : option EvidenceFile.t :=
  find (fun e => Nat.eqb (EvidenceFile.taskId e) taskId
                 && Nat.eqb (EvidenceFile.orgId e) orgId
                 && negb (EvidenceFile.isDeleted e))
       (Store.evidenceFiles db).

(** The members a body field contributes to a logged JSON object. *)
Definition memberOf (name : string) (f : BodyField)
  : list (string * Json.t) :=
  match f with
  | Undefined => []
  | NullValue => [(name, Json.Null)]
  | Text s => [(name, Json.Str s)]
  end.

Definition columnOfNotes (f : BodyField) : option string :=
  match f with
  | Text s => Some s
  | _ => None
  end.

(** The guards that follow the transition table; [None] lets the request
    through. *)
Definition guard (req : Req.t) (task : RemediationTask.t)
  (body : StatusBody.t) (db : Store.t) : option (Z * ErrorCode) :=
  let status := StatusBody.status body in
  let notes := StatusBody.notes body in
  let role := JwtPayload.role (Req.user req) in
  let orgId := JwtPayload.orgId (Req.user req) in
  if TaskStatus_eqb (RemediationTask.status task) IN_PROGRESS
     && (status =? "UNDER_REVIEW")%string
     && negb (BodyField_truthy notes)
     && negb (JS.truthy_opt (RemediationTask.notes task))
  then Some (400, NOTES_REQUIRED)
  else if (status =? "CLOSED")%string
          && negb (JS.includes [ROLES.DPO; ROLES.ORG_ADMIN;
                                ROLES.COMPLIANCE_OFFICER] role)
  then Some (403, FORBIDDEN)
  else if (status =? "CLOSED")%string
          && RemediationTask.evidenceRequiredForClosure task
          && match findEvidence db (RemediationTask.id task) orgId with
             | Some _ => false
             | None => true
             end
  then Some (400, EVIDENCE_REQUIRED)
  else if (status =? "DEFERRED")%string
          && negb (role =? ROLES.DPO)%string
          && negb (role =? ROLES.ORG_ADMIN)%string
  then Some (403, FORBIDDEN)
  else if (status =? "DEFERRED")%string && negb (BodyField_truthy notes)
  then Some (400, JUSTIFICATION_REQUIRED)
  else if TaskStatus_eqb (RemediationTask.status task) UNDER_REVIEW
          && (status =? "IN_PROGRESS")%string
          && negb (BodyField_truthy (StatusBody.rejectionNote body))
  then Some (400, REJECTION_NOTE_REQUIRED)
  else None.

(** PUT /remediation/tasks/:id/status *)
Definition changeTaskStatus (req : Req.t) (taskId : Id)
  (body : StatusBody.t) (db : Store.t)
  : Reply RemediationTask.t * Store.t :=
  let status := StatusBody.status body in
  let notes := StatusBody.notes body in
  match findTask db taskId (JwtPayload.orgId (Req.user req)) with
  | None => (Error 404 NOT_FOUND, db)
  | Some task =>
  if negb (JS.includes (validTransitions (RemediationTask.status task))
                       status)
  then (Error 422 INVALID_TRANSITION, db)
  else
  match guard req task body db with
  | Some (code, err) => (Error code err, db)
  | None =>
  match TaskStatus_ofString status with
  | None => (Error 500 INTERNAL_ERROR, db)
  | Some newStatus =>
  let oldStatus := RemediationTask.status task in
  let data (t : RemediationTask.t) : RemediationTask.t :=
    RemediationTask.mk (RemediationTask.id t) (RemediationTask.orgId t)
      (RemediationTask.assessmentId t) (RemediationTask.controlId t)
      (RemediationTask.gapType t) (RemediationTask.riskLevel t)
      (RemediationTask.title t) newStatus (RemediationTask.legalBasis t)
      (RemediationTask.evidenceRequired t)
      (RemediationTask.responsibleRole t) (RemediationTask.deadline t)
      (RemediationTask.evidenceRequiredForClosure t)
      (RemediationTask.isDeleted t)
      (if BodyField_truthy notes then columnOfNotes notes
       else RemediationTask.notes task)
      (if (status =? "CLOSED")%string then Some (Req.now req)
       else RemediationTask.closedAt t) in
  let db1 :=
    Store.withTasks
      (map (fun t => if Nat.eqb (RemediationTask.id t)
                                (RemediationTask.id task)
                     then data t else t)
           (Store.remediationTasks db))
      db in
  let db2 :=
    AuditLogger.logAudit req "TASK_STATUS_CHANGED" (Some "task")
      (Some (RemediationTask.id task))
      (Some (Json.Obj [("status",
                        Json.Str (TaskStatus_toString oldStatus))]))
      (Some (Json.Obj (("status", Json.Str status)
                       :: memberOf "notes" notes)))
      db1 in
  (Json 200 (data task), db2)
  end end end.

End Remediation.

(* ===================================================================== *)
(** ** What the specification says, in its own words *)
(* ===================================================================== *)

Module ScoringSpec.

(** The responses that take part in scoring: those not answered NA. *)
Definition assessed (l : list ControlScore.t) : list ControlScore.t :=
  filter (fun c => negb (Scoring.isNA c)) l.

Fixpoint sumQ (f : ControlScore.t -> Q) (l : list ControlScore.t) : Q :=
  match l with
  | [] => 0%Q
  | c :: l' => (f c + sumQ f l')%Q
  end.

(** Sigma of pointsYes x weightMultiplier over the assessed responses. *)
Definition totalAvailable (l : list ControlScore.t) : Q :=
  sumQ Scoring.maxPointsOf (assessed l).

(** Sigma of pointsEarned x weightMultiplier over the assessed responses. *)
Definition totalEarned (l : list ControlScore.t) : Q :=
  sumQ Scoring.earnedOf (assessed l).



(** The number of responses that satisfy [p]. *)
Definition countIf (p : ControlScore.t -> bool) (l : list ControlScore.t)
  : Z :=
  Z.of_nat (List.length (filter p l)).

Definition isGap (level : string) (c : ControlScore.t) : bool :=
  Scoring.isNO c && (ControlScore.riskLevel c =? level)%string.

Definition inDomain (d : Z) (c : ControlScore.t) : bool :=
  ControlScore.domainNumber c =? d.

(** The catalogue and derivation invariants of the data model: weights
    are not negative and the points earned lie between 0 and the points
    of a YES. *)
Definition wellFormed (c : ControlScore.t) : Prop :=
  (0 <= ControlScore.weightMultiplier c)%Q
  /\ (0 <= ControlScore.pointsEarned c)%Q
  /\ (ControlScore.pointsEarned c <= ControlScore.pointsYes c)%Q.

(** The four global gap counters of a result. *)
Definition gapCounters (r : ScoreResult.t) : Z * Z * Z * Z :=
  (ScoreResult.criticalGaps r, ScoreResult.highGaps r,
   ScoreResult.mediumGaps r, ScoreResult.lowGaps r).

(** Domain [d] is reported in the result. *)
Definition reported (d : Z) (r : ScoreResult.t) : Prop :=
  exists e, In e (ScoreResult.domainScores r)
            /\ DomainScore.domainNumber e = d.

(** The value of a domain object before its first update. *)
Definition orEmpty (o : option Scoring.DomainData) : Scoring.DomainData :=
  match o with
  | Some x => x
  | None => Scoring.emptyDomain
  end.

End ScoringSpec.

(* ===================================================================== *)
(** ** Sample data *)
(* ===================================================================== *)

Module Samples.



(** A domain whose only control was answered NA. *)
Definition onlyNA : list ControlScore.t :=
  [ ControlScore.mk "PDPL-R.1" 3 "HIGH" "NA" 10 5 0 1 ].

(** A domain whose only assessed control carries no points. *)
Definition zeroPoints : list ControlScore.t :=
  [ ControlScore.mk "PDPL-D.2" 7 "LOW" "YES" 0 0 0 1 ].

(** The entry reported for [zeroPoints]. *)
Definition zeroPointsEntry : DomainScore.t :=
  DomainScore.mk 7 "Records & Documentation" 0 0 0 1 0 0.


(** A hospital that uses the cloud and transfers no data abroad. *)
Definition hospital : OrgProfile.t :=
  OrgProfile.mk "private_hospital" true false "yes" false false false.

(** A conditional control: only for organizations that conduct research. *)
Definition researchOnly : Json.t :=
  Json.Obj [("conductsResearch", Json.Bool true)].

(** A store with one organization, three controls, one draft assessment
    and one open task. *)
Definition demoOrg : Organization.t :=
  Organization.mk 1%nat "private_hospital" true true "yes" false false false true.

Definition controlT8 : Control.t :=
  Control.mk "PDPL-T.8" 5 "CRITICAL" 10 5 1
    "Suspend transfers when a suspension trigger occurs"
    None (Some "Transfer Reg. Art. 7") None None
    (Some "Transfer suspension log") ["dpo"] Json.Null.

Definition controlG1 : Control.t :=
  Control.mk "PDPL-G.1" 1 "CRITICAL" 10 5 1
    "Appoint a data protection officer"
    (Some "Reg. Art. 32(1)(c)") None None None
    (Some "DPO appointment letter") ["dpo"] Json.Null.

Definition controlS9 : Control.t :=
  Control.mk "PDPL-S.9" 4 "LOW" 4 2 1
    "Review physical access logs"
    None None (Some "NCA-D2.R9") None None [] Json.Null.

Definition draft1 : Assessment.t :=
  Assessment.mk 10%nat 1%nat 1 DRAFT false 2%nat
    None None None None None None None None None.

Definition openTask : RemediationTask.t :=
  RemediationTask.mk 20%nat 1%nat 10%nat "PDPL-S.9" "GAP" "LOW"
    "Implement: Review physical access logs" OPEN "NCA-D2.R9" [] None
    1000 false false None None.

Definition closedTask : RemediationTask.t :=
  RemediationTask.mk 21%nat 1%nat 10%nat "PDPL-G.1" "GAP" "CRITICAL"
    "Implement: Appoint a data protection officer" CLOSED
    "Reg. Art. 32(1)(c)" [] None 1000 true false None (Some 900).

Definition demoStore : Store.t :=
  Store.mk [demoOrg] [controlT8; controlG1; controlS9] [draft1] []
    [openTask; closedTask] [] [] 100%nat.

(** A request of the organization's data protection officer. *)
Definition dpoReq : Req.t :=
  Req.mk (JwtPayload.mk 2%nat 1%nat "dpo") "10.0.0.7" None 5000.

(** The same store before any task exists. *)
Definition freshStore : Store.t := Store.withTasks [] demoStore.

(** The answer YES, without notes. *)
Definition yesBody : Assessments.ResponseBody.t :=
  Assessments.ResponseBody.mk "YES" Undefined Undefined.

(** The answer NO, without notes. *)
Definition noBody : Assessments.ResponseBody.t :=
  Assessments.ResponseBody.mk "NO" Undefined Undefined.

(** The store after seeding, and after a first assessment was created. *)
Definition seededStore : Store.t :=
  Store.mk [demoOrg] [controlT8; controlG1; controlS9] [] [] [] [] [] 100%nat.

Definition firstCreated : Store.t :=
  snd (Assessments.createAssessment dpoReq seededStore).

(** A task under review that needs evidence to be closed, in a store
    that holds one evidence file for it; a task in progress without
    notes. *)
Definition reviewTask : RemediationTask.t :=
  RemediationTask.mk 22%nat 1%nat 10%nat "PDPL-T.8" "GAP" "CRITICAL"
    "Implement: Suspend transfers when a suspension trigger occurs"
    UNDER_REVIEW "Transfer Reg. Art. 7" [] None 1000 true false
    (Some "Procedure drafted") None.

Definition startedTask : RemediationTask.t :=
  RemediationTask.mk 23%nat 1%nat 10%nat "PDPL-S.9" "PARTIAL" "LOW"
    "Implement: Review physical access logs" IN_PROGRESS "NCA-D2.R9" [] None
    1000 false false None None.

Definition reviewStore : Store.t :=
  Store.mk [demoOrg] [controlT8; controlG1; controlS9] [draft1] []
    [openTask; closedTask; reviewTask; startedTask]
    [EvidenceFile.mk 30%nat 22%nat 1%nat false] [] 100%nat.

(** A request of the organization's compliance officer. *)
Definition officerReq : Req.t :=
  Req.mk (JwtPayload.mk 3%nat 1%nat "compliance_officer") "10.0.0.8" None
    6000.

End Samples.

Module BranchingSpec.

(** Profile field [key] holds exactly the JSON value [value]. *)
Inductive fieldIs (p : OrgProfile.t) : string -> Json.t -> Prop :=
| fieldIs_orgType :
    fieldIs p "orgType" (Json.Str (OrgProfile.orgType p))
| fieldIs_processesMinors :
    fieldIs p "processesMinors" (Json.Bool (OrgProfile.processesMinors p))
| fieldIs_crossBorderTransfers :
    fieldIs p "crossBorderTransfers"
      (Json.Bool (OrgProfile.crossBorderTransfers p))
| fieldIs_usesCloud :
    fieldIs p "usesCloud" (Json.Str (OrgProfile.usesCloud p))
| fieldIs_conductsResearch :
    fieldIs p "conductsResearch" (Json.Bool (OrgProfile.conductsResearch p))
| fieldIs_usesAiOrAutomatedDecisions :
    fieldIs p "usesAiOrAutomatedDecisions"
      (Json.Bool (OrgProfile.usesAiOrAutomatedDecisions p))
| fieldIs_continuousMonitoring :
    fieldIs p "continuousMonitoring"
      (Json.Bool (OrgProfile.continuousMonitoring p)).

(** The transfer controls that rule 3 marks N/A. *)
Definition transferControls : list string :=
  ["PDPL-T.5"; "PDPL-T.6"; "PDPL-T.7"; "PDPL-T.8"; "PDPL-T.9"; "HS-PDPL-013"].

(** No element of [a] is in [b]. *)
Definition disjointb (a b : list string) : bool :=
  forallb (fun c => negb (JS.includes b c)) a.

End BranchingSpec.

Module RemediationSpec.

(** The fixed transition table of remediation tasks. *)
Inductive allowed : TaskStatus -> string -> Prop :=
| open_to_in_progress : allowed OPEN "IN_PROGRESS"
| open_to_deferred : allowed OPEN "DEFERRED"
| in_progress_to_under_review : allowed IN_PROGRESS "UNDER_REVIEW"
| in_progress_to_deferred : allowed IN_PROGRESS "DEFERRED"
| under_review_to_closed : allowed UNDER_REVIEW "CLOSED"
| under_review_to_in_progress : allowed UNDER_REVIEW "IN_PROGRESS"
| under_review_to_deferred : allowed UNDER_REVIEW "DEFERRED"
| deferred_to_open : allowed DEFERRED "OPEN"
| deferred_to_in_progress : allowed DEFERRED "IN_PROGRESS".

(** The reply of a request outside the table. *)
Definition InvalidTransition {A} : Reply A := Error 422 INVALID_TRANSITION.

End RemediationSpec.

Module AssessmentSpec.


(** The assessment can still be edited. *)
Definition editable (a : Assessment.t) : Prop :=
  Assessment.status a = DRAFT \/ Assessment.status a = IN_REVIEW.


(** The rows of a pair (assessment, control). *)
Definition responsesOf (db : Store.t) (assessmentId : Id) (controlId : string)
  : list Response.t :=
  filter (fun r => Nat.eqb (Response.assessmentId r) assessmentId
                   && (Response.controlId r =? controlId)%string)
         (Store.responses db).

Definition tasksOf (db : Store.t) (assessmentId : Id) (controlId : string)
  : list RemediationTask.t :=
  filter (fun t => Nat.eqb (RemediationTask.assessmentId t) assessmentId
                   && (RemediationTask.controlId t =? controlId)%string)
         (Store.remediationTasks db).


(** The answer is one that opens a gap. *)
Definition isGapAnswer (answer : string) : bool :=
  (answer =? "NO")%string || (answer =? "PARTIAL")%string.

(** The transfer-suspension alert fires. *)
Definition alertFires (controlId answer : string) : bool :=
  JS.startsWith controlId "PDPL-T.8" && (answer =? "YES")%string.

(** The pair a response row is unique for. *)
Definition pairOf (r : Response.t) : Id * string :=
  (Response.assessmentId r, Response.controlId r).

(** The unique constraints of the response table. *)
Record ResponsesOk (db : Store.t) : Prop := mkResponsesOk {
  response_ids_fresh :
    forall r, In r (Store.responses db) ->
              (Response.id r < Store.nextId db)%nat;
  response_ids_unique : NoDup (map Response.id (Store.responses db));
  response_pairs_unique : NoDup (map pairOf (Store.responses db))
}.

End AssessmentSpec.

Module Lifecycle.

(** One request handled by the server.  The routes that are not modelled
    (controls, dashboard, evidence, training, AI, task assignment) do not
    write the assessment table. *)
Inductive step (db : Store.t) : Store.t -> Prop :=
| step_createAssessment (req : Req.t) :
    step db (snd (Assessments.createAssessment req db))
| step_submitResponse (req : Req.t) (assessmentId : Id) (controlId : string)
    (body : Assessments.ResponseBody.t) :
    step db (snd (Assessments.submitResponse req assessmentId controlId body
                    db))
| step_finalizeAssessment (req : Req.t) (assessmentId : Id) :
    step db (snd (Assessments.finalizeAssessment req assessmentId db))
| step_submitForReview (req : Req.t) (assessmentId : Id) :
    step db (snd (Assessments.submitForReview req assessmentId db))
| step_changeTaskStatus (req : Req.t) (taskId : Id)
    (body : Remediation.StatusBody.t) :
    step db (snd (Remediation.changeTaskStatus req taskId body db)).

(** The store after seeding: the assessment table is empty. *)
Definition initial (db : Store.t) : Prop := Store.assessments db = [].

Inductive reachable : Store.t -> Prop :=
| reachable_initial (db : Store.t) : initial db -> reachable db
| reachable_step (db db' : Store.t) :
    reachable db -> step db db' -> reachable db'.

(** An assessment that is not archived. *)
Definition live (a : Assessment.t) : Prop := Assessment.status a <> ARCHIVED.

(** What every reachable store satisfies. *)
Record Inv (db : Store.t) : Prop := mkInv {
  ids_fresh :
    forall a, In a (Store.assessments db) ->
              (Assessment.id a < Store.nextId db)%nat;
  ids_unique : NoDup (map Assessment.id (Store.assessments db));
  not_deleted :
    forall a, In a (Store.assessments db) -> Assessment.isDeleted a = false;
  versions_distinct :
    forall a b,
      In a (Store.assessments db) -> In b (Store.assessments db) ->
      Assessment.orgId a = Assessment.orgId b ->
      Assessment.assessmentVersion a = Assessment.assessmentVersion b ->
      Assessment.id a = Assessment.id b;
  live_is_latest :
    forall a b,
      In a (Store.assessments db) -> In b (Store.assessments db) ->
      Assessment.orgId a = Assessment.orgId b ->
      live a ->
      Assessment.assessmentVersion b <= Assessment.assessmentVersion a
}.

(** The row of assessment [id] in the store. *)
Definition rowOf (db : Store.t) (id : Id) : option Assessment.t :=
  find (fun a => Nat.eqb (Assessment.id a) id) (Store.assessments db).

(** The request comes from a role that may create assessments. *)
Definition mayCreate (req : Req.t) : Prop :=
  In (JwtPayload.role (Req.user req))
     [ROLES.ORG_ADMIN; ROLES.DPO; ROLES.COMPLIANCE_OFFICER].

(** The organization of the request has completed onboarding. *)
Definition onboarded (req : Req.t) (db : Store.t) : Prop :=
  exists org,
    Assessments.findOrganization db (JwtPayload.orgId (Req.user req))
    = Some org
    /\ Organization.onboardingCompleted org = true.

End Lifecycle.

Module LifecycleAux.

(** The columns an update of the status leaves alone. *)
Definition keepsKey (f : Assessment.t -> Assessment.t) : Prop :=
  forall a,
    Assessment.id (f a) = Assessment.id a
    /\ Assessment.orgId (f a) = Assessment.orgId a
    /\ Assessment.assessmentVersion (f a) = Assessment.assessmentVersion a
    /\ Assessment.isDeleted (f a) = Assessment.isDeleted a.

(** The row written by POST /assessments. *)
Definition newAssessment (id orgId : Id) (version : Z) (createdBy : Id)
  : Assessment.t :=
  Assessment.mk id orgId version DRAFT false createdBy
    None None None None None None None None None.

End LifecycleAux.

Module CreateSpec.

(** The version the next assessment of an organization gets. *)
Definition nextVersion (previous : option Assessment.t) : Z :=
  match previous with
  | Some p => Assessment.assessmentVersion p + 1
  | None => 1
  end.

(** The store between the archival of the previous latest assessment and
    the creation of the new one. *)
Definition afterArchival (db : Store.t) (previous : option Assessment.t)
  : Store.t :=
  match previous with
  | Some latest =>
      if negb (AssessmentStatus_eqb (Assessment.status latest) ARCHIVED)
      then Assessments.updateAssessment (Assessment.id latest)
             (Assessment.withStatus ARCHIVED) db
      else db
  | None => db
  end.

End CreateSpec.

Module ScoringAux.

(** Sums over the reported domains. *)
Fixpoint sumOfZ (f : DomainScore.t -> Z) (l : list DomainScore.t) : Z :=
  match l with
  | [] => 0
  | e :: l' => f e + sumOfZ f l'
  end.


(** Sums over the objects of the domain map. *)
Fixpoint sumMapZ (f : Scoring.DomainData -> Z)
  (m : JS.Map Scoring.DomainData) : Z :=
  match m with
  | [] => 0
  | (_, d) :: m' => f d + sumMapZ f m'
  end.


(** The risk level is one of the four the gap tally knows. *)
Definition knownRisk (c : ControlScore.t) : bool :=
  JS.includes ["CRITICAL"; "HIGH"; "MEDIUM"; "LOW"] (ControlScore.riskLevel c).

(** Ascending domain numbers, none twice. *)
Definition ascending (l : list DomainScore.t) : Prop :=
  StronglySorted
    (fun a b => DomainScore.domainNumber a < DomainScore.domainNumber b) l.


End ScoringAux.

(* ===================================================================== *)
(** ** Read-only routes *)
(* ===================================================================== *)

(** The reply of GET /assessments/:id. *)
Module AssessmentDetail.
Record t := mk {
  assessment : Assessment.t;
  responses : list Response.t;
  progress : Z;
  totalApplicable : Z;
  answeredCount : Z;
  branchingResult : BranchingResult.t
}.
End AssessmentDetail.

Module AssessmentQueries.

(** The profile object the routes build from the organization row. *)
Definition profileOf (org : Organization.t) : OrgProfile.t :=
  OrgProfile.mk (Organization.orgType org)
    (Organization.processesMinors org)
    (Organization.crossBorderTransfers org)
    (Organization.usesCloud org)
    (Organization.conductsResearch org)
    (Organization.usesAiOrAutomatedDecisions org)
    (Organization.continuousMonitoring org).

(** [allControls.filter(c => isControlApplicable(c.id, c.conditionalOn,
    profile, branchingResult))] *)
Definition applicableOf (profile : OrgProfile.t)
  (branchingResult : BranchingResult.t) (allControls : list Control.t)
  : list Control.t :=
  filter (fun c => Branching.isControlApplicable (Control.id c)
                     (Control.conditionalOn c) profile branchingResult)
         allControls.




End AssessmentQueries.

(** An object used as a dictionary with numeric keys. *)
Module NumberKeyed.
Section Values.
Variable V : Type.

(** A key that is an array index: such keys are enumerated first, in
    ascending order; the others follow in the order of their creation. *)
Definition isArrayIndex (k : Z) : bool := (0 <=? k) && (k <=? 4294967294).

Fixpoint insertByKey (e : Z * V) (l : list (Z * V)) : list (Z * V) :=
  match l with
  | [] => [e]
  | e' :: l' =>
      if fst e <=? fst e' then e :: e' :: l' else e' :: insertByKey e l'
  end.

Definition sortByKey (l : list (Z * V)) : list (Z * V) :=
  fold_right insertByKey [] l.

(** [Object.values] *)
Definition Object_values (o : JS.Map V) : list V :=
  map snd
    (sortByKey (filter (fun e => isArrayIndex (fst e)) o)
     ++ filter (fun e => negb (isArrayIndex (fst e))) o)%list.
End Values.
End NumberKeyed.

(** One element of [domains] in the reply of GET /controls/applicable. *)
Module DomainGroup.
Record t := mk {
  domainNumber : Z;
  domainName : string;
  controls : list Control.t
}.
End DomainGroup.

(** The reply of GET /controls/applicable. *)
Module ApplicableReply.
Record t := mk {
  data : list Control.t;
  domains : list DomainGroup.t;
  total : Z;
  branchingResult : BranchingResult.t
}.
End ApplicableReply.

(** routes/controls *)
Module ControlsRoute.
Section Columns.

(** The [domainName] column of a control row. *)
Variable domainNameOf : Control.t -> string.

(** The rows of [findMany({ orderBy: [{ domainNumber: 'asc' },
    { id: 'asc' }] })], in the order the database gives them. *)
Variable ordered : list Control.t -> list Control.t.

(** One iteration of the grouping loop. *)
Definition groupStep (domains : JS.Map DomainGroup.t) (control : Control.t)
  : JS.Map DomainGroup.t :=
  let k := Control.domainNumber control in
  let domains1 :=
    if negb (JS.has k domains)
    then JS.set k (DomainGroup.mk k (domainNameOf control) []) domains
    else domains in
  match JS.get k domains1 with
  | Some g =>
      JS.set k
        (DomainGroup.mk (DomainGroup.domainNumber g)
           (DomainGroup.domainName g)
           (DomainGroup.controls g ++ [control])%list)
        domains1
  | None => domains1
  end.

Definition groupByDomain (applicableControls : list Control.t)
  : JS.Map DomainGroup.t :=
  fold_left groupStep applicableControls [].

(** GET /controls/applicable *)
Definition listApplicable (req : Req.t) (db : Store.t)
  : Reply ApplicableReply.t :=
  match Assessments.findOrganization db (JwtPayload.orgId (Req.user req)) with
  | None => Error 404 NOT_FOUND
  | Some org =>
      let profile := AssessmentQueries.profileOf org in
      let branchingResult := Branching.evaluateBranchingRules profile in
      let allControls := ordered (Store.controls db) in
      let applicableControls :=
        AssessmentQueries.applicableOf profile branchingResult allControls in
      let domains := groupByDomain applicableControls in
      Json 200
        (ApplicableReply.mk applicableControls
           (NumberKeyed.Object_values domains)
           (Z.of_nat (List.length applicableControls))
           branchingResult)
  end.

End Columns.
End ControlsRoute.

(** routes/remediation, GET /remediation/tasks *)
Module RemediationQueries.

Definition riskOrder : list (string * Z) :=
  [("CRITICAL", 0); ("HIGH", 1); ("MEDIUM", 2); ("LOW", 3)].

Fixpoint lookup (key : string) (o : list (string * Z)) : option Z :=
  match o with
  | [] => None
  | (k, v) :: o' => if (key =? k)%string then Some v else lookup key o'
  end.

(** [riskOrder[riskLevel] || 4]: 0 is falsy, and so is a missing entry.
    (A risk level that names a member of [Object.prototype] would give
    no number; the levels of the catalogue do not.) *)
Definition riskRank (riskLevel : string) : Z :=
  match lookup riskLevel riskOrder with
  | Some n => if n =? 0 then 4 else n
  | None => 4
  end.

Fixpoint insertByRisk (x : RemediationTask.t) (l : list RemediationTask.t)
  : list RemediationTask.t :=
  match l with
  | [] => [x]
  | y :: l' =>
      if riskRank (RemediationTask.riskLevel x)
         - riskRank (RemediationTask.riskLevel y) <=? 0
      then x :: y :: l'
      else y :: insertByRisk x l'
  end.

(** [filtered.sort((a, b) => (riskOrder[a.riskLevel] || 4)
                            - (riskOrder[b.riskLevel] || 4))], a stable
    sort. *)
Definition sortByRisk (filtered : list RemediationTask.t)
  : list RemediationTask.t :=
  fold_right insertByRisk [] filtered.

End RemediationQueries.

(* ===================================================================== *)
(** ** The handlers as a system *)
(* ===================================================================== *)

Module SystemSpec.

(** Any number of requests, handled one after the other. *)
Inductive steps (db : Store.t) : Store.t -> Prop :=
| steps_refl : steps db db
| steps_step (db1 db2 : Store.t) :
    steps db db1 -> Lifecycle.step db1 db2 -> steps db db2.




(** The audit entries a request leaves: one, of the given action and in
    the name of the caller, when [ok]; none otherwise. *)
Definition logged (req : Req.t) (action : string) (ok : bool)
  (db db' : Store.t) : Prop :=
  if ok
  then exists e,
         Store.auditLogs db' = (Store.auditLogs db ++ [e])%list
         /\ AuditLog.action e = action
         /\ AuditLog.orgId e = JwtPayload.orgId (Req.user req)
         /\ AuditLog.userId e = JwtPayload.userId (Req.user req)
         /\ AuditLog.ipAddress e = Req.ip req
  else Store.auditLogs db' = Store.auditLogs db.

(** The primary key of the task table. *)
Record TasksOk (db : Store.t) : Prop := mkTasksOk {
  task_ids_fresh :
    forall t, In t (Store.remediationTasks db) ->
              (RemediationTask.id t < Store.nextId db)%nat;
  task_ids_unique : NoDup (map RemediationTask.id (Store.remediationTasks db))
}.

(** The points of the catalogue: weights are not negative and a PARTIAL
    earns between nothing and the points of a YES. *)
Definition catalogueOk (db : Store.t) : Prop :=
  forall c, In c (Store.controls db) ->
            (0 <= Control.weightMultiplier c)%Q
            /\ (0 <= Control.pointsPartial c)%Q
            /\ (Control.pointsPartial c <= Control.pointsYes c)%Q.

(** Every response row holds the points its answer earns on its control. *)
Definition derived (db : Store.t) : Prop :=
  forall r, In r (Store.responses db) ->
            exists c,
              Assessments.findControl db (Response.controlId r) = Some c
              /\ Response.pointsEarned r
                 = Scoring.getPointsForAnswer (Response.answer r)
                     (Control.pointsYes c) (Control.pointsPartial c).

(** The tables no modelled handler writes. *)
Definition sameCatalogue (db db' : Store.t) : Prop :=
  Store.organizations db' = Store.organizations db
  /\ Store.controls db' = Store.controls db
  /\ Store.evidenceFiles db' = Store.evidenceFiles db.

(** The roles that may finalize an assessment. *)
Definition mayFinalize (req : Req.t) : Prop :=
  In (JwtPayload.role (Req.user req)) [ROLES.DPO; ROLES.ORG_ADMIN].


End SystemSpec.

Module QuerySpec.

(** The tasks of [l] whose risk level has rank [r], in the order of
    [l]. *)
Definition bucket (r : Z) (l : list RemediationTask.t)
  : list RemediationTask.t :=
  filter (fun t => RemediationQueries.riskRank (RemediationTask.riskLevel t)
                   =? r) l.

(** The tasks of one risk level, in the order of [l]. *)
Definition ofLevel (level : string) (l : list RemediationTask.t)
  : list RemediationTask.t :=
  filter (fun t => (RemediationTask.riskLevel t =? level)%string) l.

(** The tasks that are neither HIGH, MEDIUM nor LOW, in the order of
    [l]. *)
Definition rest (l : list RemediationTask.t) : list RemediationTask.t :=
  filter (fun t => negb (JS.includes ["HIGH"; "MEDIUM"; "LOW"]
                           (RemediationTask.riskLevel t))) l.

(** The controls of one domain, in the order of [l]. *)
Definition ofDomain (k : Z) (l : list Control.t) : list Control.t :=
  filter (fun c => Control.domainNumber c =? k) l.

(** The number of controls listed under the groups. *)
Definition grouped (groups : list DomainGroup.t) : nat :=
  list_sum (map (fun g => List.length (DomainGroup.controls g)) groups).

End QuerySpec.

(* ===================================================================== *)
(** ** routes/dashboard *)
(* ===================================================================== *)

Module Dashboard.





Section Ordering.

(** The rows in the order of [orderBy: { finalizedAt: 'desc' }]; the
    database decides the order of rows with equal times. *)
Variable byFinalizedAtDesc : list Assessment.t -> list Assessment.t.

(** [findFirst({ where: { orgId, status: 'FINALIZED', isDeleted: false },
                 orderBy: { finalizedAt: 'desc' } })] *)
Definition latestAssessment (req : Req.t) (db : Store.t)
  : option Assessment.t :=
  hd_error
    (byFinalizedAtDesc
       (filter (fun a => Nat.eqb (Assessment.orgId a)
                                 (JwtPayload.orgId (Req.user req))
                         && AssessmentStatus_eqb (Assessment.status a)
                              FINALIZED
                         && negb (Assessment.isDeleted a))
               (Store.assessments db))).


End Ordering.
End Dashboard.

Module IsolationSpec.




End IsolationSpec.

(* ===================================================================== *)
(** * Properties *)
(* ===================================================================== *)

Unset Implicit Arguments.

(** ** Scoring *)

Module ScoringFacts.
Import Scoring ScoringSpec Samples.

Lemma gt_zero_true (t : Q) : JS.gt t 0 = true <-> (0 < t)%Q.
Proof.
  unfold JS.gt. rewrite negb_true_iff.
  split; intro H.
  - apply Qnot_le_lt. intro Hle. apply Qle_bool_iff in Hle. congruence.
  - destruct (Qle_bool t 0) eqn:E; [| reflexivity].
    apply Qle_bool_iff in E. exfalso. exact (Qlt_not_le _ _ H E).
Qed.

Lemma gt_zero_false (t : Q) : JS.gt t 0 = false <-> ~ (0 < t)%Q.
Proof.
  rewrite <- gt_zero_true. destruct (JS.gt t 0); intuition congruence.
Qed.

(** *** The accumulators of the loop *)

Lemma fold_available (l : list ControlScore.t) (st : Locals) :
  (totalPointsAvailable (fold_left loopBody l st)
   == totalPointsAvailable st + sumQ maxPointsOf l)%Q.
Proof.
  revert st. induction l as [| c l IH]; intro st; simpl.
  - ring.
  - rewrite IH. simpl. ring.
Qed.

Lemma fold_earned (l : list ControlScore.t) (st : Locals) :
  (totalPointsEarned (fold_left loopBody l st)
   == totalPointsEarned st + sumQ earnedOf l)%Q.
Proof.
  revert st. induction l as [| c l IH]; intro st; simpl.
  - ring.
  - rewrite IH. simpl. ring.
Qed.

Lemma countIf_cons (p : ControlScore.t -> bool) c l :
  countIf p (c :: l) = (if p c then 1 else 0) + countIf p l.
Proof.
  unfold countIf. simpl. destruct (p c); simpl List.length; lia.
Qed.


Lemma countIf_nonneg (p : ControlScore.t -> bool) l : 0 <= countIf p l.
Proof. unfold countIf. lia. Qed.

Lemma fold_gaps (l : list ControlScore.t) (st : Locals) :
  let st' := fold_left loopBody l st in
  criticalGaps st' = criticalGaps st + countIf (isGap "CRITICAL") l
  /\ highGaps st' = highGaps st + countIf (isGap "HIGH") l
  /\ mediumGaps st' = mediumGaps st + countIf (isGap "MEDIUM") l
  /\ lowGaps st' = lowGaps st + countIf (isGap "LOW") l.
Proof.
  revert st. induction l as [| c l IH]; intro st; simpl.
  - unfold countIf; simpl. repeat split; lia.
  - destruct (IH (loopBody st c)) as (H1 & H2 & H3 & H4).
    rewrite H1, H2, H3, H4, !countIf_cons. simpl. unfold isGap.
    repeat split;
      match goal with
      | |- context [isNO c && ?b] => destruct (isNO c && b); lia
      end.
Qed.

(** NA responses are no gaps, so counting over all the responses or over
    the assessed ones is the same. *)
Lemma countIf_assessed (p : ControlScore.t -> bool) l :
  (forall c, p c = true -> isNA c = false) ->
  countIf p (assessed l) = countIf p l.
Proof.
  intro Hp. induction l as [| c l IH]; [reflexivity |].
  unfold assessed in *. simpl.
  destruct (isNA c) eqn:Ena; simpl.
  - rewrite countIf_cons, IH.
    destruct (p c) eqn:Epc; [| lia].
    apply Hp in Epc. congruence.
  - rewrite !countIf_cons, IH. reflexivity.
Qed.

Lemma isNO_not_NA c : isNO c = true -> isNA c = false.
Proof.
  unfold isNO, isNA. intro H. apply String.eqb_eq in H. rewrite H.
  reflexivity.
Qed.




(** *** Percentages *)

Lemma percentOf_zero (e t : Q) : ~ (0 < t)%Q -> percentOf e t = 0%Q.
Proof.
  intro H. unfold percentOf. apply gt_zero_false in H. rewrite H.
  reflexivity.
Qed.



Lemma percentOf_range (e t : Q) :
  (0 <= e)%Q -> (e <= t)%Q -> (0 <= percentOf e t)%Q /\ (percentOf e t <= 100)%Q.
Proof.
  intros He Het. unfold percentOf.
  destruct (JS.gt t 0) eqn:Egt; [| split; discriminate].
  apply gt_zero_true in Egt. unfold JS.Math_round.
  assert (Hlo : (0 <= e / t * 10000)%Q).
  { apply Qmult_le_0_compat; [| discriminate].
    apply Qle_shift_div_l; [exact Egt |]. rewrite Qmult_0_l. exact He. }
  assert (Hhi : (e / t * 10000 <= 10000)%Q).
  { setoid_replace 10000%Q with (1 * 10000)%Q at 2 by ring.
    apply Qmult_le_compat_r; [| discriminate].
    apply Qle_shift_div_r; [exact Egt |]. rewrite Qmult_1_l. exact Het. }
  assert (Hf0 : 0 <= Qfloor (e / t * 10000 + (1 # 2))).
  { change 0 with (Qfloor 0). apply Qfloor_resp_le.
    setoid_replace 0%Q with (0 + 0)%Q by ring.
    apply Qplus_le_compat; [exact Hlo | discriminate]. }
  assert (Hf1 : Qfloor (e / t * 10000 + (1 # 2)) <= 10000).
  { change 10000 with (Qfloor (10000 + (1 # 2))) at 2.
    apply Qfloor_resp_le. apply Qplus_le_l. exact Hhi. }
  split.
  - apply Qle_shift_div_l; [reflexivity |]. rewrite Qmult_0_l.
    change 0%Q with (inject_Z 0). rewrite <- Zle_Qle. exact Hf0.
  - apply Qle_shift_div_r; [reflexivity |].
    change (100 * 100)%Q with (inject_Z 10000). rewrite <- Zle_Qle.
    exact Hf1.
Qed.

Lemma sums_wellFormed (l : list ControlScore.t) :
  Forall wellFormed l ->
  (0 <= sumQ earnedOf l)%Q /\ (sumQ earnedOf l <= sumQ maxPointsOf l)%Q.
Proof.
  induction 1 as [| c l (Hw & He0 & He1) _ (IH0 & IH1)]; simpl.
  - split; apply Qle_refl.
  - unfold earnedOf at 1 3, maxPointsOf at 1.
    pose proof (Qmult_le_0_compat _ _ He0 Hw) as H0.
    pose proof (Qmult_le_compat_r _ _ _ He1 Hw) as H1.
    split; lra.
Qed.

Lemma calculateScores_overallScore (l : list ControlScore.t) :
  ScoreResult.overallScore (calculateScores l)
  = percentOf
      (totalPointsEarned (fold_left loopBody (assessed l) initLocals))
      (totalPointsAvailable (fold_left loopBody (assessed l) initLocals)).
Proof. reflexivity. Qed.

Lemma percentOf_comp (e e' t t' : Q) :
  (e == e')%Q -> (t == t')%Q -> (percentOf e t == percentOf e' t')%Q.
Proof.
  intros He Ht. unfold percentOf, JS.gt, JS.Math_round.
  assert (Hb : Qle_bool t 0 = Qle_bool t' 0).
  { destruct (Qle_bool t 0) eqn:E1, (Qle_bool t' 0) eqn:E2; try reflexivity.
    - apply Qle_bool_iff in E1. rewrite Ht in E1.
      apply Qle_bool_iff in E1. congruence.
    - apply Qle_bool_iff in E2. rewrite <- Ht in E2.
      apply Qle_bool_iff in E2. congruence. }
  rewrite Hb. destruct (Qle_bool t' 0) eqn:E; cbn [negb]; [reflexivity |].
  assert (Hnz : ~ (t' == 0)%Q).
  { intro Hz. rewrite Hz in E. discriminate. }
  assert (Hq : (e / t * 10000 + (1 # 2) == e' / t' * 10000 + (1 # 2))%Q).
  { rewrite He, Ht. reflexivity. }
  rewrite (Qfloor_comp _ _ Hq). reflexivity.
Qed.

Lemma overallScore_totals (l : list ControlScore.t) :
  (ScoreResult.overallScore (calculateScores l)
   == percentOf (totalEarned l) (totalAvailable l))%Q.
Proof.
  rewrite calculateScores_overallScore.
  apply percentOf_comp.
  - rewrite fold_earned. unfold totalEarned. simpl. ring.
  - rewrite fold_available. unfold totalAvailable. simpl. ring.
Qed.





(** *** The domain map *)

Section MapFacts.
Context {V : Type}.
Implicit Types (m : JS.Map V) (k d : Z) (v : V).

Lemma get_set d k v m :
  JS.get d (JS.set k v m) = if d =? k then Some v else JS.get d m.
Proof.
  induction m as [| [k' v'] m IH]; simpl.
  - destruct (d =? k); reflexivity.
  - destruct (k =? k') eqn:Ekk'; simpl.
    + apply Z.eqb_eq in Ekk'. subst k'.
      destruct (d =? k); reflexivity.
    + rewrite IH. destruct (d =? k) eqn:Edk; [| reflexivity].
      apply Z.eqb_eq in Edk. subst d. rewrite Ekk'. reflexivity.
Qed.

Lemma has_get k m :
  JS.has k m = match JS.get k m with Some _ => true | None => false end.
Proof.
  induction m as [| [k' v'] m IH]; simpl; [reflexivity |].
  destruct (k =? k'); [reflexivity | exact IH].
Qed.

Lemma keys_set k v m :
  map fst (JS.set k v m)
  = if JS.has k m then map fst m else (map fst m ++ [k])%list.
Proof.
  induction m as [| [k' v'] m IH]; simpl; [reflexivity |].
  destruct (k =? k') eqn:E; simpl; [reflexivity |].
  rewrite IH. destruct (JS.has k m); reflexivity.
Qed.

Lemma has_In k m : JS.has k m = true <-> In k (map fst m).
Proof.
  induction m as [| [k' v'] m IH]; simpl.
  - split; [discriminate | tauto].
  - destruct (k =? k') eqn:E.
    + apply Z.eqb_eq in E. subst. tauto.
    + apply Z.eqb_neq in E. rewrite IH. split; [tauto |].
      intros [H | H]; [congruence | exact H].
Qed.

Lemma NoDup_keys_set k v m :
  NoDup (map fst m) -> NoDup (map fst (JS.set k v m)).
Proof.
  intro H. rewrite keys_set. destruct (JS.has k m) eqn:E; [exact H |].
  apply NoDup_app; [exact H | repeat constructor; simpl; tauto |].
  intros x Hx [Hk | []]. subst x. apply has_In in Hx. congruence.
Qed.

Lemma get_In k v m : JS.get k m = Some v -> In (k, v) m.
Proof.
  induction m as [| [k' v'] m IH]; simpl; [discriminate |].
  destruct (k =? k') eqn:E.
  - apply Z.eqb_eq in E. subst. intro H. injection H as ->. left. reflexivity.
  - intro H. right. apply IH. exact H.
Qed.

Lemma In_get k v m : NoDup (map fst m) -> In (k, v) m -> JS.get k m = Some v.
Proof.
  induction m as [| [k' v'] m IH]; simpl; [tauto |].
  intros Hnd [H | H].
  - injection H as -> ->. rewrite Z.eqb_refl. reflexivity.
  - inversion Hnd as [| ? ? Hnotin Hnd']; subst.
    destruct (k =? k') eqn:E.
    + apply Z.eqb_eq in E. subst k'. exfalso. apply Hnotin.
      change k with (fst (k, v)). apply in_map. exact H.
    + apply IH; assumption.
Qed.

End MapFacts.

Lemma get_loopBody (st : Locals) (c : ControlScore.t) (d : Z) :
  JS.get d (domainMap (loopBody st c))
  = if d =? ControlScore.domainNumber c
    then Some (bumpDomain c (orEmpty (JS.get d (domainMap st))))
    else JS.get d (domainMap st).
Proof.
  unfold loopBody. cbn [domainMap].
  set (dn := ControlScore.domainNumber c).
  set (dm := domainMap st).
  rewrite (has_get dn dm).
  destruct (JS.get dn dm) as [x |] eqn:Eget; cbn [negb].
  - rewrite Eget, get_set.
    destruct (d =? dn) eqn:E; [| reflexivity].
    apply Z.eqb_eq in E. subst d. rewrite Eget. reflexivity.
  - rewrite (get_set dn dn emptyDomain dm), Z.eqb_refl. cbv iota.
    rewrite get_set.
    destruct (d =? dn) eqn:E.
    + apply Z.eqb_eq in E. subst d. rewrite Eget. reflexivity.
    + rewrite get_set, E. reflexivity.
Qed.

Lemma NoDup_loopBody (st : Locals) (c : ControlScore.t) :
  NoDup (map fst (domainMap st)) ->
  NoDup (map fst (domainMap (loopBody st c))).
Proof.
  intro H. unfold loopBody. cbn [domainMap].
  set (dn := ControlScore.domainNumber c).
  assert (H1 : NoDup (map fst
                        (if negb (JS.has dn (domainMap st))
                         then JS.set dn emptyDomain (domainMap st)
                         else domainMap st))).
  { destruct (negb (JS.has dn (domainMap st)));
      [apply NoDup_keys_set |]; exact H. }
  destruct (JS.get dn _); [apply NoDup_keys_set |]; exact H1.
Qed.

Lemma NoDup_fold (l : list ControlScore.t) (st : Locals) :
  NoDup (map fst (domainMap st)) ->
  NoDup (map fst (domainMap (fold_left loopBody l st))).
Proof.
  revert st. induction l as [| c l IH]; intros st H; simpl; [exact H |].
  apply IH, NoDup_loopBody, H.
Qed.

Lemma fold_domain_none (l : list ControlScore.t) (st : Locals) (d : Z) :
  JS.get d (domainMap (fold_left loopBody l st)) = None
  <-> JS.get d (domainMap st) = None
      /\ forall c, In c l -> ControlScore.domainNumber c <> d.
Proof.
  revert st. induction l as [| c l IH]; intro st; simpl.
  - intuition.
  - rewrite IH, get_loopBody.
    destruct (d =? ControlScore.domainNumber c) eqn:E.
    + apply Z.eqb_eq in E. split.
      * intros [H _]. discriminate.
      * intros [_ H]. exfalso. apply (H c); [left; reflexivity | congruence].
    + apply Z.eqb_neq in E. split.
      * intros [H0 H1]. split; [exact H0 |].
        intros c' [-> | Hc']; [congruence | apply H1; exact Hc'].
      * intros [H0 H1]. split; [exact H0 |].
        intros c' Hc'. apply H1. right. exact Hc'.
Qed.

Lemma sumQ_filter_cons (f : ControlScore.t -> Q) (p : ControlScore.t -> bool)
  c l :
  (sumQ f (filter p (c :: l))
   == (if p c then f c else 0) + sumQ f (filter p l))%Q.
Proof. simpl. destruct (p c); simpl; ring. Qed.

Lemma countIf_and_cons (p q : ControlScore.t -> bool) c l :
  countIf (fun x => p x && q x) (c :: l)
  = (if q c then (if p c then 1 else 0) else 0)
    + countIf (fun x => p x && q x) l.
Proof.
  rewrite countIf_cons. destruct (p c), (q c); reflexivity.
Qed.

(** What the loop leaves in the object of domain [d]. *)
Lemma fold_domain_some (l : list ControlScore.t) (st : Locals) (d : Z)
  (data : DomainData) :
  JS.get d (domainMap (fold_left loopBody l st)) = Some data ->
  let base := orEmpty (JS.get d (domainMap st)) in
  (totalPoints data
   == totalPoints base + sumQ maxPointsOf (filter (inDomain d) l))%Q
  /\ (earnedPoints data
      == earnedPoints base + sumQ earnedOf (filter (inDomain d) l))%Q
  /\ controlCount data = controlCount base + countIf (inDomain d) l
  /\ gapCount data
     = gapCount base + countIf (fun c => isNO c && inDomain d c) l
  /\ partialCount data
     = partialCount base + countIf (fun c => isPARTIAL c && inDomain d c) l.
Proof.
  revert st. induction l as [| c l IH]; intros st Hget; cbv zeta.
  - simpl in Hget. rewrite Hget. unfold countIf. simpl.
    repeat split; try ring; lia.
  - simpl in Hget. specialize (IH _ Hget). cbv zeta in IH.
    destruct IH as (H1 & H2 & H3 & H4 & H5).
    rewrite get_loopBody in H1, H2, H3, H4, H5.
    rewrite !sumQ_filter_cons, !countIf_and_cons, countIf_cons.
    unfold inDomain at 1 3 5 7 9.
    rewrite (Z.eqb_sym (ControlScore.domainNumber c) d).
    destruct (d =? ControlScore.domainNumber c); cbn [orEmpty] in *.
    + unfold bumpDomain in *. cbn [totalPoints earnedPoints controlCount
                                   gapCount partialCount] in *.
      rewrite H1, H2, H3, H4, H5.
      repeat split; try ring;
        try (destruct (isNO c); lia); try (destruct (isPARTIAL c); lia).
    + rewrite H1, H2, H3, H4, H5. repeat split; ring.
Qed.

(** *** The list of domain scores *)

Lemma In_insertByDomain (e x : DomainScore.t) (l : list DomainScore.t) :
  In e (insertByDomain x l) <-> e = x \/ In e l.
Proof.
  induction l as [| y l IH]; simpl.
  - intuition.
  - destruct (DomainScore.domainNumber x <=? DomainScore.domainNumber y);
      simpl; [intuition |]. rewrite IH. intuition.
Qed.

Lemma In_sortByDomain (e : DomainScore.t) (l : list DomainScore.t) :
  In e (sortByDomain l) <-> In e l.
Proof.
  induction l as [| x l IH]; simpl; [tauto |].
  rewrite In_insertByDomain, IH. intuition.
Qed.

Lemma In_domainScores (l : list ControlScore.t) (e : DomainScore.t) :
  In e (ScoreResult.domainScores (calculateScores l))
  <-> exists d data,
        JS.get d (domainMap (fold_left loopBody (assessed l) initLocals))
        = Some data
        /\ e = toDomainScore (d, data).
Proof.
  unfold calculateScores. cbn [ScoreResult.domainScores]. fold (assessed l).
  rewrite In_sortByDomain, in_map_iff. unfold JS.entries.
  assert (Hnd : NoDup (map fst (domainMap
                         (fold_left loopBody (assessed l) initLocals))))
    by (apply NoDup_fold; constructor).
  split.
  - intros [[d data] [He Hin]]. exists d, data. split; [| symmetry; exact He].
    apply In_get; assumption.
  - intros (d & data & Hget & ->). exists (d, data). split; [reflexivity |].
    apply get_In. exact Hget.
Qed.

Lemma isGap_not_NA level c : isGap level c = true -> isNA c = false.
Proof.
  unfold isGap. intro H. apply andb_true_iff in H. apply isNO_not_NA, H.
Qed.

Lemma calculateScores_gaps (l : list ControlScore.t) :
  gapCounters (calculateScores l)
  = (countIf (isGap "CRITICAL") l, countIf (isGap "HIGH") l,
     countIf (isGap "MEDIUM") l, countIf (isGap "LOW") l).
Proof.
  unfold gapCounters, calculateScores.
  cbn [ScoreResult.criticalGaps ScoreResult.highGaps ScoreResult.mediumGaps
       ScoreResult.lowGaps].
  fold (assessed l).
  destruct (fold_gaps (assessed l) initLocals) as (H1 & H2 & H3 & H4).
  rewrite H1, H2, H3, H4. cbn [criticalGaps highGaps mediumGaps lowGaps
                               initLocals].
  rewrite !countIf_assessed by apply isGap_not_NA. reflexivity.
Qed.




(** C9, as the code has it: every entry of [domainScores] whose
    [totalPoints] (the available points of the assessed responses of its
    domain) is not positive has percentage 0; a domain is reported exactly
    when at least one of its responses is not NA, so a domain all of whose
    controls were answered NA has no entry at all. *)
Theorem zero_point_domain_percentage (l : list ControlScore.t) :
  let r := calculateScores l in
  (forall e,
     In e (ScoreResult.domainScores r) ->
     (DomainScore.totalPoints e
      == sumQ maxPointsOf
           (filter (inDomain (DomainScore.domainNumber e)) (assessed l)))%Q
     /\ (~ (0 < DomainScore.totalPoints e)%Q ->
         DomainScore.percentage e = 0%Q))
  /\ (forall d,
        reported d r
        <-> exists c, In c l /\ isNA c = false
                      /\ ControlScore.domainNumber c = d).
Proof.
  cbv zeta. split.
  - intros e He. apply In_domainScores in He.
    destruct He as (d & data & Hget & ->).
    apply fold_domain_some in Hget. cbv zeta in Hget.
    destruct Hget as (H1 & _).
    cbn [toDomainScore DomainScore.totalPoints DomainScore.domainNumber
         DomainScore.percentage].
    split.
    + rewrite H1. cbn. ring.
    + apply percentOf_zero.
  - intro d. unfold reported. split.
    + intros (e & He & Hd). apply In_domainScores in He.
      destruct He as (d' & data & Hget & ->). cbn in Hd. subst d'.
      destruct (existsb (fun c => ControlScore.domainNumber c =? d)
                        (assessed l)) eqn:Eex.
      * apply existsb_exists in Eex. destruct Eex as (c & Hin & Hc).
        unfold assessed in Hin. apply filter_In in Hin.
        destruct Hin as [Hin Hna]. apply negb_true_iff in Hna.
        apply Z.eqb_eq in Hc. exists c. auto.
      * exfalso.
        assert (Hnone : JS.get d (domainMap
                          (fold_left loopBody (assessed l) initLocals))
                        = None).
        { apply fold_domain_none. split; [reflexivity |].
          intros c Hin Hc.
          assert (Ht : existsb (fun c => ControlScore.domainNumber c =? d)
                               (assessed l) = true).
          { apply existsb_exists. exists c. split; [exact Hin |].
            apply Z.eqb_eq. exact Hc. }
          congruence. }
        congruence.
    + intros (c & Hin & Hna & Hd).
      destruct (JS.get d (domainMap
                  (fold_left loopBody (assessed l) initLocals)))
        as [data |] eqn:Eget.
      * exists (toDomainScore (d, data)). split; [| reflexivity].
        apply In_domainScores. exists d, data. auto.
      * exfalso. apply fold_domain_none in Eget. destruct Eget as [_ Hall].
        apply (Hall c); [| exact Hd].
        unfold assessed. apply filter_In. split; [exact Hin |].
        rewrite Hna. reflexivity.
Qed.

(** C9 as stated fails: the only control of domain 3 was answered NA, and
    [domainScores] has no entry for domain 3, with percentage 0 or
    otherwise. *)
Lemma all_NA_domain_not_reported :
  (forall c, In c onlyNA -> ControlScore.domainNumber c = 3 /\ isNA c = true)
  /\ ~ (exists e,
          In e (ScoreResult.domainScores (calculateScores onlyNA))
          /\ DomainScore.domainNumber e = 3
          /\ (DomainScore.percentage e == 0)%Q).
Proof.
  split.
  - intros c [<- | []]. split; reflexivity.
  - intros (e & He & _). exact He.
Qed.

Lemma zero_point_domain_percentage_witness :
  In zeroPointsEntry (ScoreResult.domainScores (calculateScores zeroPoints))
  /\ DomainScore.percentage zeroPointsEntry = 0%Q.
Proof.
  assert (Hin : In zeroPointsEntry
                  (ScoreResult.domainScores (calculateScores zeroPoints))).
  { left. reflexivity. }
  split; [exact Hin |].
  destruct (zero_point_domain_percentage zeroPoints) as [H _].
  destruct (H zeroPointsEntry Hin) as [_ H0].
  apply H0. intro Hlt. discriminate Hlt.
Defined.

End ScoringFacts.

(** ** Branching rules *)

Module BranchingFacts.
Import Branching BranchingSpec Samples.

Lemma includes_In (l : list string) (s : string) :
  JS.includes l s = true <-> In s l.
Proof.
  unfold JS.includes. rewrite existsb_exists. split.
  - intros (x & Hin & Heq). apply String.eqb_eq in Heq. subst. exact Hin.
  - intro H. exists s. split; [exact H | apply String.eqb_refl].
Qed.

Lemma includes_not_In (l : list string) (s : string) :
  JS.includes l s = false <-> ~ In s l.
Proof.
  rewrite <- includes_In. destruct (JS.includes l s); intuition congruence.
Qed.

(** Strict equality with a JSON value, field by field. *)
Lemma strictEq_fieldIs (p : OrgProfile.t) (key : string) (value : Json.t) :
  strictEq (profileField p key) value = true <-> fieldIs p key value.
Proof.
  split.
  - unfold profileField.
    repeat match goal with
           | |- context [(key =? ?k)%string] =>
               destruct (String.eqb_spec key k) as [-> |]
           end;
      simpl; destruct value; try discriminate; intro H;
      try (apply String.eqb_eq in H; subst; constructor);
      try (apply Bool.eqb_prop in H; subst; constructor).
  - destruct 1; simpl;
      try apply String.eqb_refl; try apply Bool.eqb_reflx.
Qed.

Lemma allEntriesMatch_forall (p : OrgProfile.t) (es : list (string * Json.t)) :
  allEntriesMatch p es = true
  <-> forall key value, In (key, value) es -> fieldIs p key value.
Proof.
  induction es as [| [k v] es IH]; simpl.
  - split; [intros _ ? ? [] | reflexivity].
  - destruct (strictEq (profileField p k) v) eqn:E; simpl.
    + rewrite IH. apply strictEq_fieldIs in E. split.
      * intros H key value [Heq | Hin]; [injection Heq as <- <-; exact E |].
        apply H. exact Hin.
      * intros H key value Hin. apply H. right. exact Hin.
    + split; [discriminate |]. intro H.
      assert (Hf : fieldIs p k v) by (apply H; left; reflexivity).
      apply strictEq_fieldIs in Hf. congruence.
Qed.

Lemma Object_entries_not_object (v : Json.t) :
  isObject v = false -> Object_entries v = [].
Proof. destruct v; simpl; intro H; try reflexivity; discriminate. Qed.

(** C2: a control listed in [naControls] is never applicable, whatever its
    [conditionalOn]; any other control is applicable exactly when every
    key of its [conditionalOn] (when it has one) holds exactly the required
    value in the profile; [activatedControls] plays no part. *)
Theorem isControlApplicable_spec (controlId : string) (conditionalOn : Json.t)
  (profile : OrgProfile.t) (branchingResult : BranchingResult.t) :
  (In controlId (BranchingResult.naControls branchingResult) ->
   isControlApplicable controlId conditionalOn profile branchingResult = false)
  /\ (~ In controlId (BranchingResult.naControls branchingResult) ->
      (isControlApplicable controlId conditionalOn profile branchingResult
       = true
       <-> forall key value,
             In (key, value) (Object_entries conditionalOn) ->
             fieldIs profile key value))
  /\ (forall activated : list string,
        isControlApplicable controlId conditionalOn profile
          (BranchingResult.mk activated
             (BranchingResult.naControls branchingResult))
        = isControlApplicable controlId conditionalOn profile branchingResult).
Proof.
  unfold isControlApplicable. repeat apply conj.
  - intro H. apply includes_In in H. rewrite H. reflexivity.
  - intro H. apply includes_not_In in H. rewrite H.
    destruct (isObject conditionalOn) eqn:E.
    + apply allEntriesMatch_forall.
    + rewrite (Object_entries_not_object _ E).
      split; [intros _ ? ? [] | reflexivity].
  - reflexivity.
Qed.

Lemma isControlApplicable_spec_witness :
  isControlApplicable "PDPL-T.5" researchOnly hospital
    (evaluateBranchingRules hospital) = false
  /\ isControlApplicable "PDPL-R.9" researchOnly hospital
       (evaluateBranchingRules hospital) = false
  /\ isControlApplicable "PDPL-G.1" Json.Null hospital
       (evaluateBranchingRules hospital) = true.
Proof.
  split; [| split; reflexivity].
  destruct (isControlApplicable_spec "PDPL-T.5" researchOnly hospital
              (evaluateBranchingRules hospital)) as (H & _ & _).
  apply H. left. reflexivity.
Defined.

Lemma disjointb_spec (a b : list string) :
  disjointb a b = true -> forall c, In c a -> In c b -> False.
Proof.
  unfold disjointb. rewrite forallb_forall. intros H c Ha Hb.
  specialize (H c Ha). apply negb_true_iff in H.
  apply includes_not_In in H. exact (H Hb).
Qed.

(** C10: the two sets computed from a profile never share a control.
    [naControls] is empty or holds exactly the six transfer controls, the
    latter when the organization makes no cross-border transfers, and a
    transfer control is activated only when it does. *)
Theorem branching_sets_disjoint (profile : OrgProfile.t) :
  let r := evaluateBranchingRules profile in
  (forall c,
     In c (BranchingResult.activatedControls r) ->
     In c (BranchingResult.naControls r) -> False)
  /\ BranchingResult.naControls r
     = (if OrgProfile.crossBorderTransfers profile then []
        else transferControls)
  /\ (forall c,
        In c transferControls ->
        In c (BranchingResult.activatedControls r) ->
        OrgProfile.crossBorderTransfers profile = true).
Proof.
  destruct profile as [orgType minors cross cloud research ai monitoring].
  unfold evaluateBranchingRules.
  cbn [OrgProfile.orgType OrgProfile.processesMinors
       OrgProfile.crossBorderTransfers OrgProfile.usesCloud
       OrgProfile.usesAiOrAutomatedDecisions].
  set (health := JS.includes HEALTH_ORG_TYPES orgType).
  set (usesCloud := ((cloud =? "yes")%string || (cloud =? "partial")%string)).
  clearbody health usesCloud. cbv zeta.
  repeat apply conj.
  - apply disjointb_spec.
    destruct minors, cross, health, usesCloud, ai; vm_compute; reflexivity.
  - destruct cross; reflexivity.
  - intros c Hc Hact. destruct cross; [reflexivity |]. exfalso.
    revert c Hact Hc. apply disjointb_spec.
    destruct minors, health, usesCloud, ai; vm_compute; reflexivity.
Qed.

End BranchingFacts.

(** ** Remediation tasks *)

Module RemediationFacts.
Import Remediation RemediationSpec Samples.

(** The table of the handler is the table of the specification. *)
Lemma validTransitions_allowed (current : TaskStatus) (requested : string) :
  JS.includes (validTransitions current) requested = true
  <-> allowed current requested.
Proof.
  rewrite BranchingFacts.includes_In. split.
  - destruct current; simpl; intuition (subst; constructor).
  - destruct 1; simpl; tauto.
Qed.

Lemma closed_is_terminal (requested : string) : ~ allowed CLOSED requested.
Proof. intro H. inversion H. Qed.

Lemma open_to_closed_refused : ~ allowed OPEN "CLOSED".
Proof. intro H. inversion H. Qed.

(** C5: a status change goes through only for a pair of the transition
    table; for every pair outside it the reply is 422 INVALID_TRANSITION
    and nothing is written.  Nothing leaves CLOSED, and OPEN does not go
    to CLOSED directly. *)
Theorem changeTaskStatus_table (req : Req.t) (taskId : Id)
  (body : StatusBody.t) (db : Store.t) (task : RemediationTask.t)
  (Hfound : findTask db taskId (JwtPayload.orgId (Req.user req)) = Some task) :
  let current := RemediationTask.status task in
  let requested := StatusBody.status body in
  let result := changeTaskStatus req taskId body db in
  (isSuccess (fst result) = true -> allowed current requested)
  /\ (~ allowed current requested -> result = (InvalidTransition, db))
  /\ (current = CLOSED -> result = (InvalidTransition, db))
  /\ (current = OPEN -> requested = "CLOSED" ->
      result = (InvalidTransition, db)).
Proof.
  cbv zeta.
  assert (Hout : ~ allowed (RemediationTask.status task)
                           (StatusBody.status body) ->
                 changeTaskStatus req taskId body db
                 = (InvalidTransition, db)).
  { intro H. unfold changeTaskStatus. rewrite Hfound.
    destruct (JS.includes (validTransitions (RemediationTask.status task))
                          (StatusBody.status body)) eqn:E; [| reflexivity].
    apply validTransitions_allowed in E. contradiction. }
  repeat apply conj.
  - intro Hok.
    destruct (JS.includes (validTransitions (RemediationTask.status task))
                          (StatusBody.status body)) eqn:E.
    + apply validTransitions_allowed. exact E.
    + unfold changeTaskStatus in Hok. rewrite Hfound, E in Hok.
      discriminate Hok.
  - exact Hout.
  - intro Hc. apply Hout. rewrite Hc. apply closed_is_terminal.
  - intros Ho Hr. apply Hout. rewrite Ho, Hr. apply open_to_closed_refused.
Qed.

Lemma changeTaskStatus_table_witness :
  changeTaskStatus dpoReq 20%nat (StatusBody.mk "CLOSED" Undefined Undefined)
    demoStore = (InvalidTransition, demoStore)
  /\ changeTaskStatus dpoReq 21%nat (StatusBody.mk "OPEN" Undefined Undefined)
       demoStore = (InvalidTransition, demoStore)
  /\ isSuccess
       (fst (changeTaskStatus dpoReq 20%nat
               (StatusBody.mk "IN_PROGRESS" Undefined Undefined) demoStore))
     = true.
Proof.
  split; [| split; [| reflexivity]].
  - refine (proj2 (proj2 (proj2
      (@changeTaskStatus_table dpoReq 20%nat
         (StatusBody.mk "CLOSED" Undefined Undefined) demoStore openTask
         eq_refl))) eq_refl eq_refl).
  - refine (proj1 (proj2 (proj2
      (@changeTaskStatus_table dpoReq 21%nat
         (StatusBody.mk "OPEN" Undefined Undefined) demoStore closedTask
         eq_refl))) eq_refl).
Defined.

End RemediationFacts.

(** ** Assessments *)

Module AssessmentFacts.
Import Assessments AssessmentSpec Samples.










(** C3, on the transfer-suspension control: the answer YES submitted twice
    for the same assessment leaves one response row, as it should, but each
    submission adds an alert task, so the pair ends up with two tasks. *)
Theorem resubmitted_T8_YES_adds_task :
  let db1 := snd (submitResponse dpoReq 10%nat "PDPL-T.8" yesBody freshStore) in
  let db2 := snd (submitResponse dpoReq 10%nat "PDPL-T.8" yesBody db1) in
  isSuccess (fst (submitResponse dpoReq 10%nat "PDPL-T.8" yesBody freshStore))
  = true
  /\ isSuccess (fst (submitResponse dpoReq 10%nat "PDPL-T.8" yesBody db1))
     = true
  /\ List.length (responsesOf db2 10%nat "PDPL-T.8") = 1%nat
  /\ List.length (tasksOf db1 10%nat "PDPL-T.8") = 1%nat
  /\ List.length (tasksOf db2 10%nat "PDPL-T.8") = 2%nat.
Proof. vm_compute. repeat split. Qed.

(** The sibling rule, for NO and PARTIAL, looks for a task of the pair
    first: the answer NO submitted twice leaves one task. *)
Lemma resubmitted_NO_keeps_one_task :
  let db1 := snd (submitResponse dpoReq 10%nat "PDPL-G.1" noBody freshStore) in
  let db2 := snd (submitResponse dpoReq 10%nat "PDPL-G.1" noBody db1) in
  List.length (responsesOf db2 10%nat "PDPL-G.1") = 1%nat
  /\ List.length (tasksOf db1 10%nat "PDPL-G.1") = 1%nat
  /\ List.length (tasksOf db2 10%nat "PDPL-G.1") = 1%nat.
Proof. vm_compute. repeat split. Qed.

End AssessmentFacts.

(** ** The assessment lifecycle *)

Module LifecycleFacts.
Import Assessments AssessmentSpec Lifecycle Samples.

(** *** Handlers that leave the assessment table alone *)

Ltac through_handler :=
  repeat match goal with
         | |- context [match ?x with _ => _ end] =>
             match type of x with
             | bool => destruct x
             | option _ => destruct x
             | BodyField => destruct x
             | prod _ _ => is_var x; destruct x
             end
         end.

Lemma submitResponse_frame (req : Req.t) (assessmentId : Id)
  (controlId : string) (body : ResponseBody.t) (db : Store.t) :
  let db' := snd (submitResponse req assessmentId controlId body db) in
  Store.assessments db' = Store.assessments db
  /\ (Store.nextId db <= Store.nextId db')%nat.
Proof.
  cbv zeta. unfold submitResponse, createTask, AuditLogger.logAudit.
  through_handler; cbn; split; try reflexivity; lia.
Qed.

Lemma changeTaskStatus_frame (req : Req.t) (taskId : Id)
  (body : Remediation.StatusBody.t) (db : Store.t) :
  let db' := snd (Remediation.changeTaskStatus req taskId body db) in
  Store.assessments db' = Store.assessments db
  /\ (Store.nextId db <= Store.nextId db')%nat.
Proof.
  cbv zeta. unfold Remediation.changeTaskStatus, AuditLogger.logAudit.
  through_handler; cbn; split; try reflexivity; lia.
Qed.

(** *** The invariant *)

Import LifecycleAux.

Lemma NoDup_map_eq (A B : Type) (f : A -> B) (l : list A) (a b : A) :
  NoDup (map f l) -> In a l -> In b l -> f a = f b -> a = b.
Proof.
  induction l as [| x l IH]; simpl; [tauto |].
  intros Hnd Ha Hb Heq. inversion Hnd as [| ? ? Hnotin Hnd']; subst.
  destruct Ha as [-> | Ha], Hb as [-> | Hb]; auto.
  - exfalso. apply Hnotin. rewrite Heq. apply in_map. exact Hb.
  - exfalso. apply Hnotin. rewrite <- Heq. apply in_map. exact Ha.
Qed.

Lemma same_id_same_row (db : Store.t) (a b : Assessment.t) :
  Inv db ->
  In a (Store.assessments db) -> In b (Store.assessments db) ->
  Assessment.id a = Assessment.id b -> a = b.
Proof. intros [_ Hnd _ _ _]. apply NoDup_map_eq. exact Hnd. Qed.

Lemma Inv_initial (db : Store.t) : initial db -> Inv db.
Proof.
  unfold initial. intro H.
  constructor; rewrite H; simpl; try tauto. constructor.
Qed.

Lemma Inv_frame (db db' : Store.t) :
  Inv db ->
  Store.assessments db' = Store.assessments db ->
  (Store.nextId db <= Store.nextId db')%nat ->
  Inv db'.
Proof.
  intros [H1 H2 H3 H4 H5] Ha Hn. constructor; rewrite Ha; auto.
  intros a Hin. specialize (H1 a Hin). lia.
Qed.

Lemma Inv_logAudit (req : Req.t) (action : string) (et : option string)
  (ei : option Id) (ov nv : option Json.t) (db : Store.t) :
  Inv db -> Inv (AuditLogger.logAudit req action et ei ov nv db).
Proof. intro H. apply (Inv_frame _ _ H); [reflexivity | apply Nat.le_refl]. Qed.

Lemma Inv_update (db : Store.t) (id0 : Id) (f : Assessment.t -> Assessment.t) :
  Inv db ->
  keepsKey f ->
  (forall a, In a (Store.assessments db) -> Assessment.id a = id0 ->
             live (f a) -> live a) ->
  Inv (updateAssessment id0 f db).
Proof.
  intros [H1 H2 H3 H4 H5] Hkeep Hlive.
  set (g := fun a => if Nat.eqb (Assessment.id a) id0 then f a else a).
  assert (Hg : keepsKey g).
  { intro a. unfold g. destruct (Nat.eqb (Assessment.id a) id0);
      [apply Hkeep | auto]. }
  assert (Hgl : forall a, In a (Store.assessments db) -> live (g a) -> live a).
  { intros a Hin. unfold g.
    destruct (Nat.eqb_spec (Assessment.id a) id0); [| auto].
    apply Hlive; assumption. }
  assert (Hrows : Store.assessments (updateAssessment id0 f db)
                  = map g (Store.assessments db)) by reflexivity.
  constructor; rewrite Hrows.
  - intros a' Hin. apply in_map_iff in Hin. destruct Hin as (a & <- & Hin).
    destruct (Hg a) as (-> & _). apply H1. exact Hin.
  - rewrite map_map.
    rewrite (map_ext (fun a => Assessment.id (g a)) Assessment.id);
      [exact H2 |]. intro a. apply Hg.
  - intros a' Hin. apply in_map_iff in Hin. destruct Hin as (a & <- & Hin).
    destruct (Hg a) as (_ & _ & _ & ->). apply H3. exact Hin.
  - intros a' b' Ha Hb. apply in_map_iff in Ha, Hb.
    destruct Ha as (a & <- & Ha), Hb as (b & <- & Hb).
    destruct (Hg a) as (-> & -> & -> & _), (Hg b) as (-> & -> & -> & _).
    apply H4; assumption.
  - intros a' b' Ha Hb. apply in_map_iff in Ha, Hb.
    destruct Ha as (a & <- & Ha), Hb as (b & <- & Hb).
    destruct (Hg a) as (_ & -> & -> & _), (Hg b) as (_ & -> & -> & _).
    intros Horg Hl. apply H5; auto.
Qed.

Lemma maxByVersion_Some (l : list Assessment.t) (m : Assessment.t) :
  maxByVersion l = Some m ->
  In m l
  /\ forall b, In b l ->
               Assessment.assessmentVersion b <= Assessment.assessmentVersion m.
Proof.
  revert m. induction l as [| a l IH]; simpl; [discriminate |].
  intros m. destruct (maxByVersion l) as [b |] eqn:E.
  - destruct (IH b eq_refl) as [Hin Hmax].
    destruct (Z.leb_spec (Assessment.assessmentVersion b)
                         (Assessment.assessmentVersion a));
      intro Hm; injection Hm as <-.
    + split; [left; reflexivity |].
      intros c [<- | Hc]; [lia |]. specialize (Hmax c Hc). lia.
    + split; [right; exact Hin |].
      intros c [<- | Hc]; [lia |]. apply Hmax. exact Hc.
  - intro H. injection H as <-. split; [left; reflexivity |].
    destruct l; [| simpl in E; destruct (maxByVersion l); [destruct (_ <=? _) |];
                   discriminate].
    intros c [<- | []]. lia.
Qed.

Lemma maxByVersion_None (l : list Assessment.t) :
  maxByVersion l = None -> l = [].
Proof.
  destruct l as [| a l]; [reflexivity |]. simpl.
  destruct (maxByVersion l); [destruct (_ <=? _) |]; discriminate.
Qed.

Lemma findLatest_Some (db : Store.t) (orgId : Id) (m : Assessment.t) :
  findLatestAssessment db orgId = Some m ->
  In m (Store.assessments db)
  /\ Assessment.orgId m = orgId
  /\ forall b, In b (Store.assessments db) ->
               Assessment.orgId b = orgId ->
               Assessment.isDeleted b = false ->
               Assessment.assessmentVersion b
               <= Assessment.assessmentVersion m.
Proof.
  unfold findLatestAssessment. intro H.
  apply maxByVersion_Some in H. destruct H as [Hin Hmax].
  apply filter_In in Hin. destruct Hin as [Hin Hm].
  apply andb_true_iff in Hm. destruct Hm as [Horg _].
  apply Nat.eqb_eq in Horg. split; [exact Hin |]. split; [exact Horg |].
  intros b Hb Hborg Hbdel. apply Hmax. apply filter_In.
  split; [exact Hb |]. rewrite Hborg, Nat.eqb_refl, Hbdel. reflexivity.
Qed.

Lemma findLatest_None (db : Store.t) (orgId : Id) (b : Assessment.t) :
  findLatestAssessment db orgId = None ->
  In b (Store.assessments db) ->
  Assessment.orgId b = orgId ->
  Assessment.isDeleted b = true.
Proof.
  unfold findLatestAssessment. intros H Hb Horg.
  apply maxByVersion_None in H.
  destruct (Assessment.isDeleted b) eqn:E; [reflexivity |]. exfalso.
  assert (Hin : In b (filter (fun a => Nat.eqb (Assessment.orgId a) orgId
                                       && negb (Assessment.isDeleted a))
                             (Store.assessments db))).
  { apply filter_In. split; [exact Hb |].
    rewrite Horg, Nat.eqb_refl, E. reflexivity. }
  rewrite H in Hin. exact Hin.
Qed.

Lemma Inv_append (db : Store.t) (orgId : Id) (version : Z) (createdBy : Id) :
  Inv db ->
  (forall a, In a (Store.assessments db) -> Assessment.orgId a = orgId ->
             ~ live a /\ Assessment.assessmentVersion a < version) ->
  Inv (Store.bumpId
         (Store.withAssessments
            (Store.assessments db
             ++ [newAssessment (Store.nextId db) orgId version createdBy])
            db)).
Proof.
  intros [H1 H2 H3 H4 H5] Hold.
  set (new := newAssessment (Store.nextId db) orgId version createdBy).
  constructor; cbn [Store.assessments Store.nextId Store.bumpId
                    Store.withAssessments].
  - intros a Hin. apply in_app_or in Hin. destruct Hin as [Hin | [<- | []]].
    + specialize (H1 a Hin). lia.
    + simpl. lia.
  - rewrite map_app. apply NoDup_app; [exact H2 | repeat constructor; simpl; tauto |].
    intros x Hx [<- | []]. apply in_map_iff in Hx.
    destruct Hx as (a & Hid & Hin). specialize (H1 a Hin). simpl in Hid. lia.
  - intros a Hin. apply in_app_or in Hin. destruct Hin as [Hin | [<- | []]];
      [apply H3; exact Hin | reflexivity].
  - intros a b Ha Hb Horg Hver. apply in_app_or in Ha, Hb.
    destruct Ha as [Ha | [<- | []]], Hb as [Hb | [<- | []]].
    + apply H4; assumption.
    + simpl in Horg, Hver. destruct (Hold a Ha Horg) as [_ Hlt]. lia.
    + simpl in Horg, Hver. destruct (Hold b Hb (eq_sym Horg)) as [_ Hlt]. lia.
    + reflexivity.
  - intros a b Ha Hb Horg Hlive. apply in_app_or in Ha, Hb.
    destruct Ha as [Ha | [<- | []]], Hb as [Hb | [<- | []]].
    + apply H5; assumption.
    + simpl in Horg. destruct (Hold a Ha Horg) as [Hdead _]. contradiction.
    + simpl in Horg. destruct (Hold b Hb (eq_sym Horg)) as [_ Hlt].
      simpl. lia.
    + apply Z.le_refl.
Qed.

(** Under the invariant, a live assessment of an organization is its
    latest one. *)
Lemma live_is_the_latest (db : Store.t) (orgId : Id)
  (latest a : Assessment.t) :
  Inv db ->
  findLatestAssessment db orgId = Some latest ->
  In a (Store.assessments db) -> Assessment.orgId a = orgId -> live a ->
  a = latest.
Proof.
  intros HInv Hlatest Ha Horg Hlive.
  destruct (findLatest_Some _ _ _ Hlatest) as (Hin & Hlorg & Hmax).
  apply (same_id_same_row db); try assumption.
  apply (versions_distinct HInv); try assumption; [congruence |].
  apply Z.le_antisymm.
  - apply Hmax; [assumption | assumption |].
    apply (not_deleted HInv). exact Ha.
  - apply (live_is_latest HInv); try assumption. congruence.
Qed.

Lemma withStatus_keepsKey (s : AssessmentStatus) :
  keepsKey (Assessment.withStatus s).
Proof. intro a. repeat split. Qed.

Lemma status_eqb_eq (a b : AssessmentStatus) :
  AssessmentStatus_eqb a b = true <-> a = b.
Proof. destruct a, b; simpl; split; intro H; congruence. Qed.

(** The rows of the organization once its latest assessment is archived:
    none is live and none has a version above the latest. *)
Lemma archived_rows (db : Store.t) (orgId : Id) (latest : Assessment.t) :
  Inv db ->
  findLatestAssessment db orgId = Some latest ->
  let db1 :=
    if negb (AssessmentStatus_eqb (Assessment.status latest) ARCHIVED)
    then updateAssessment (Assessment.id latest)
           (Assessment.withStatus ARCHIVED) db
    else db in
  Inv db1
  /\ Store.nextId db1 = Store.nextId db
  /\ forall a, In a (Store.assessments db1) -> Assessment.orgId a = orgId ->
               ~ live a
               /\ Assessment.assessmentVersion a
                  < Assessment.assessmentVersion latest + 1.
Proof.
  intros HInv Hlatest. cbv zeta.
  destruct (findLatest_Some _ _ _ Hlatest) as (Hin & Hlorg & Hmax).
  destruct (AssessmentStatus_eqb (Assessment.status latest) ARCHIVED) eqn:E;
    cbn [negb].
  - apply status_eqb_eq in E. split; [exact HInv |]. split; [reflexivity |].
    intros a Ha Horg. split.
    + intro Hlive.
      rewrite (live_is_the_latest db orgId latest a HInv Hlatest Ha Horg Hlive)
        in Hlive.
      exact (Hlive E).
    + specialize (Hmax a Ha Horg (not_deleted HInv a Ha)). lia.
  - split.
    { apply Inv_update; [exact HInv | apply withStatus_keepsKey |].
      intros a _ _ Hlive. exfalso. apply Hlive. reflexivity. }
    split; [reflexivity |].
    intros a' Ha' Horg. cbn [updateAssessment Store.assessments
                             Store.withAssessments] in Ha'.
    apply in_map_iff in Ha'. destruct Ha' as (a & <- & Ha).
    destruct (Nat.eqb_spec (Assessment.id a) (Assessment.id latest))
      as [Hid | Hid].
    + cbn [Assessment.withStatus Assessment.assessmentVersion
           Assessment.orgId] in *.
      split; [intro Hlive; apply Hlive; reflexivity |].
      specialize (Hmax a Ha Horg (not_deleted HInv a Ha)). lia.
    + split.
      * intro Hlive. apply Hid. f_equal.
        apply (live_is_the_latest db orgId latest a HInv Hlatest Ha Horg Hlive).
      * specialize (Hmax a Ha Horg (not_deleted HInv a Ha)). lia.
Qed.

Lemma createAssessment_Inv (req : Req.t) (db : Store.t) :
  Inv db -> Inv (snd (createAssessment req db)).
Proof.
  intro HInv. unfold createAssessment.
  destruct (negb (authorize _ req)); [exact HInv |].
  destruct (findOrganization db _) as [org |]; [| exact HInv].
  destruct (negb (Organization.onboardingCompleted org)); [exact HInv |].
  cbn [snd]. apply Inv_logAudit.
  destruct (findLatestAssessment db (JwtPayload.orgId (Req.user req)))
    as [latest |] eqn:Hlatest.
  - destruct (archived_rows db _ latest HInv Hlatest) as (HInv1 & Hn & Hrows).
    cbv zeta in HInv1, Hn, Hrows.
    apply (Inv_append _ (JwtPayload.orgId (Req.user req))
             (Assessment.assessmentVersion latest + 1)
             (JwtPayload.userId (Req.user req)) HInv1 Hrows).
  - apply (Inv_append db (JwtPayload.orgId (Req.user req)) 1
             (JwtPayload.userId (Req.user req)) HInv).
    intros a Ha Horg. exfalso.
    pose proof (findLatest_None db _ a Hlatest Ha Horg) as Hdel.
    rewrite (not_deleted HInv a Ha) in Hdel. discriminate Hdel.
Qed.

Lemma findAssessment_Some (db : Store.t) (assessmentId orgId : Id)
  (a : Assessment.t) :
  findAssessment db assessmentId orgId = Some a ->
  In a (Store.assessments db)
  /\ Assessment.id a = assessmentId
  /\ Assessment.orgId a = orgId.
Proof.
  unfold findAssessment. intro H. apply find_some in H.
  destruct H as [Hin H]. apply andb_true_iff in H. destruct H as [H _].
  apply andb_true_iff in H. destruct H as [H1 H2].
  apply Nat.eqb_eq in H1, H2. auto.
Qed.

Lemma finalizeAssessment_Inv (req : Req.t) (assessmentId : Id)
  (db : Store.t) :
  Inv db -> Inv (snd (finalizeAssessment req assessmentId db)).
Proof.
  intro HInv. unfold finalizeAssessment.
  destruct (negb (authorize _ req)); [exact HInv |].
  destruct (findAssessment db assessmentId _) as [found |] eqn:Hfound;
    [| exact HInv].
  destruct (negb (AssessmentStatus_eqb (Assessment.status found) DRAFT)
            && negb (AssessmentStatus_eqb (Assessment.status found) IN_REVIEW))
    eqn:Hstatus; [exact HInv |].
  cbn [snd]. apply Inv_logAudit.
  apply Inv_update; [exact HInv | intro a; repeat split |].
  intros a Ha Hid _.
  destruct (findAssessment_Some _ _ _ _ Hfound) as (Hin & _ & _).
  rewrite (same_id_same_row db a found HInv Ha Hin Hid).
  unfold live. destruct (Assessment.status found); discriminate.
Qed.

Lemma submitForReview_Inv (req : Req.t) (assessmentId : Id) (db : Store.t) :
  Inv db -> Inv (snd (submitForReview req assessmentId db)).
Proof.
  intro HInv. unfold submitForReview.
  destruct (findAssessment db assessmentId _) as [found |] eqn:Hfound;
    [| exact HInv].
  destruct (negb (AssessmentStatus_eqb (Assessment.status found) DRAFT))
    eqn:Hstatus; [exact HInv |].
  cbn [snd].
  apply Inv_update; [exact HInv | apply withStatus_keepsKey |].
  intros a Ha Hid _.
  destruct (findAssessment_Some _ _ _ _ Hfound) as (Hin & _ & _).
  rewrite (same_id_same_row db a found HInv Ha Hin Hid).
  unfold live. destruct (Assessment.status found); discriminate.
Qed.

Lemma step_Inv (db db' : Store.t) : Inv db -> step db db' -> Inv db'.
Proof.
  intros HInv Hstep. destruct Hstep.
  - apply createAssessment_Inv, HInv.
  - apply (Inv_frame db _ HInv); apply submitResponse_frame.
  - apply finalizeAssessment_Inv, HInv.
  - apply submitForReview_Inv, HInv.
  - apply (Inv_frame db _ HInv); apply changeTaskStatus_frame.
Qed.

Lemma reachable_Inv (db : Store.t) : reachable db -> Inv db.
Proof.
  induction 1 as [db Hinit | db db' _ IH Hstep].
  - apply Inv_initial, Hinit.
  - exact (step_Inv db db' IH Hstep).
Qed.

Lemma Inv_one_live (db : Store.t) (a b : Assessment.t) :
  Inv db ->
  In a (Store.assessments db) -> In b (Store.assessments db) ->
  Assessment.orgId a = Assessment.orgId b ->
  live a -> live b -> a = b.
Proof.
  intros HInv Ha Hb Horg Hla Hlb.
  apply (same_id_same_row db); try assumption.
  apply (versions_distinct HInv); try assumption.
  apply Z.le_antisymm.
  - apply (live_is_latest HInv); auto.
  - apply (live_is_latest HInv); auto.
Qed.

(** *** Creating an assessment *)

Import CreateSpec.

Lemma authorize_mayCreate (req : Req.t) :
  mayCreate req ->
  authorize [ROLES.ORG_ADMIN; ROLES.DPO; ROLES.COMPLIANCE_OFFICER] req = true.
Proof.
  unfold mayCreate, authorize. intro H.
  apply BranchingFacts.includes_In in H. rewrite H. reflexivity.
Qed.

(** The reply and the store of a creation that goes through. *)
Lemma createAssessment_result (req : Req.t) (db : Store.t) :
  mayCreate req -> onboarded req db ->
  let orgId := JwtPayload.orgId (Req.user req) in
  let previous := findLatestAssessment db orgId in
  let db1 := afterArchival db previous in
  let created :=
    newAssessment (Store.nextId db1) orgId (nextVersion previous)
      (JwtPayload.userId (Req.user req)) in
  fst (createAssessment req db) = Json 201 created
  /\ Store.assessments (snd (createAssessment req db))
     = (Store.assessments db1 ++ [created])%list.
Proof.
  intros Hrole (org & Horg & Hdone). cbv zeta.
  unfold createAssessment.
  rewrite (authorize_mayCreate req Hrole), Horg, Hdone. cbn [negb].
  destruct (findLatestAssessment db (JwtPayload.orgId (Req.user req)));
    split; reflexivity.
Qed.

Lemma find_by_id (l : list Assessment.t) (p : Assessment.t) :
  NoDup (map Assessment.id l) -> In p l ->
  find (fun a => Nat.eqb (Assessment.id a) (Assessment.id p)) l = Some p.
Proof.
  induction l as [| x l IH]; simpl; [tauto |].
  intros Hnd Hin. inversion Hnd as [| ? ? Hnotin Hnd']; subst.
  destruct Hin as [-> | Hin].
  - rewrite Nat.eqb_refl. reflexivity.
  - destruct (Nat.eqb_spec (Assessment.id x) (Assessment.id p)) as [E |].
    + exfalso. apply Hnotin. rewrite E. apply in_map. exact Hin.
    + apply IH; assumption.
Qed.

Lemma find_app_Some (A : Type) (f : A -> bool) (l1 l2 : list A) (x : A) :
  find f l1 = Some x -> find f (l1 ++ l2) = Some x.
Proof.
  induction l1 as [| y l1 IH]; simpl; [discriminate |].
  destruct (f y); [auto | exact IH].
Qed.

Lemma withStatus_same (p : Assessment.t) :
  Assessment.withStatus (Assessment.status p) p = p.
Proof. destruct p. reflexivity. Qed.

(** After the archival the previous latest assessment is archived, and
    otherwise as it was. *)
Lemma afterArchival_row (db : Store.t) (orgId : Id) (p : Assessment.t) :
  Inv db ->
  findLatestAssessment db orgId = Some p ->
  In (Assessment.withStatus ARCHIVED p)
     (Store.assessments (afterArchival db (Some p)))
  /\ NoDup (map Assessment.id
              (Store.assessments (afterArchival db (Some p)))).
Proof.
  intros HInv Hlatest.
  destruct (findLatest_Some _ _ _ Hlatest) as (Hin & _ & _).
  destruct (archived_rows db orgId p HInv Hlatest) as (HInv1 & _ & _).
  cbv zeta in HInv1. split; [| exact (ids_unique HInv1)].
  unfold afterArchival.
  destruct (AssessmentStatus_eqb (Assessment.status p) ARCHIVED) eqn:E;
    cbn [negb].
  - apply status_eqb_eq in E. rewrite <- E, withStatus_same. exact Hin.
  - cbn [updateAssessment Store.assessments Store.withAssessments].
    apply in_map_iff. exists p. rewrite Nat.eqb_refl. auto.
Qed.

(** C4: in every store the requests can reach, an organization has at
    most one assessment that is not ARCHIVED.  A creation that goes
    through replies with a DRAFT assessment whose version is that of the
    previous latest assessment plus 1, or 1 when there is none; the
    previous latest assessment, whatever its status, is ARCHIVED
    afterwards, and the new assessment is the only one of the organization
    that is not.  Creating a second assessment while the first is still
    DRAFT archives the first and gives the second version 2. *)
Theorem one_live_assessment_per_org (db : Store.t) (Hreach : reachable db) :
  (forall a b,
     In a (Store.assessments db) -> In b (Store.assessments db) ->
     Assessment.orgId a = Assessment.orgId b ->
     Assessment.status a <> ARCHIVED -> Assessment.status b <> ARCHIVED ->
     a = b)
  /\ (forall req,
        mayCreate req -> onboarded req db ->
        let orgId := JwtPayload.orgId (Req.user req) in
        let previous := findLatestAssessment db orgId in
        let db' := snd (createAssessment req db) in
        exists created,
          fst (createAssessment req db) = Json 201 created
          /\ In created (Store.assessments db')
          /\ Assessment.orgId created = orgId
          /\ Assessment.status created = DRAFT
          /\ Assessment.assessmentVersion created = nextVersion previous
          /\ (forall p,
                previous = Some p ->
                rowOf db' (Assessment.id p)
                = Some (Assessment.withStatus ARCHIVED p)
                /\ forall b,
                     In b (Store.assessments db) ->
                     Assessment.orgId b = orgId ->
                     Assessment.assessmentVersion b
                     <= Assessment.assessmentVersion p)
          /\ (forall a,
                In a (Store.assessments db') ->
                Assessment.orgId a = orgId ->
                Assessment.status a <> ARCHIVED ->
                a = created))
  /\ (forall req db0,
        initial db0 -> mayCreate req -> onboarded req db0 ->
        let db1 := snd (createAssessment req db0) in
        let db2 := snd (createAssessment req db1) in
        exists first second,
          fst (createAssessment req db0) = Json 201 first
          /\ Assessment.status first = DRAFT
          /\ Assessment.assessmentVersion first = 1
          /\ fst (createAssessment req db1) = Json 201 second
          /\ Assessment.status second = DRAFT
          /\ Assessment.assessmentVersion second = 2
          /\ rowOf db2 (Assessment.id first)
             = Some (Assessment.withStatus ARCHIVED first)).
Proof.
  pose proof (reachable_Inv db Hreach) as HInv.
  split; [| split].
  - intros a b Ha Hb Horg Hla Hlb. exact (Inv_one_live db a b HInv Ha Hb Horg Hla Hlb).
  - intros req Hrole Hon. cbv zeta.
    destruct (createAssessment_result req db Hrole Hon) as [Hreply Hrows].
    cbv zeta in Hreply, Hrows.
    pose proof (createAssessment_Inv req db HInv) as HInv'.
    eexists. split; [exact Hreply |].
    split; [rewrite Hrows; apply in_or_app; right; left; reflexivity |].
    do 3 (split; [reflexivity |]).
    split.
    + intros p Hprev. rewrite Hprev in Hrows.
      destruct (findLatest_Some _ _ _ Hprev) as (Hin & Hporg & Hmax).
      split.
      * unfold rowOf. rewrite Hrows.
        destruct (afterArchival_row db _ p HInv Hprev) as [Hrow Hnd].
        apply find_app_Some.
        apply (find_by_id _ (Assessment.withStatus ARCHIVED p) Hnd Hrow).
      * intros b Hb Hborg. apply Hmax; [assumption | assumption |].
        apply (not_deleted HInv). exact Hb.
    + intros a Ha Horg Hlive. rewrite Hrows in Ha.
      apply in_app_or in Ha. destruct Ha as [Ha | [<- | []]]; [| reflexivity].
      exfalso.
      destruct (findLatestAssessment db (JwtPayload.orgId (Req.user req)))
        as [p |] eqn:Hprev.
      * destruct (archived_rows db _ p HInv Hprev) as (_ & _ & Hdead).
        cbv zeta in Hdead. destruct (Hdead a Ha Horg) as [Hd _].
        exact (Hd Hlive).
      * cbn [afterArchival] in Ha.
        pose proof (findLatest_None db _ a Hprev Ha Horg) as Hdel.
        rewrite (not_deleted HInv a Ha) in Hdel. discriminate Hdel.
  - intros req db0 Hinit Hrole (org & Horg & Hdone). cbv zeta.
    destruct db0 as [orgs ctrls rows resps tasks files logs next].
    unfold initial in Hinit. cbn [Store.assessments] in Hinit. subst rows.
    unfold findOrganization in Horg. cbn [Store.organizations] in Horg.
    unfold createAssessment, findOrganization, rowOf.
    rewrite (authorize_mayCreate req Hrole).
    cbn [negb Store.organizations]. rewrite Horg, Hdone.
    cbn [negb snd fst findLatestAssessment Store.assessments filter
         maxByVersion Store.nextId Store.withAssessments Store.bumpId
         AuditLogger.logAudit Store.withAuditLogs Store.organizations app].
    rewrite Horg, Hdone.
    cbn [negb snd fst findLatestAssessment Store.assessments filter
         maxByVersion Store.nextId Store.withAssessments Store.bumpId
         AuditLogger.logAudit Store.withAuditLogs Store.organizations app
         Assessment.orgId Assessment.isDeleted andb].
    rewrite Nat.eqb_refl.
    cbn [negb andb maxByVersion Assessment.status AssessmentStatus_eqb
         updateAssessment Store.assessments Store.withAssessments map
         Assessment.id Store.nextId app find Assessment.assessmentVersion
         Assessment.withStatus].
    do 2 eexists.
    do 6 (split; [reflexivity |]).
    cbn. rewrite !Nat.eqb_refl. reflexivity.
Qed.

Lemma firstCreated_reachable : reachable firstCreated.
Proof.
  apply (@reachable_step seededStore).
  - apply reachable_initial. reflexivity.
  - apply step_createAssessment.
Qed.

Lemma one_live_assessment_per_org_witness :
  exists second,
    fst (createAssessment dpoReq firstCreated) = Json 201 second
    /\ Assessment.status second = DRAFT
    /\ Assessment.assessmentVersion second = 2
    /\ rowOf (snd (createAssessment dpoReq firstCreated)) 100%nat
       = Some (Assessment.withStatus ARCHIVED
                 (newAssessment 100%nat 1%nat 1 2%nat)).
Proof.
  destruct (one_live_assessment_per_org firstCreated firstCreated_reachable)
    as (_ & Hcreate & _).
  destruct (Hcreate dpoReq (or_intror (or_introl eq_refl))
              (ex_intro _ demoOrg (conj eq_refl eq_refl)))
    as (created & Hreply & _ & _ & Hstatus & Hversion & Hprev & _).
  exists created. split; [exact Hreply |]. split; [exact Hstatus |].
  split; [exact Hversion |].
  exact (proj1 (Hprev (newAssessment 100%nat 1%nat 1 2%nat) eq_refl)).
Defined.

End LifecycleFacts.

(** ** Submitting an answer again *)

Module ResubmissionFacts.
Import Assessments AssessmentSpec Samples.

Lemma findResponse_Some (db : Store.t) (assessmentId : Id)
  (controlId : string) (existing : Response.t) :
  findResponse db assessmentId controlId = Some existing ->
  In existing (Store.responses db)
  /\ Response.assessmentId existing = assessmentId
  /\ Response.controlId existing = controlId.
Proof.
  unfold findResponse. intro H. apply find_some in H.
  destruct H as [Hin H]. apply andb_true_iff in H. destruct H as [H1 H2].
  apply Nat.eqb_eq in H1. apply String.eqb_eq in H2. auto.
Qed.

(** What a submission that goes through writes. *)
Lemma submitResponse_success (req : Req.t) (assessmentId : Id)
  (controlId : string) (body : ResponseBody.t) (db db' : Store.t)
  (r : Response.t) :
  submitResponse req assessmentId controlId body db = (Json 200 r, db') ->
  let answer := ResponseBody.answer body in
  let orgId := JwtPayload.orgId (Req.user req) in
  exists control idGap idAlert,
    findControl db controlId = Some control
    /\ pairOf r = (assessmentId, controlId)
    /\ Store.responses db'
       = match findResponse db assessmentId controlId with
         | Some existing =>
             map (fun x => if Nat.eqb (Response.id x) (Response.id existing)
                           then r else x)
                 (Store.responses db)
         | None => (Store.responses db ++ [r])%list
         end
    /\ Response.id r
       = match findResponse db assessmentId controlId with
         | Some existing => Response.id existing
         | None => Store.nextId db
         end
    /\ (match findResponse db assessmentId controlId with
        | Some existing => Store.nextId db
        | None => S (Store.nextId db)
        end <= Store.nextId db')%nat
    /\ Store.remediationTasks db'
       = (Store.remediationTasks db
          ++ (if isGapAnswer answer
              then match findTask db assessmentId controlId orgId with
                   | None =>
                       [gapTask req assessmentId control controlId answer
                          idGap]
                   | Some _ => []
                   end
              else [])
          ++ (if alertFires controlId answer
              then [alertTask req assessmentId controlId idAlert]
              else []))%list.
Proof.
  destruct body as [answer naJustification notes].
  unfold submitResponse, isGapAnswer, alertFires, createTask,
    AuditLogger.logAudit, pairOf.
  cbn [ResponseBody.answer ResponseBody.naJustification ResponseBody.notes].
  cbv zeta.
  destruct (negb (JS.includes ["YES"; "PARTIAL"; "NO"; "NA"] answer));
    [discriminate |].
  destruct (findAssessment db assessmentId _); [| discriminate].
  destruct (_ && _); [discriminate |].
  destruct (findControl db controlId) as [control |]; [| discriminate].
  destruct (if (answer =? "NA")%string && _ then _ else _) as [[|] |];
    try discriminate.
  destruct ((answer =? "NA")%string && justificationMissing naJustification);
    [discriminate |].
  destruct (findResponse db assessmentId controlId) as [existing |] eqn:Hex.
  - destruct (findResponse_Some _ _ _ _ Hex) as (_ & Hp1 & Hp2).
    change (findTask (Store.withResponses ?l db) assessmentId controlId
              (JwtPayload.orgId (Req.user req)))
      with (findTask db assessmentId controlId
              (JwtPayload.orgId (Req.user req))).
    destruct ((answer =? "NO")%string || (answer =? "PARTIAL")%string);
      destruct (findTask db assessmentId controlId
                  (JwtPayload.orgId (Req.user req)));
      destruct (JS.startsWith controlId "PDPL-T.8" && (answer =? "YES")%string);
      intro H; injection H as <- <-; exists control;
      eexists; try exact O; eexists; try exact O;
      cbn; rewrite ?app_nil_r, <- ?app_assoc, Hp1, Hp2;
      repeat split; try reflexivity; lia.
  - change (findTask (Store.bumpId (Store.withResponses ?l db)) assessmentId
              controlId (JwtPayload.orgId (Req.user req)))
      with (findTask db assessmentId controlId
              (JwtPayload.orgId (Req.user req))).
    destruct ((answer =? "NO")%string || (answer =? "PARTIAL")%string);
      destruct (findTask db assessmentId controlId
                  (JwtPayload.orgId (Req.user req)));
      destruct (JS.startsWith controlId "PDPL-T.8" && (answer =? "YES")%string);
      intro H; injection H as <- <-; exists control;
      eexists; try exact O; eexists; try exact O;
      cbn; rewrite ?app_nil_r, <- ?app_assoc;
      repeat split; try reflexivity; lia.
Qed.

Lemma ResponsesOk_submitResponse (req : Req.t) (assessmentId : Id)
  (controlId : string) (body : ResponseBody.t) (db db' : Store.t)
  (r : Response.t) :
  ResponsesOk db ->
  submitResponse req assessmentId controlId body db = (Json 200 r, db') ->
  ResponsesOk db'.
Proof.
  intros [Hfresh Hids Hpairs] Hok.
  destruct (submitResponse_success _ _ _ _ _ _ _ Hok)
    as (control & idGap & idAlert & _ & Hpair & Hrows & Hid & Hnext & _).
  destruct (findResponse db assessmentId controlId) as [existing |] eqn:Hex.
  - destruct (findResponse_Some _ _ _ _ Hex) as (Hin & Hp1 & Hp2).
    set (g := fun x => if Nat.eqb (Response.id x) (Response.id existing)
                       then r else x) in Hrows.
    assert (Hgid : forall x, Response.id (g x) = Response.id x).
    { intro x. unfold g.
      destruct (Nat.eqb_spec (Response.id x) (Response.id existing));
        congruence. }
    assert (Hgpair : forall x, In x (Store.responses db) ->
                               pairOf (g x) = pairOf x).
    { intros x Hx. unfold g.
      destruct (Nat.eqb_spec (Response.id x) (Response.id existing)) as [E |];
        [| reflexivity].
      rewrite (LifecycleFacts.NoDup_map_eq _ _ Response.id _ x existing
                 Hids Hx Hin E).
      rewrite Hpair. unfold pairOf. congruence. }
    constructor; rewrite Hrows.
    + intros x' Hx'. apply in_map_iff in Hx'. destruct Hx' as (x & <- & Hx).
      rewrite Hgid. specialize (Hfresh x Hx). lia.
    + rewrite map_map, (map_ext _ Response.id Hgid). exact Hids.
    + rewrite map_map, (map_ext_in _ pairOf _ Hgpair). exact Hpairs.
  - constructor; rewrite Hrows.
    + intros x Hx. apply in_app_or in Hx. destruct Hx as [Hx | [<- | []]].
      * specialize (Hfresh x Hx). lia.
      * lia.
    + rewrite map_app. apply NoDup_app; [exact Hids | repeat constructor; simpl; tauto |].
      intros i Hi [<- | []]. apply in_map_iff in Hi.
      destruct Hi as (x & Hxi & Hx). specialize (Hfresh x Hx). lia.
    + rewrite map_app. apply NoDup_app; [exact Hpairs | repeat constructor; simpl; tauto |].
      intros p Hp [<- | []]. apply in_map_iff in Hp.
      destruct Hp as (x & Hxp & Hx).
      unfold findResponse in Hex.
      pose proof (find_none _ _ Hex x Hx) as Hno. cbv beta in Hno.
      rewrite Hpair in Hxp. unfold pairOf in Hxp. injection Hxp as H1 H2.
      rewrite H1, H2, Nat.eqb_refl, String.eqb_refl in Hno. discriminate Hno.
Qed.

Lemma one_row_per_pair (l : list Response.t) (r : Response.t) :
  NoDup (map pairOf l) -> In r l ->
  List.length
    (filter (fun x => Nat.eqb (Response.assessmentId x)
                              (Response.assessmentId r)
                      && (Response.controlId x =? Response.controlId r)%string)
            l) = 1%nat.
Proof.
  set (same := fun x => Nat.eqb (Response.assessmentId x)
                                (Response.assessmentId r)
                        && (Response.controlId x =? Response.controlId r)%string).
  assert (Hsame : forall x, same x = true <-> pairOf x = pairOf r).
  { intro x. unfold same, pairOf.
    rewrite andb_true_iff, Nat.eqb_eq, String.eqb_eq.
    split; [intros [-> ->]; reflexivity | intro H; injection H; auto]. }
  induction l as [| x l IH]; simpl; [tauto |].
  intros Hnd Hin. inversion Hnd as [| ? ? Hnotin Hnd']; subst.
  destruct Hin as [-> | Hin].
  - rewrite (proj2 (Hsame r) eq_refl). simpl. f_equal.
    destruct (filter same l) as [| y rest] eqn:Ef; [reflexivity |].
    exfalso. assert (Hy : In y (filter same l)) by (rewrite Ef; left; reflexivity).
    apply filter_In in Hy. destruct Hy as [Hy E].
    apply Hnotin. apply Hsame in E. rewrite <- E. apply in_map. exact Hy.
  - destruct (same x) eqn:E.
    + exfalso. apply Hnotin. apply Hsame in E. rewrite E.
      apply in_map. exact Hin.
    + apply IH; assumption.
Qed.

Lemma find_app_hit (A : Type) (f : A -> bool) (l l' : list A) (x : A) :
  f x = true -> find f (l ++ x :: l') <> None.
Proof.
  intro Hx. induction l as [| y l IH]; simpl.
  - rewrite Hx. discriminate.
  - destruct (f y); [discriminate | exact IH].
Qed.

Lemma find_app_keep (A : Type) (f : A -> bool) (l l' : list A) :
  find f l <> None -> find f (l ++ l') <> None.
Proof.
  induction l as [| y l IH]; simpl; [congruence |].
  destruct (f y); [discriminate | exact IH].
Qed.

(** Once a NO or PARTIAL went through, the pair has a task. *)
Lemma gap_answer_leaves_task (req : Req.t) (assessmentId : Id)
  (controlId : string) (body : ResponseBody.t) (db db' : Store.t)
  (r : Response.t) :
  submitResponse req assessmentId controlId body db = (Json 200 r, db') ->
  isGapAnswer (ResponseBody.answer body) = true ->
  findTask db' assessmentId controlId (JwtPayload.orgId (Req.user req))
  <> None.
Proof.
  intros Hok Hgap.
  destruct (submitResponse_success _ _ _ _ _ _ _ Hok)
    as (control & idGap & idAlert & _ & _ & _ & _ & _ & Htasks).
  cbv zeta in Htasks. rewrite Hgap in Htasks.
  unfold findTask at 1. rewrite Htasks.
  destruct (findTask db assessmentId controlId
              (JwtPayload.orgId (Req.user req))) eqn:Hfind.
  - cbn [app]. apply find_app_keep. unfold findTask in Hfind.
    rewrite Hfind. discriminate.
  - cbn [app]. apply find_app_hit. unfold gapTask.
    cbn [RemediationTask.assessmentId RemediationTask.controlId
         RemediationTask.orgId RemediationTask.isDeleted].
    rewrite !Nat.eqb_refl, String.eqb_refl. reflexivity.
Qed.

(** The same answer submitted again for the same control of the same
    assessment: the pair keeps exactly one response row; no task is added
    unless the transfer-suspension alert fires, and one is added each time
    it does. *)
Lemma resubmission (req1 req2 : Req.t) (assessmentId : Id)
  (controlId : string) (body : ResponseBody.t) (db db1 db2 : Store.t)
  (r1 r2 : Response.t) :
  ResponsesOk db ->
  JwtPayload.orgId (Req.user req2) = JwtPayload.orgId (Req.user req1) ->
  submitResponse req1 assessmentId controlId body db = (Json 200 r1, db1) ->
  submitResponse req2 assessmentId controlId body db1 = (Json 200 r2, db2) ->
  List.length (responsesOf db2 assessmentId controlId) = 1%nat
  /\ (alertFires controlId (ResponseBody.answer body) = false ->
      Store.remediationTasks db2 = Store.remediationTasks db1)
  /\ (alertFires controlId (ResponseBody.answer body) = true ->
      List.length (tasksOf db2 assessmentId controlId)
      = S (List.length (tasksOf db1 assessmentId controlId))).
Proof.
  intros Hok0 Horg Hfirst Hsecond.
  pose proof (ResponsesOk_submitResponse _ _ _ _ _ _ _ Hok0 Hfirst) as Hok1.
  pose proof (ResponsesOk_submitResponse _ _ _ _ _ _ _ Hok1 Hsecond) as Hok2.
  destruct (submitResponse_success _ _ _ _ _ _ _ Hsecond)
    as (control & idGap & idAlert & _ & Hpair & Hrows & _ & _ & Htasks).
  cbv zeta in Htasks.
  assert (Hin : In r2 (Store.responses db2)).
  { rewrite Hrows.
    destruct (findResponse db1 assessmentId controlId) as [existing |] eqn:Hex.
    - destruct (findResponse_Some _ _ _ _ Hex) as (Hin & _ & _).
      apply in_map_iff. exists existing. rewrite Nat.eqb_refl. auto.
    - apply in_or_app. right. left. reflexivity. }
  assert (Hgap : (if isGapAnswer (ResponseBody.answer body)
                  then match findTask db1 assessmentId controlId
                               (JwtPayload.orgId (Req.user req2)) with
                       | None =>
                           [gapTask req2 assessmentId control controlId
                              (ResponseBody.answer body) idGap]
                       | Some _ => []
                       end
                  else []) = []).
  { destruct (isGapAnswer (ResponseBody.answer body)) eqn:Hg; [| reflexivity].
    pose proof (gap_answer_leaves_task _ _ _ _ _ _ _ Hfirst Hg) as Hsome.
    rewrite Horg.
    destruct (findTask db1 assessmentId controlId
                (JwtPayload.orgId (Req.user req1))); [reflexivity |].
    congruence. }
  rewrite Hgap in Htasks. cbn [app] in Htasks.
  split; [| split].
  - unfold pairOf in Hpair. injection Hpair as Hp1 Hp2.
    unfold responsesOf. rewrite <- Hp1, <- Hp2.
    apply one_row_per_pair; [apply (response_pairs_unique Hok2) | exact Hin].
  - intro Hoff. rewrite Hoff, app_nil_r in Htasks. exact Htasks.
  - intro Hon. rewrite Hon in Htasks. unfold tasksOf. rewrite Htasks.
    rewrite filter_app, length_app. unfold alertTask. cbn.
    rewrite Nat.eqb_refl, String.eqb_refl. cbn. lia.
Qed.

End ResubmissionFacts.

(** ** More on scoring *)

Module ScoringMoreFacts.
Import Scoring ScoringSpec ScoringAux Samples.

(** *** The order of the reported domains *)

Lemma insertByDomain_Permutation (x : DomainScore.t) (l : list DomainScore.t) :
  Permutation (insertByDomain x l) (x :: l).
Proof.
  induction l as [| y l IH]; simpl; [apply Permutation_refl |].
  destruct (DomainScore.domainNumber x <=? DomainScore.domainNumber y).
  - apply Permutation_refl.
  - apply perm_trans with (y :: x :: l); [| apply perm_swap].
    apply perm_skip. exact IH.
Qed.

Lemma sortByDomain_Permutation (l : list DomainScore.t) :
  Permutation (sortByDomain l) l.
Proof.
  induction l as [| x l IH]; simpl; [apply Permutation_refl |].
  apply perm_trans with (x :: sortByDomain l).
  - apply insertByDomain_Permutation.
  - apply perm_skip. exact IH.
Qed.

Lemma insertByDomain_sorted (x : DomainScore.t) (l : list DomainScore.t) :
  StronglySorted
    (fun a b => DomainScore.domainNumber a <= DomainScore.domainNumber b) l ->
  StronglySorted
    (fun a b => DomainScore.domainNumber a <= DomainScore.domainNumber b)
    (insertByDomain x l).
Proof.
  induction l as [| y l IH]; simpl; intro Hs.
  - constructor; constructor.
  - inversion Hs as [| ? ? Hs' Hall]; subst.
    destruct (Z.leb_spec (DomainScore.domainNumber x)
                         (DomainScore.domainNumber y)) as [Hle | Hgt].
    + constructor; [exact Hs |]. constructor; [exact Hle |].
      apply Forall_forall. intros z Hz.
      rewrite Forall_forall in Hall. specialize (Hall z Hz). lia.
    + constructor; [apply IH; exact Hs' |].
      apply Forall_forall. intros z Hz.
      apply ScoringFacts.In_insertByDomain in Hz. destruct Hz as [-> | Hz].
      * lia.
      * rewrite Forall_forall in Hall. apply Hall. exact Hz.
Qed.

Lemma sortByDomain_sorted (l : list DomainScore.t) :
  StronglySorted
    (fun a b => DomainScore.domainNumber a <= DomainScore.domainNumber b)
    (sortByDomain l).
Proof.
  induction l as [| x l IH]; simpl; [constructor |].
  apply insertByDomain_sorted, IH.
Qed.

Lemma sorted_NoDup_ascending (l : list DomainScore.t) :
  StronglySorted
    (fun a b => DomainScore.domainNumber a <= DomainScore.domainNumber b) l ->
  NoDup (map DomainScore.domainNumber l) ->
  ascending l.
Proof.
  unfold ascending. induction l as [| x l IH]; simpl; intros Hs Hnd.
  - constructor.
  - inversion Hs as [| ? ? Hs' Hall]; subst.
    inversion Hnd as [| ? ? Hnotin Hnd']; subst.
    constructor; [apply IH; assumption |].
    apply Forall_forall. intros z Hz.
    rewrite Forall_forall in Hall. specialize (Hall z Hz).
    assert (DomainScore.domainNumber x <> DomainScore.domainNumber z).
    { intro E. apply Hnotin. rewrite E. apply in_map. exact Hz. }
    lia.
Qed.

Lemma domainNumber_toDomainScore (m : JS.Map DomainData) :
  map DomainScore.domainNumber (map toDomainScore m) = map fst m.
Proof.
  induction m as [| [k d] m IH]; simpl; [reflexivity |]. rewrite IH.
  reflexivity.
Qed.

Lemma sorted_domainScores (l : list ControlScore.t) :
  ascending (ScoreResult.domainScores (calculateScores l)).
Proof.
  unfold calculateScores. cbn [ScoreResult.domainScores]. fold (assessed l).
  apply sorted_NoDup_ascending; [apply sortByDomain_sorted |].
  apply (Permutation_NoDup
           (l := map DomainScore.domainNumber
                   (map toDomainScore
                      (JS.entries
                         (domainMap
                            (fold_left loopBody (assessed l) initLocals)))))).
  - apply Permutation_map, Permutation_sym, sortByDomain_Permutation.
  - unfold JS.entries. rewrite domainNumber_toDomainScore.
    apply ScoringFacts.NoDup_fold. constructor.
Qed.

(** *** Sums over the domains *)

Lemma sumMapZ_set (f : DomainData -> Z) (k : Z) (v : DomainData)
  (m : JS.Map DomainData) :
  sumMapZ f (JS.set k v m)
  = sumMapZ f m + f v
    - match JS.get k m with Some x => f x | None => 0 end.
Proof.
  induction m as [| [k' v'] m IH]; simpl; [lia |].
  destruct (k =? k'); simpl; [lia |]. rewrite IH. lia.
Qed.


(** One iteration adds the contribution of the response to one object of
    the map and to no other. *)
Lemma sumMapZ_loopBody (f : DomainData -> Z) (delta : ControlScore.t -> Z)
  (st : Locals) (c : ControlScore.t) :
  f emptyDomain = 0 ->
  (forall d, f (bumpDomain c d) = f d + delta c) ->
  sumMapZ f (domainMap (loopBody st c))
  = sumMapZ f (domainMap st) + delta c.
Proof.
  intros Hempty Hbump. unfold loopBody. cbn [domainMap].
  set (dn := ControlScore.domainNumber c). set (dm := domainMap st).
  rewrite (ScoringFacts.has_get dn dm).
  destruct (JS.get dn dm) as [x |] eqn:Eget; cbn [negb].
  - rewrite Eget, sumMapZ_set, Eget, Hbump. lia.
  - rewrite (ScoringFacts.get_set dn dn emptyDomain dm), Z.eqb_refl.
    cbv iota.
    rewrite sumMapZ_set, (ScoringFacts.get_set dn dn emptyDomain dm),
      Z.eqb_refl, sumMapZ_set, Eget, Hbump, Hempty. lia.
Qed.


Lemma sumMapZ_fold (f : DomainData -> Z) (p : ControlScore.t -> bool)
  (l : list ControlScore.t) (st : Locals) :
  f emptyDomain = 0 ->
  (forall c d, f (bumpDomain c d) = f d + (if p c then 1 else 0)) ->
  sumMapZ f (domainMap (fold_left loopBody l st))
  = sumMapZ f (domainMap st) + countIf p l.
Proof.
  intros Hempty Hbump. revert st.
  induction l as [| c l IH]; intro st; simpl.
  - unfold countIf. simpl. lia.
  - rewrite IH, (sumMapZ_loopBody f (fun c => if p c then 1 else 0) st c
                   Hempty (Hbump c)), ScoringFacts.countIf_cons. lia.
Qed.


Lemma sumOfZ_insert (f : DomainScore.t -> Z) (x : DomainScore.t)
  (l : list DomainScore.t) :
  sumOfZ f (insertByDomain x l) = f x + sumOfZ f l.
Proof.
  induction l as [| y l IH]; simpl; [reflexivity |].
  destruct (_ <=? _); simpl; [reflexivity |]. rewrite IH. lia.
Qed.


Lemma sumOfZ_domainScores (f : DomainScore.t -> Z) (g : DomainData -> Z)
  (m : JS.Map DomainData) :
  (forall k d, f (toDomainScore (k, d)) = g d) ->
  sumOfZ f (sortByDomain (map toDomainScore m)) = sumMapZ g m.
Proof.
  intro H. induction m as [| [k d] m IH]; [reflexivity |].
  cbn [map sortByDomain fold_right sumMapZ].
  change (fold_right insertByDomain [] (map toDomainScore m))
    with (sortByDomain (map toDomainScore m)).
  rewrite sumOfZ_insert, IH, H. reflexivity.
Qed.




Lemma isGap_known (c : ControlScore.t) :
  (if isNO c then 1 else 0)
  = (if isGap "CRITICAL" c then 1 else 0) + (if isGap "HIGH" c then 1 else 0)
    + (if isGap "MEDIUM" c then 1 else 0) + (if isGap "LOW" c then 1 else 0)
    + (if isNO c && negb (knownRisk c) then 1 else 0).
Proof.
  unfold isGap, knownRisk, JS.includes. cbn [existsb].
  destruct (isNO c); cbn [andb]; [| reflexivity].
  destruct (String.eqb_spec (ControlScore.riskLevel c) "CRITICAL") as [-> |];
    [reflexivity |].
  destruct (String.eqb_spec (ControlScore.riskLevel c) "HIGH") as [-> |];
    [reflexivity |].
  destruct (String.eqb_spec (ControlScore.riskLevel c) "MEDIUM") as [-> |];
    [reflexivity |].
  destruct (String.eqb_spec (ControlScore.riskLevel c) "LOW");
    reflexivity.
Qed.

Lemma countIf_split (l : list ControlScore.t) :
  countIf isNO l
  = countIf (isGap "CRITICAL") l + countIf (isGap "HIGH") l
    + countIf (isGap "MEDIUM") l + countIf (isGap "LOW") l
    + countIf (fun c => isNO c && negb (knownRisk c)) l.
Proof.
  induction l as [| c l IH]; [reflexivity |].
  rewrite !ScoringFacts.countIf_cons, IH.
  pose proof (isGap_known c) as H. lia.
Qed.

(** X3: the gap counts of the domains add up to the number of NO answers.
    The four global counters add up to less whenever a NO sits on a control
    whose risk level is none of CRITICAL, HIGH, MEDIUM and LOW: such a gap
    is counted in its domain and in no global counter. *)
Theorem domain_gaps_exceed_global (l : list ControlScore.t) :
  let r := calculateScores l in
  sumOfZ DomainScore.gapCount (ScoreResult.domainScores r) = countIf isNO l
  /\ sumOfZ DomainScore.gapCount (ScoreResult.domainScores r)
     = ScoreResult.criticalGaps r + ScoreResult.highGaps r
       + ScoreResult.mediumGaps r + ScoreResult.lowGaps r
       + countIf (fun c => isNO c && negb (knownRisk c)) l.
Proof.
  cbv zeta.
  assert (Hsum : sumOfZ DomainScore.gapCount
                   (ScoreResult.domainScores (calculateScores l))
                 = countIf isNO l).
  { unfold calculateScores. cbn [ScoreResult.domainScores].
    fold (assessed l). unfold JS.entries.
    rewrite (sumOfZ_domainScores _ gapCount) by reflexivity.
    rewrite (sumMapZ_fold gapCount isNO); try reflexivity.
    - cbn. apply ScoringFacts.countIf_assessed.
      apply ScoringFacts.isNO_not_NA.
    - intros c d. cbn. destruct (isNO c); lia. }
  split; [exact Hsum |]. rewrite Hsum.
  pose proof (ScoringFacts.calculateScores_gaps l) as Hg.
  assert (H1 : ScoreResult.criticalGaps (calculateScores l)
               = countIf (isGap "CRITICAL") l)
    by exact (f_equal (fun t => fst (fst (fst t))) Hg).
  assert (H2 : ScoreResult.highGaps (calculateScores l)
               = countIf (isGap "HIGH") l)
    by exact (f_equal (fun t => snd (fst (fst t))) Hg).
  assert (H3 : ScoreResult.mediumGaps (calculateScores l)
               = countIf (isGap "MEDIUM") l)
    by exact (f_equal (fun t => snd (fst t)) Hg).
  assert (H4 : ScoreResult.lowGaps (calculateScores l)
               = countIf (isGap "LOW") l)
    by exact (f_equal (fun t => snd t) Hg).
  rewrite H1, H2, H3, H4. apply countIf_split.
Qed.

(** *** The figures of one domain *)

Lemma Forall_filter (p : ControlScore.t -> bool) (P : ControlScore.t -> Prop)
  (l : list ControlScore.t) :
  Forall P l -> Forall P (filter p l).
Proof.
  intro H. apply Forall_forall. intros c Hc. apply filter_In in Hc.
  rewrite Forall_forall in H. apply H, Hc.
Qed.

Lemma countIf_filter (p : ControlScore.t -> bool) (d : Z)
  (l : list ControlScore.t) :
  countIf (fun c => p c && inDomain d c) l
  = countIf p (filter (inDomain d) l).
Proof.
  unfold countIf. f_equal. f_equal.
  induction l as [| c r IH]; simpl; [reflexivity |].
  destruct (inDomain d c); simpl; destruct (p c); simpl; rewrite ?IH;
    reflexivity.
Qed.

(** What an entry of [domainScores] holds, field by field. *)
Lemma domainScore_fields (l : list ControlScore.t) (e : DomainScore.t) :
  In e (ScoreResult.domainScores (calculateScores l)) ->
  let rows := filter (inDomain (DomainScore.domainNumber e)) (assessed l) in
  DomainScore.domainName e = domainNameOf (DomainScore.domainNumber e)
  /\ (DomainScore.totalPoints e == sumQ maxPointsOf rows)%Q
  /\ (DomainScore.earnedPoints e == sumQ earnedOf rows)%Q
  /\ DomainScore.percentage e
     = percentOf (DomainScore.earnedPoints e) (DomainScore.totalPoints e)
  /\ DomainScore.controlCount e = Z.of_nat (List.length rows)
  /\ DomainScore.gapCount e = countIf isNO rows
  /\ DomainScore.partialCount e = countIf isPARTIAL rows
  /\ rows <> [].
Proof.
  intro He. cbv zeta. apply ScoringFacts.In_domainScores in He.
  destruct He as (d & data & Hget & ->).
  pose proof (ScoringFacts.fold_domain_some _ _ _ _ Hget) as Hf.
  cbv zeta in Hf. destruct Hf as (H1 & H2 & H3 & H4 & H5).
  cbn [toDomainScore DomainScore.domainNumber DomainScore.domainName
       DomainScore.totalPoints DomainScore.earnedPoints
       DomainScore.percentage DomainScore.controlCount DomainScore.gapCount
       DomainScore.partialCount].
  cbn in H1, H2, H3, H4, H5.
  pose proof (fun p => countIf_filter p d (assessed l)) as Hand.
  split; [reflexivity |].
  split; [rewrite H1; ring |].
  split; [rewrite H2; ring |].
  split; [reflexivity |].
  split.
  { rewrite H3. unfold countIf. lia. }
  split; [rewrite H4; apply Hand |].
  split; [rewrite H5; apply Hand |].
  intro Hnil.
  assert (Hnone : JS.get d (domainMap
                    (fold_left loopBody (assessed l) initLocals)) = None).
  { apply ScoringFacts.fold_domain_none. split; [reflexivity |].
    intros c Hc Hd.
    assert (Hin : In c (filter (inDomain d) (assessed l))).
    { apply filter_In. split; [exact Hc |]. unfold inDomain.
      apply Z.eqb_eq. exact Hd. }
    rewrite Hnil in Hin. exact Hin. }
  congruence.
Qed.



(** *** The order of the responses does not matter *)




Lemma ascending_keys (l : list DomainScore.t) :
  ascending l -> StronglySorted Z.lt (map DomainScore.domainNumber l).
Proof.
  unfold ascending. induction 1 as [| x l _ IH Hall]; simpl; constructor.
  - exact IH.
  - apply Forall_forall. intros k Hk. apply in_map_iff in Hk.
    destruct Hk as (z & <- & Hz). rewrite Forall_forall in Hall.
    apply Hall, Hz.
Qed.


Lemma reported_iff (l : list ControlScore.t) (d : Z) :
  In d (map DomainScore.domainNumber
          (ScoreResult.domainScores (calculateScores l)))
  <-> exists c, In c (assessed l) /\ ControlScore.domainNumber c = d.
Proof.
  rewrite in_map_iff. split.
  - intros (e & Hd & He).
    destruct (domainScore_fields l e He) as (_ & _ & _ & _ & _ & _ & _ & Hne).
    cbv zeta in Hne.
    destruct (filter (inDomain (DomainScore.domainNumber e)) (assessed l))
      as [| c rest] eqn:Ef; [contradiction |].
    assert (Hc : In c (filter (inDomain (DomainScore.domainNumber e))
                              (assessed l)))
      by (rewrite Ef; left; reflexivity).
    apply filter_In in Hc. destruct Hc as [Hin Hdom].
    unfold inDomain in Hdom. apply Z.eqb_eq in Hdom.
    exists c. split; [exact Hin | congruence].
  - intros (c & Hin & Hd).
    destruct (JS.get d (domainMap
                (fold_left loopBody (assessed l) initLocals)))
      as [data |] eqn:Eget.
    + exists (toDomainScore (d, data)). split; [reflexivity |].
      apply ScoringFacts.In_domainScores. exists d, data. auto.
    + exfalso. apply ScoringFacts.fold_domain_none in Eget.
      destruct Eget as [_ Hall]. exact (Hall c Hin Hd).
Qed.

(** X1: the reported domains come in ascending order of their number, no
    domain is reported twice, and a domain is reported exactly when one of
    its responses is not NA. *)
Theorem domainScores_ascending (l : list ControlScore.t) :
  StronglySorted Z.lt
    (map DomainScore.domainNumber
       (ScoreResult.domainScores (calculateScores l)))
  /\ forall d,
       In d (map DomainScore.domainNumber
               (ScoreResult.domainScores (calculateScores l)))
       <-> exists c, In c l /\ isNA c = false
                     /\ ControlScore.domainNumber c = d.
Proof.
  split; [apply ascending_keys, sorted_domainScores |].
  intro d. rewrite reported_iff. unfold assessed.
  split; intros (c & Hc & Hd); exists c.
  - apply filter_In in Hc. destruct Hc as [Hin Hna].
    apply negb_true_iff in Hna. auto.
  - destruct Hd as [Hna Hd]. split; [| exact Hd].
    apply filter_In. split; [exact Hc |]. rewrite Hna. reflexivity.
Qed.





End ScoringMoreFacts.

(** ** More on the branching rules *)

Module BranchingMoreFacts.
Import Branching BranchingSpec Samples.

Lemma add_NoDup (c : string) (s : JS.StringSet) :
  NoDup s -> NoDup (JS.add c s).
Proof.
  intro H. unfold JS.add. destruct (JS.includes s c) eqn:E; [exact H |].
  apply BranchingFacts.includes_not_In in E.
  apply NoDup_app; [exact H | repeat constructor; simpl; tauto |].
  intros x Hx [<- | []]. exact (E Hx).
Qed.

Lemma addAll_NoDup (arr : list string) (s : JS.StringSet) :
  NoDup s -> NoDup (JS.addAll arr s).
Proof.
  unfold JS.addAll. revert s.
  induction arr as [| c arr IH]; intros s H; simpl; [exact H |].
  apply IH, add_NoDup, H.
Qed.

(** X6: both lists of the result are free of repetitions, whatever rules
    fire together, and the result depends on the organization type and on
    the flags for minors, cross-border transfers, cloud and AI only: the
    research and monitoring flags are never read. *)
Theorem branching_result_shape (profile : OrgProfile.t) :
  NoDup (BranchingResult.activatedControls (evaluateBranchingRules profile))
  /\ NoDup (BranchingResult.naControls (evaluateBranchingRules profile))
  /\ forall research monitoring : bool,
       evaluateBranchingRules
         (OrgProfile.mk (OrgProfile.orgType profile)
            (OrgProfile.processesMinors profile)
            (OrgProfile.crossBorderTransfers profile)
            (OrgProfile.usesCloud profile) research
            (OrgProfile.usesAiOrAutomatedDecisions profile) monitoring)
       = evaluateBranchingRules profile.
Proof.
  unfold evaluateBranchingRules, JS.Array_from.
  cbn [BranchingResult.activatedControls BranchingResult.naControls
       OrgProfile.orgType OrgProfile.processesMinors
       OrgProfile.crossBorderTransfers OrgProfile.usesCloud
       OrgProfile.usesAiOrAutomatedDecisions].
  repeat apply conj.
  - repeat match goal with
           | |- NoDup (if ?b then _ else _) => destruct b
           | |- NoDup (JS.addAll _ _) => apply addAll_NoDup
           end; constructor.
  - destruct (negb _); [apply addAll_NoDup |]; constructor.
  - reflexivity.
Qed.

Lemma naControls_value (profile : OrgProfile.t) :
  BranchingResult.naControls (evaluateBranchingRules profile)
  = if OrgProfile.crossBorderTransfers profile then [] else transferControls.
Proof.
  unfold evaluateBranchingRules. cbn [BranchingResult.naControls].
  destruct (OrgProfile.crossBorderTransfers profile); reflexivity.
Qed.

(** X7: for a health-sector organization the five controls that may not
    be answered NA are all activated; for no profile at all is one of them
    marked N/A, so with no [conditionalOn] they are always applicable. *)
Theorem mandatory_controls_stay_applicable (profile : OrgProfile.t)
  (c : string) (Hc : In c Assessments.mandatoryControls) :
  (isHealthOrg (OrgProfile.orgType profile) = true ->
   In c (BranchingResult.activatedControls (evaluateBranchingRules profile)))
  /\ ~ In c (BranchingResult.naControls (evaluateBranchingRules profile))
  /\ isControlApplicable c Json.Null profile (evaluateBranchingRules profile)
     = true.
Proof.
  assert (Hna : ~ In c (BranchingResult.naControls
                          (evaluateBranchingRules profile))).
  { rewrite naControls_value.
    destruct (OrgProfile.crossBorderTransfers profile);
      [tauto |].
    intro H. revert c Hc H. apply BranchingFacts.disjointb_spec.
    reflexivity. }
  split; [| split; [exact Hna |]].
  - unfold isHealthOrg. intro Hh.
    destruct profile as [orgType minors cross cloud research ai monitoring].
    unfold evaluateBranchingRules.
    cbn [OrgProfile.orgType OrgProfile.processesMinors
         OrgProfile.crossBorderTransfers OrgProfile.usesCloud
         OrgProfile.usesAiOrAutomatedDecisions] in *.
    rewrite Hh.
    set (usesCloud := ((cloud =? "yes")%string || (cloud =? "partial")%string)).
    clearbody usesCloud. cbv zeta.
    apply BranchingFacts.includes_In.
    simpl in Hc.
    destruct minors, cross, usesCloud, ai;
      decompose [or] Hc; subst; try contradiction; reflexivity.
  - unfold isControlApplicable.
    apply BranchingFacts.includes_not_In in Hna. rewrite Hna. reflexivity.
Qed.

Lemma mandatory_controls_stay_applicable_witness :
  In "PDPL-G.1"
     (BranchingResult.activatedControls (evaluateBranchingRules hospital))
  /\ isControlApplicable "PDPL-G.1" Json.Null hospital
       (evaluateBranchingRules hospital) = true.
Proof.
  destruct (mandatory_controls_stay_applicable hospital "PDPL-G.1"
              (or_intror (or_introl eq_refl))) as (Hact & _ & Happ).
  split; [exact (Hact eq_refl) | exact Happ].
Defined.

(** X8: an organization that makes no cross-border transfers never sees
    one of the six transfer controls as applicable, whatever the control's
    [conditionalOn] says; for an organization that does, nothing is marked
    N/A and applicability is decided by [conditionalOn] alone. *)
Theorem transfer_controls_follow_the_flag (profile : OrgProfile.t)
  (c : string) (conditionalOn : Json.t) :
  (OrgProfile.crossBorderTransfers profile = false ->
   In c transferControls ->
   isControlApplicable c conditionalOn profile
     (evaluateBranchingRules profile) = false)
  /\ (OrgProfile.crossBorderTransfers profile = true ->
      (isControlApplicable c conditionalOn profile
         (evaluateBranchingRules profile) = true
       <-> forall key value,
             In (key, value) (Object_entries conditionalOn) ->
             fieldIs profile key value)).
Proof.
  unfold isControlApplicable. rewrite naControls_value. split.
  - intros -> Hc. apply BranchingFacts.includes_In in Hc. rewrite Hc.
    reflexivity.
  - intros ->. cbn [JS.includes existsb].
    destruct (isObject conditionalOn) eqn:E.
    + apply BranchingFacts.allEntriesMatch_forall.
    + rewrite (BranchingFacts.Object_entries_not_object _ E).
      split; [intros _ ? ? [] | reflexivity].
Qed.

Lemma transfer_controls_follow_the_flag_witness :
  isControlApplicable "PDPL-T.6" Json.Null hospital
    (evaluateBranchingRules hospital) = false.
Proof.
  exact (proj1 (transfer_controls_follow_the_flag hospital "PDPL-T.6"
                  Json.Null)
           eq_refl (or_intror (or_introl eq_refl))).
Defined.

End BranchingMoreFacts.

(* ===================================================================== *)
(** ** The handlers of routes/assessments: replies and writes *)
(* ===================================================================== *)

Module HandlerFacts.
Import Assessments AssessmentSpec Lifecycle LifecycleAux SystemSpec Samples.

Lemma editable_iff (a : Assessment.t) :
  negb (AssessmentStatus_eqb (Assessment.status a) DRAFT)
  && negb (AssessmentStatus_eqb (Assessment.status a) IN_REVIEW) = false
  <-> editable a.
Proof.
  unfold editable.
  destruct (Assessment.status a); cbn; intuition congruence.
Qed.

Lemma includes_iff (l : list string) (s : string) :
  JS.includes l s = true <-> In s l.
Proof.
  unfold JS.includes. rewrite existsb_exists. split.
  - intros (x & Hin & Heq). apply String.eqb_eq in Heq. now subst.
  - intros Hin. exists s. split; [assumption | apply String.eqb_refl].
Qed.

Lemma authorize_iff (roles : list string) (req : Req.t) :
  roles <> [] ->
  (authorize roles req = true <-> In (JwtPayload.role (Req.user req)) roles).
Proof.
  intros Hne. unfold authorize. rewrite <- includes_iff.
  destruct roles as [| r roles]; [congruence |].
  replace (0 <? Z.of_nat (List.length (r :: roles))) with true
    by (symmetry; apply Z.ltb_lt; cbn [List.length]; lia).
  cbn [andb]. now rewrite negb_involutive.
Qed.

(** A lookup after an update that keeps the columns the lookup reads. *)
Lemma find_map_keeps (A : Type) (p : A -> bool) (f : A -> A) (l : list A) :
  (forall a, p (f a) = p a) ->
  find p (map f l) = option_map f (find p l).
Proof.
  intros Hp. induction l as [| a l IH]; [reflexivity |].
  cbn. rewrite Hp. destruct (p a); [reflexivity | exact IH].
Qed.

Lemma findAssessment_update (db : Store.t) (id0 : Id)
  (f : Assessment.t -> Assessment.t) (assessmentId orgId : Id)
  (a : Assessment.t) :
  keepsKey f ->
  findAssessment db assessmentId orgId = Some a ->
  findAssessment (updateAssessment id0 f db) assessmentId orgId
  = Some (if Nat.eqb (Assessment.id a) id0 then f a else a).
Proof.
  intros Hk Hfind. unfold findAssessment, updateAssessment in *. cbn.
  rewrite find_map_keeps.
  - now rewrite Hfind.
  - intros x. destruct (Nat.eqb (Assessment.id x) id0); [| reflexivity].
    destruct (Hk x) as (-> & -> & _ & ->). reflexivity.
Qed.

Lemma findAssessment_logAudit (req : Req.t) (action : string)
  (et : option string) (ei : option Id) (ov nv : option Json.t)
  (db : Store.t) (assessmentId orgId : Id) :
  findAssessment (AuditLogger.logAudit req action et ei ov nv db)
    assessmentId orgId
  = findAssessment db assessmentId orgId.
Proof. reflexivity. Qed.

(** X9: An NA answer is refused with 400 MANDATORY_CONTROL exactly when
    the request gets as far as the mandatory-control rule (the assessment
    is found and editable, the control is in the catalogue), the control
    is one of the five mandatory ones and the organization of the caller
    is a health organization; the justification plays no part. *)
Theorem mandatory_control_refusal (req : Req.t) (assessmentId : Id)
  (controlId : string) (body : ResponseBody.t) (db : Store.t) :
  let orgId := JwtPayload.orgId (Req.user req) in
  fst (submitResponse req assessmentId controlId body db)
  = Error 400 MANDATORY_CONTROL
  <-> ResponseBody.answer body = "NA"
      /\ (exists a, findAssessment db assessmentId orgId = Some a
                    /\ editable a)
      /\ (exists c, findControl db controlId = Some c)
      /\ In controlId mandatoryControls
      /\ (exists org, findOrganization db orgId = Some org
                      /\ In (Organization.orgType org)
                            Branching.HEALTH_ORG_TYPES).
Proof.
  intros orgId. subst orgId. unfold submitResponse, Branching.isHealthOrg.
  destruct (JS.includes ["YES"; "PARTIAL"; "NO"; "NA"]
              (ResponseBody.answer body)) eqn:Hvalid; cbn [negb].
  2: { split; [discriminate |]. intros (Ha & _). rewrite Ha in Hvalid.
       discriminate. }
  destruct (findAssessment db assessmentId (JwtPayload.orgId (Req.user req)))
    as [a |] eqn:Ha.
  2: { split; [discriminate |]. intros (_ & (a & Ha' & _) & _). discriminate. }
  destruct (negb (AssessmentStatus_eqb (Assessment.status a) DRAFT)
            && negb (AssessmentStatus_eqb (Assessment.status a) IN_REVIEW))
    eqn:Hed.
  { split; [discriminate |]. intros (_ & (a' & Ha' & Hed') & _).
    injection Ha' as <-. apply editable_iff in Hed'. congruence. }
  apply editable_iff in Hed.
  destruct (findControl db controlId) as [c |] eqn:Hc.
  2: { split; [discriminate |]. intros (_ & _ & (c & Hc') & _). discriminate. }
  destruct (ResponseBody.answer body =? "NA")%string eqn:Hna.
  2: { cbn [andb].
       split.
       - destruct (findResponse db assessmentId controlId); cbn; discriminate.
       - intros (Hans & _). apply String.eqb_neq in Hna. contradiction. }
  apply String.eqb_eq in Hna.
  destruct (JS.includes mandatoryControls controlId) eqn:Hm; cbn [andb].
  2: { split.
       - destruct (justificationMissing (ResponseBody.naJustification body));
           [discriminate |].
         destruct (findResponse db assessmentId controlId); cbn; discriminate.
       - intros (_ & _ & _ & Hin & _). apply includes_iff in Hin. congruence. }
  apply includes_iff in Hm.
  destruct (findOrganization db (JwtPayload.orgId (Req.user req)))
    as [org |] eqn:Horg.
  2: { split; [discriminate |]. intros (_ & _ & _ & _ & (o & Ho & _)).
       discriminate. }
  destruct (JS.includes Branching.HEALTH_ORG_TYPES (Organization.orgType org))
    eqn:Hh.
  - apply includes_iff in Hh. split; [| reflexivity]. intros _.
    repeat split; eauto.
  - split.
    + destruct (justificationMissing (ResponseBody.naJustification body));
        [discriminate |].
      destruct (findResponse db assessmentId controlId); cbn; discriminate.
    + intros (_ & _ & _ & _ & (o & Ho & Hin)). injection Ho as <-.
      apply includes_iff in Hin. congruence.
Qed.

Lemma createAssessment_failure (req : Req.t) (db : Store.t) :
  isSuccess (fst (createAssessment req db)) = false ->
  snd (createAssessment req db) = db.
Proof.
  unfold createAssessment. LifecycleFacts.through_handler; cbn; congruence.
Qed.

Lemma submitResponse_failure (req : Req.t) (assessmentId : Id)
  (controlId : string) (body : ResponseBody.t) (db : Store.t) :
  isSuccess (fst (submitResponse req assessmentId controlId body db)) = false ->
  snd (submitResponse req assessmentId controlId body db) = db.
Proof.
  unfold submitResponse. LifecycleFacts.through_handler; cbn; congruence.
Qed.

Lemma finalizeAssessment_failure (req : Req.t) (assessmentId : Id)
  (db : Store.t) :
  isSuccess (fst (finalizeAssessment req assessmentId db)) = false ->
  snd (finalizeAssessment req assessmentId db) = db.
Proof.
  unfold finalizeAssessment. LifecycleFacts.through_handler; cbn; congruence.
Qed.

Lemma submitForReview_failure (req : Req.t) (assessmentId : Id)
  (db : Store.t) :
  isSuccess (fst (submitForReview req assessmentId db)) = false ->
  snd (submitForReview req assessmentId db) = db.
Proof.
  unfold submitForReview. LifecycleFacts.through_handler; cbn; congruence.
Qed.

Lemma changeTaskStatus_failure (req : Req.t) (taskId : Id)
  (body : Remediation.StatusBody.t) (db : Store.t) :
  isSuccess (fst (Remediation.changeTaskStatus req taskId body db)) = false ->
  snd (Remediation.changeTaskStatus req taskId body db) = db.
Proof.
  unfold Remediation.changeTaskStatus.
  LifecycleFacts.through_handler; cbn; congruence.
Qed.

(** The status of a successful reply. *)
Lemma success_status (db : Store.t) :
  (forall req st a db',
     createAssessment req db = (Json st a, db') -> st = 201)
  /\ (forall req assessmentId controlId body st r db',
        submitResponse req assessmentId controlId body db = (Json st r, db') ->
        st = 200)
  /\ (forall req assessmentId st a db',
        finalizeAssessment req assessmentId db = (Json st a, db') -> st = 200)
  /\ (forall req assessmentId st a db',
        submitForReview req assessmentId db = (Json st a, db') -> st = 200)
  /\ (forall req taskId body st t db',
        Remediation.changeTaskStatus req taskId body db = (Json st t, db') ->
        st = 200).
Proof.
  repeat split; intros req.
  - intros st a db'. unfold createAssessment.
    LifecycleFacts.through_handler; congruence.
  - intros assessmentId controlId body st r db'. unfold submitResponse.
    LifecycleFacts.through_handler; congruence.
  - intros assessmentId st a db'. unfold finalizeAssessment.
    LifecycleFacts.through_handler; congruence.
  - intros assessmentId st a db'. unfold submitForReview.
    LifecycleFacts.through_handler; congruence.
  - intros taskId body st t db'. unfold Remediation.changeTaskStatus.
    LifecycleFacts.through_handler; congruence.
Qed.

(** X10: A request that is answered with an error writes nothing: the
    store after it is the store before it, for each of the five writing
    handlers; every check of a handler comes before its first write. *)
Theorem failed_request_writes_nothing (db : Store.t) :
  (forall req,
     isSuccess (fst (createAssessment req db)) = false ->
     snd (createAssessment req db) = db)
  /\ (forall req assessmentId controlId body,
        isSuccess (fst (submitResponse req assessmentId controlId body db))
        = false ->
        snd (submitResponse req assessmentId controlId body db) = db)
  /\ (forall req assessmentId,
        isSuccess (fst (finalizeAssessment req assessmentId db)) = false ->
        snd (finalizeAssessment req assessmentId db) = db)
  /\ (forall req assessmentId,
        isSuccess (fst (submitForReview req assessmentId db)) = false ->
        snd (submitForReview req assessmentId db) = db)
  /\ (forall req taskId body,
        isSuccess (fst (Remediation.changeTaskStatus req taskId body db))
        = false ->
        snd (Remediation.changeTaskStatus req taskId body db) = db).
Proof.
  repeat split; intros req.
  - apply createAssessment_failure.
  - intros assessmentId controlId body. apply submitResponse_failure.
  - intros assessmentId. apply finalizeAssessment_failure.
  - intros assessmentId. apply submitForReview_failure.
  - intros taskId body. apply changeTaskStatus_failure.
Qed.

Ltac audited :=
  LifecycleFacts.through_handler; unfold logged; cbn;
  try reflexivity;
  eexists; (split; [reflexivity | cbn; repeat split]).

(** X11: Every successful creation, response submission, finalization
    and task status change appends exactly one audit entry, carrying the
    action name and the organization, user and address of the caller; a
    refused request appends none; and a submission for review is never
    audited, not even when it succeeds. *)
Theorem audit_trail (db : Store.t) :
  (forall req,
     logged req "ASSESSMENT_CREATED"
       (isSuccess (fst (createAssessment req db)))
       db (snd (createAssessment req db)))
  /\ (forall req assessmentId controlId body,
        logged req "RESPONSE_SUBMITTED"
          (isSuccess (fst (submitResponse req assessmentId controlId body db)))
          db (snd (submitResponse req assessmentId controlId body db)))
  /\ (forall req assessmentId,
        logged req "ASSESSMENT_FINALIZED"
          (isSuccess (fst (finalizeAssessment req assessmentId db)))
          db (snd (finalizeAssessment req assessmentId db)))
  /\ (forall req taskId body,
        logged req "TASK_STATUS_CHANGED"
          (isSuccess (fst (Remediation.changeTaskStatus req taskId body db)))
          db (snd (Remediation.changeTaskStatus req taskId body db)))
  /\ (forall req assessmentId,
        Store.auditLogs (snd (submitForReview req assessmentId db))
        = Store.auditLogs db).
Proof.
  repeat split; intros req.
  - unfold createAssessment. audited.
  - intros assessmentId controlId body. unfold submitResponse. audited.
  - intros assessmentId. unfold finalizeAssessment. audited.
  - intros taskId body. unfold Remediation.changeTaskStatus. audited.
  - intros assessmentId. unfold submitForReview.
    LifecycleFacts.through_handler; reflexivity.
Qed.

(** What a successful finalization replies and stores. *)
Lemma finalizeAssessment_success (req : Req.t) (assessmentId : Id)
  (db db' : Store.t) (a' : Assessment.t) :
  finalizeAssessment req assessmentId db = (Json 200 a', db') ->
  let orgId := JwtPayload.orgId (Req.user req) in
  let scores := Scoring.calculateScores (controlScoresOf db assessmentId) in
  exists a,
    findAssessment db assessmentId orgId = Some a
    /\ editable a
    /\ mayFinalize req
    /\ a' = Assessment.mk (Assessment.id a) (Assessment.orgId a)
              (Assessment.assessmentVersion a) FINALIZED
              (Assessment.isDeleted a) (Assessment.createdBy a)
              (Some (ScoreResult.overallScore scores))
              (Some (ScoreResult.totalControlsAssessed scores))
              (Some (ScoreResult.criticalGaps scores))
              (Some (ScoreResult.highGaps scores))
              (Some (ScoreResult.mediumGaps scores))
              (Some (ScoreResult.lowGaps scores))
              (Some (ScoreResult.domainScores scores))
              (Some (JwtPayload.userId (Req.user req)))
              (Some (Req.now req))
    /\ findAssessment db' assessmentId orgId = Some a'
    /\ Store.responses db' = Store.responses db
    /\ Store.remediationTasks db' = Store.remediationTasks db.
Proof.
  unfold finalizeAssessment. intros H.
  destruct (authorize [ROLES.DPO; ROLES.ORG_ADMIN] req) eqn:Hauth;
    cbn [negb] in H; [| discriminate].
  destruct (findAssessment db assessmentId (JwtPayload.orgId (Req.user req)))
    as [a |] eqn:Ha; [| discriminate].
  destruct (negb (AssessmentStatus_eqb (Assessment.status a) DRAFT)
            && negb (AssessmentStatus_eqb (Assessment.status a) IN_REVIEW))
    eqn:Hed; [discriminate |].
  destruct (LifecycleFacts.findAssessment_Some _ _ _ _ Ha) as (_ & Hid & _).
  subst assessmentId.
  injection H as <- <-. exists a.
  split; [reflexivity |]. split; [now apply editable_iff |].
  split; [apply authorize_iff in Hauth; [exact Hauth | discriminate] |].
  split; [reflexivity |].
  split; [| split; reflexivity].
  rewrite findAssessment_logAudit.
  etransitivity.
  { apply (findAssessment_update db _ _ _ _ a);
      [intros x; cbn; repeat split | exact Ha]. }
  rewrite Nat.eqb_refl. reflexivity.
Qed.

(** X12: Finalization succeeds exactly when the caller is a DPO or an
    organization administrator and the assessment is found in DRAFT or
    IN_REVIEW; how many controls have been answered plays no part.  The
    row replied and stored is FINALIZED and carries the figures that the
    scoring service computes from the responses of the assessment, with
    the caller and the time of the request; responses and tasks are left
    as they were.  An unauthorized caller gets 403 before any lookup. *)
Theorem finalizeAssessment_result (req : Req.t) (assessmentId : Id)
  (db : Store.t) :
  let orgId := JwtPayload.orgId (Req.user req) in
  let result := finalizeAssessment req assessmentId db in
  let scores := Scoring.calculateScores (controlScoresOf db assessmentId) in
  (isSuccess (fst result) = true
   <-> mayFinalize req
       /\ exists a, findAssessment db assessmentId orgId = Some a
                    /\ editable a)
  /\ (forall a',
        fst result = Json 200 a' ->
        Assessment.status a' = FINALIZED
        /\ Assessment.overallScore a' = Some (ScoreResult.overallScore scores)
        /\ Assessment.totalControlsAssessed a'
           = Some (ScoreResult.totalControlsAssessed scores)
        /\ (Assessment.criticalGaps a', Assessment.highGaps a',
            Assessment.mediumGaps a', Assessment.lowGaps a')
           = (Some (ScoreResult.criticalGaps scores),
              Some (ScoreResult.highGaps scores),
              Some (ScoreResult.mediumGaps scores),
              Some (ScoreResult.lowGaps scores))
        /\ Assessment.domainScores a' = Some (ScoreResult.domainScores scores)
        /\ Assessment.finalizedBy a' = Some (JwtPayload.userId (Req.user req))
        /\ Assessment.finalizedAt a' = Some (Req.now req)
        /\ findAssessment (snd result) assessmentId orgId = Some a'
        /\ Store.responses (snd result) = Store.responses db
        /\ Store.remediationTasks (snd result) = Store.remediationTasks db)
  /\ (~ mayFinalize req -> result = (Error 403 FORBIDDEN, db))
  /\ (mayFinalize req -> findAssessment db assessmentId orgId = None ->
      result = (Error 404 NOT_FOUND, db)).
Proof.
  intros orgId result scores. subst orgId scores.
  assert (Hroles : [ROLES.DPO; ROLES.ORG_ADMIN] <> []) by discriminate.
  split; [| split; [| split]].
  - split.
    + intros Hok. destruct result as [r db'] eqn:Hres. cbn in Hok.
      destruct r as [st a' | st code]; [| discriminate].
      assert (st = 200) as ->.
      { unfold result, finalizeAssessment in Hres.
        revert Hres. LifecycleFacts.through_handler; congruence. }
      destruct (finalizeAssessment_success _ _ _ _ _ Hres)
        as (a & Ha & Hed & Hmay & _).
      split; [exact Hmay | exists a; split; assumption].
    + intros (Hmay & a & Ha & Hed). subst result. unfold finalizeAssessment.
      apply (authorize_iff _ _ Hroles) in Hmay. rewrite Hmay, Ha.
      apply editable_iff in Hed. rewrite Hed. reflexivity.
  - intros a' Hfst. destruct result as [r db'] eqn:Hres. cbn in Hfst.
    subst r.
    destruct (finalizeAssessment_success _ _ _ _ _ Hres)
      as (a & Ha & Hed & Hmay & -> & Hfind & Hresp & Htasks).
    cbn. repeat split; assumption.
  - intros Hno. subst result. unfold finalizeAssessment.
    destruct (authorize [ROLES.DPO; ROLES.ORG_ADMIN] req) eqn:Hauth;
      [| reflexivity].
    apply (authorize_iff _ _ Hroles) in Hauth. contradiction.
  - intros Hmay Hnone. subst result. unfold finalizeAssessment.
    apply (authorize_iff _ _ Hroles) in Hmay. rewrite Hmay, Hnone.
    reflexivity.
Qed.




(** X14: A submission for review succeeds exactly when the assessment is
    found in DRAFT, whatever the role of the caller; the row then stored
    and replied is the same row in IN_REVIEW, and nothing else is
    written.  An assessment that is not found is answered with 400
    INVALID_STATUS as well. *)
Theorem submitForReview_result (req : Req.t) (assessmentId : Id)
  (db : Store.t) :
  let orgId := JwtPayload.orgId (Req.user req) in
  let result := submitForReview req assessmentId db in
  (forall a,
     findAssessment db assessmentId orgId = Some a ->
     Assessment.status a = DRAFT ->
     fst result = Json 200 (Assessment.withStatus IN_REVIEW a)
     /\ findAssessment (snd result) assessmentId orgId
        = Some (Assessment.withStatus IN_REVIEW a)
     /\ Store.responses (snd result) = Store.responses db
     /\ Store.remediationTasks (snd result) = Store.remediationTasks db
     /\ Store.nextId (snd result) = Store.nextId db)
  /\ (~ (exists a, findAssessment db assessmentId orgId = Some a
                   /\ Assessment.status a = DRAFT) ->
      result = (Error 400 INVALID_STATUS, db)).
Proof.
  intros orgId result. subst orgId result. split.
  - intros a Ha Hst. unfold submitForReview. rewrite Ha, Hst.
    cbn [AssessmentStatus_eqb negb fst snd].
    split; [reflexivity |]. split; [| repeat split].
    etransitivity.
    { apply (findAssessment_update db _ _ _ _ a);
        [apply LifecycleFacts.withStatus_keepsKey | exact Ha]. }
    now rewrite Nat.eqb_refl.
  - intros Hno. unfold submitForReview.
    destruct (findAssessment db assessmentId (JwtPayload.orgId (Req.user req)))
      as [a |] eqn:Ha; [| reflexivity].
    destruct (Assessment.status a) eqn:Hst; try reflexivity.
    exfalso. apply Hno. exists a. split; [reflexivity | assumption].
Qed.

Lemma gap_or_alert (controlId answer : string) :
  isGapAnswer answer = true -> alertFires controlId answer = false.
Proof.
  unfold isGapAnswer, alertFires. intros H.
  destruct (answer =? "YES")%string eqn:Hyes;
    [| now rewrite andb_false_r].
  apply String.eqb_eq in Hyes. subst answer. discriminate.
Qed.

(** X15: A successful response submission never changes or removes a
    task: the task table grows at its end by at most one row.  A row is
    added exactly when the answer is NO or PARTIAL and the pair
    (assessment, control) has no task yet, or when the answer is YES on
    a control whose id starts with PDPL-T.8; the added row is OPEN and
    belongs to the assessment, the control and the organization of the
    request.  The row added for PDPL-T.8 is a CRITICAL gap that is due
    at the time of the request and needs evidence to be closed,
    whatever the risk level of the control. *)
Theorem submitResponse_tasks (req : Req.t) (assessmentId : Id)
  (controlId : string) (body : ResponseBody.t) (db db' : Store.t)
  (r : Response.t)
  (Hok : submitResponse req assessmentId controlId body db
         = (Json 200 r, db')) :
  let answer := ResponseBody.answer body in
  let orgId := JwtPayload.orgId (Req.user req) in
  exists added,
    Store.remediationTasks db' = (Store.remediationTasks db ++ added)%list
    /\ (List.length added <= 1)%nat
    /\ (added <> []
        <-> (isGapAnswer answer = true
             /\ findTask db assessmentId controlId orgId = None)
            \/ alertFires controlId answer = true)
    /\ (forall t,
          In t added ->
          RemediationTask.status t = OPEN
          /\ RemediationTask.assessmentId t = assessmentId
          /\ RemediationTask.controlId t = controlId
          /\ RemediationTask.orgId t = orgId
          /\ RemediationTask.isDeleted t = false
          /\ (alertFires controlId answer = true ->
              RemediationTask.gapType t = "GAP"
              /\ RemediationTask.riskLevel t = "CRITICAL"
              /\ RemediationTask.deadline t = Req.now req
              /\ RemediationTask.evidenceRequiredForClosure t = true
              /\ RemediationTask.legalBasis t = "Transfer Reg. Art. 7")).
Proof.
  intros answer orgId.
  destruct (ResubmissionFacts.submitResponse_success _ _ _ _ _ _ _ Hok)
    as (control & idGap & idAlert & _ & _ & _ & _ & _ & Htasks).
  fold answer orgId in Htasks.
  destruct (isGapAnswer answer) eqn:Hgap.
  - rewrite (gap_or_alert controlId answer Hgap) in *.
    destruct (findTask db assessmentId controlId orgId) as [found |]
      eqn:Hfind.
    + exists []. split; [exact Htasks |]. split; [cbn; lia |].
      split; [| intros t []].
      split; [congruence |]. intros [[_ H] | H]; discriminate.
    + eexists. split; [exact Htasks |]. cbn [app List.length].
      split; [lia |]. split.
      * split; [intros _; left; split; reflexivity | discriminate].
      * intros t [<- | []]. cbn. repeat split; discriminate.
  - destruct (alertFires controlId answer) eqn:Halert.
    + eexists. split; [exact Htasks |]. cbn [app List.length].
      split; [lia |]. split.
      * split; [intros _; right; reflexivity | discriminate].
      * intros t [<- | []]. cbn. repeat split.
    + exists []. split; [exact Htasks |]. split; [cbn; lia |].
      split; [| intros t []].
      split; [congruence |]. intros [[H _] | H]; discriminate.
Qed.

Lemma submitResponse_tasks_witness :
  exists added,
    Store.remediationTasks
      (snd (submitResponse dpoReq 10%nat "PDPL-T.8" yesBody demoStore))
    = (Store.remediationTasks demoStore ++ added)%list
    /\ (List.length added <= 1)%nat.
Proof.
  destruct (submitResponse dpoReq 10%nat "PDPL-T.8" yesBody demoStore)
    as [r db'] eqn:Hsub.
  assert (Hok : exists r', r = Json 200 r').
  { revert Hsub. vm_compute. intros H. injection H as <- _. eexists.
    reflexivity. }
  destruct Hok as (r' & ->). cbn [snd].
  destruct (submitResponse_tasks dpoReq 10%nat "PDPL-T.8" yesBody demoStore
              db' r' Hsub) as (added & Htasks & Hlen & _).
  exists added. split; assumption.
Defined.

(** What an accepted response submission found and what it replies. *)
Lemma submitResponse_accepted (req : Req.t) (assessmentId : Id)
  (controlId : string) (body : ResponseBody.t) (db db' : Store.t)
  (r : Response.t) :
  submitResponse req assessmentId controlId body db = (Json 200 r, db') ->
  let answer := ResponseBody.answer body in
  let user := Req.user req in
  exists a control,
    findAssessment db assessmentId (JwtPayload.orgId user) = Some a
    /\ editable a
    /\ findControl db controlId = Some control
    /\ In answer ["YES"; "PARTIAL"; "NO"; "NA"]
    /\ r = match findResponse db assessmentId controlId with
           | Some existing =>
               Response.mk (Response.id existing)
                 (Response.assessmentId existing)
                 (Response.controlId existing) answer
                 (if (answer =? "NA")%string
                  then columnOf (ResponseBody.naJustification body)
                  else None)
                 (Scoring.getPointsForAnswer answer (Control.pointsYes control)
                    (Control.pointsPartial control))
                 (match ResponseBody.notes body with
                  | Undefined => Response.notes existing
                  | _ => columnOf (ResponseBody.notes body)
                  end)
                 (Response.answeredBy existing)
                 (Some (JwtPayload.userId user)) (Some (Req.now req))
           | None =>
               Response.mk (Store.nextId db) assessmentId controlId answer
                 (if (answer =? "NA")%string
                  then columnOf (ResponseBody.naJustification body)
                  else None)
                 (Scoring.getPointsForAnswer answer (Control.pointsYes control)
                    (Control.pointsPartial control))
                 (columnOf (ResponseBody.notes body))
                 (JwtPayload.userId user) None None
           end.
Proof.
  destruct body as [answer naJustification notes].
  unfold submitResponse.
  cbn [ResponseBody.answer ResponseBody.naJustification ResponseBody.notes].
  cbv zeta.
  destruct (JS.includes ["YES"; "PARTIAL"; "NO"; "NA"] answer) eqn:Hvalid;
    cbn [negb]; [| discriminate].
  destruct (findAssessment db assessmentId _) as [a |] eqn:Ha;
    [| discriminate].
  destruct (_ && _) eqn:Hed; [discriminate |].
  destruct (findControl db controlId) as [control |]; [| discriminate].
  destruct (if (answer =? "NA")%string && _ then _ else _) as [[|] |];
    try discriminate.
  destruct ((answer =? "NA")%string && justificationMissing naJustification);
    [discriminate |].
  intros H. apply (f_equal fst) in H.
  exists a, control.
  split; [reflexivity |]. split; [now apply editable_iff |].
  split; [reflexivity |]. split; [now apply includes_iff |].
  destruct (findResponse db assessmentId controlId) as [existing |];
    cbn in H; injection H as <-; reflexivity.
Qed.

(** X16: The response row of an accepted submission.  Its points are
    those the catalogue gives the answer on the control, never a figure
    of the request; the justification is stored only with the answer NA.
    When the pair (assessment, control) already has a row, that row
    keeps its key and its first author, records the caller and the time
    as last modification, and keeps its notes when the request carries
    none; otherwise the new row records the caller as author and no
    modification. *)
Theorem response_upsert (req : Req.t) (assessmentId : Id)
  (controlId : string) (body : ResponseBody.t) (db db' : Store.t)
  (r : Response.t)
  (Hok : submitResponse req assessmentId controlId body db
         = (Json 200 r, db')) :
  let answer := ResponseBody.answer body in
  let user := JwtPayload.userId (Req.user req) in
  Response.assessmentId r = assessmentId
  /\ Response.controlId r = controlId
  /\ Response.answer r = answer
  /\ (exists control,
        findControl db controlId = Some control
        /\ Response.pointsEarned r
           = Scoring.getPointsForAnswer answer (Control.pointsYes control)
               (Control.pointsPartial control))
  /\ (answer <> "NA" -> Response.naJustification r = None)
  /\ (forall existing,
        findResponse db assessmentId controlId = Some existing ->
        Response.id r = Response.id existing
        /\ Response.answeredBy r = Response.answeredBy existing
        /\ Response.lastModifiedBy r = Some user
        /\ Response.lastModifiedAt r = Some (Req.now req)
        /\ (ResponseBody.notes body = Undefined ->
            Response.notes r = Response.notes existing)
        /\ In r (Store.responses db')
        /\ List.length (Store.responses db')
           = List.length (Store.responses db))
  /\ (findResponse db assessmentId controlId = None ->
      Response.answeredBy r = user
      /\ Response.lastModifiedBy r = None
      /\ Response.lastModifiedAt r = None
      /\ Store.responses db' = (Store.responses db ++ [r])%list).
Proof.
  intros answer user.
  destruct (submitResponse_accepted _ _ _ _ _ _ _ Hok)
    as (a & control & _ & _ & Hc & _ & Hr).
  destruct (ResubmissionFacts.submitResponse_success _ _ _ _ _ _ _ Hok)
    as (_ & _ & _ & _ & Hpair & Hrows & _).
  fold answer in Hr. unfold pairOf in Hpair. injection Hpair as Hp1 Hp2.
  split; [exact Hp1 |]. split; [exact Hp2 |].
  destruct (findResponse db assessmentId controlId) as [existing |] eqn:Hex.
  - destruct (ResubmissionFacts.findResponse_Some _ _ _ _ Hex)
      as (Hin & _ & _).
    split; [rewrite Hr; reflexivity |].
    split; [exists control; split; [exact Hc | rewrite Hr; reflexivity] |].
    split.
    { intros Hna. rewrite Hr. cbn.
      apply String.eqb_neq in Hna. now rewrite Hna. }
    split; [| discriminate].
    intros e He. injection He as <-.
    split; [rewrite Hr; reflexivity |].
    split; [rewrite Hr; reflexivity |].
    split; [rewrite Hr; reflexivity |].
    split; [rewrite Hr; reflexivity |].
    split; [intros Hn; rewrite Hr; cbn; now rewrite Hn |].
    rewrite Hrows. split; [| apply length_map].
    apply in_map_iff. exists existing.
    split; [now rewrite Nat.eqb_refl | exact Hin].
  - split; [rewrite Hr; reflexivity |].
    split; [exists control; split; [exact Hc | rewrite Hr; reflexivity] |].
    split.
    { intros Hna. rewrite Hr. cbn.
      apply String.eqb_neq in Hna. now rewrite Hna. }
    split; [discriminate |].
    intros _. rewrite Hr at 1 2 3. cbn. repeat split. exact Hrows.
Qed.

Lemma response_upsert_witness :
  exists r,
    fst (submitResponse dpoReq 10%nat "PDPL-S.9"
           (ResponseBody.mk "PARTIAL" (Text "ignored") Undefined) demoStore)
    = Json 200 r
    /\ Response.naJustification r = None
    /\ Response.answer r = "PARTIAL".
Proof.
  destruct (submitResponse dpoReq 10%nat "PDPL-S.9"
              (ResponseBody.mk "PARTIAL" (Text "ignored") Undefined) demoStore)
    as [reply db'] eqn:Hsub.
  assert (Hok : exists r, reply = Json 200 r).
  { revert Hsub. vm_compute. intros H. injection H as <- _. eexists.
    reflexivity. }
  destruct Hok as (r & ->). exists r. cbn [fst].
  destruct (response_upsert dpoReq 10%nat "PDPL-S.9" _ demoStore db' r Hsub)
    as (_ & _ & Hanswer & _ & Hjust & _).
  split; [reflexivity |]. split; [apply Hjust; discriminate | exact Hanswer].
Defined.

End HandlerFacts.

(* ===================================================================== *)
(** ** routes/remediation: the guards behind the transition table *)
(* ===================================================================== *)

Module RemediationMoreFacts.
Import Remediation RemediationSpec SystemSpec Samples.

(** What an accepted status change found and what it writes. *)
Lemma changeTaskStatus_success (req : Req.t) (taskId : Id)
  (body : StatusBody.t) (db db' : Store.t) (t' : RemediationTask.t) :
  changeTaskStatus req taskId body db = (Json 200 t', db') ->
  let status := StatusBody.status body in
  let notes := StatusBody.notes body in
  exists task newStatus,
    findTask db taskId (JwtPayload.orgId (Req.user req)) = Some task
    /\ JS.includes (validTransitions (RemediationTask.status task)) status
       = true
    /\ guard req task body db = None
    /\ TaskStatus_ofString status = Some newStatus
    /\ RemediationTask.id t' = RemediationTask.id task
    /\ RemediationTask.status t' = newStatus
    /\ RemediationTask.notes t'
       = (if BodyField_truthy notes then columnOfNotes notes
          else RemediationTask.notes task)
    /\ RemediationTask.closedAt t'
       = (if (status =? "CLOSED")%string then Some (Req.now req)
          else RemediationTask.closedAt task)
    /\ (exists data,
          Store.remediationTasks db'
          = map (fun t => if Nat.eqb (RemediationTask.id t)
                                     (RemediationTask.id task)
                          then data t else t)
                (Store.remediationTasks db)
          /\ t' = data task
          /\ forall t, RemediationTask.id (data t) = RemediationTask.id t
                       /\ RemediationTask.orgId (data t)
                          = RemediationTask.orgId t)
    /\ Store.nextId db' = Store.nextId db
    /\ Store.assessments db' = Store.assessments db
    /\ Store.responses db' = Store.responses db
    /\ In t' (Store.remediationTasks db').
Proof.
  unfold changeTaskStatus. intros H.
  destruct (findTask db taskId _) as [task |] eqn:Hfind; [| discriminate].
  destruct (JS.includes _ _) eqn:Hinc; cbn [negb] in H; [| discriminate].
  destruct (guard req task body db) as [[code err] |] eqn:Hguard;
    [discriminate |].
  destruct (TaskStatus_ofString _) as [newStatus |] eqn:Hnew;
    [| discriminate].
  injection H as <- <-.
  exists task, newStatus.
  do 4 (split; [first [reflexivity | assumption] |]). cbn.
  split; [reflexivity |]. split; [reflexivity |]. split; [reflexivity |].
  split; [reflexivity |].
  split; [| repeat split].
  - eexists. split; [reflexivity |]. split; [reflexivity |].
    intros t. split; reflexivity.
  - apply find_some in Hfind. destruct Hfind as (Hin & _).
    apply in_map_iff. exists task.
    split; [now rewrite Nat.eqb_refl | exact Hin].
Qed.

Lemma changeTaskStatus_accepted (req : Req.t) (taskId : Id)
  (body : StatusBody.t) (db : Store.t) :
  isSuccess (fst (changeTaskStatus req taskId body db)) = true ->
  exists t' db', changeTaskStatus req taskId body db = (Json 200 t', db').
Proof.
  intros Hok.
  destruct (changeTaskStatus req taskId body db) as [reply db'] eqn:Hres.
  destruct reply as [st t' | st code]; [| discriminate].
  exists t', db'.
  destruct (HandlerFacts.success_status db) as (_ & _ & _ & _ & H200).
  now rewrite (H200 _ _ _ _ _ _ Hres).
Qed.

Lemma closure_reply (req : Req.t) (taskId : Id) (body : StatusBody.t)
  (db : Store.t) (task : RemediationTask.t) :
  findTask db taskId (JwtPayload.orgId (Req.user req)) = Some task ->
  RemediationTask.status task = UNDER_REVIEW ->
  StatusBody.status body = "CLOSED" ->
  let result := changeTaskStatus req taskId body db in
  if negb (JS.includes [ROLES.DPO; ROLES.ORG_ADMIN; ROLES.COMPLIANCE_OFFICER]
             (JwtPayload.role (Req.user req)))
  then result = (Error 403 FORBIDDEN, db)
  else if RemediationTask.evidenceRequiredForClosure task
          && match findEvidence db (RemediationTask.id task)
                     (JwtPayload.orgId (Req.user req)) with
             | Some _ => false
             | None => true
             end
       then result = (Error 400 EVIDENCE_REQUIRED, db)
       else isSuccess (fst result) = true.
Proof.
  intros Hfound Hreview Hclosed result. subst result.
  unfold changeTaskStatus, guard.
  rewrite Hfound, Hreview, Hclosed. cbn -[JS.includes findEvidence].
  destruct (JS.includes [ROLES.DPO; ROLES.ORG_ADMIN; ROLES.COMPLIANCE_OFFICER]
              (JwtPayload.role (Req.user req))); cbn [negb];
    [| reflexivity].
  destruct (RemediationTask.evidenceRequiredForClosure task
            && match findEvidence db (RemediationTask.id task)
                       (JwtPayload.orgId (Req.user req)) with
               | Some _ => false
               | None => true
               end); reflexivity.
Qed.

(** X17: Closing a task.  A task under review is closed only by a DPO,
    an organization administrator or a compliance officer (403
    otherwise), and, when the task needs evidence for closure, only if
    the organization holds an evidence file for it that is not deleted
    (400 EVIDENCE_REQUIRED otherwise); notes play no part.  The closed
    row is stored with the time of the request as its closing time. *)
Theorem closure_gate (req : Req.t) (taskId : Id) (body : StatusBody.t)
  (db : Store.t) (task : RemediationTask.t)
  (Hfound : findTask db taskId (JwtPayload.orgId (Req.user req)) = Some task)
  (Hreview : RemediationTask.status task = UNDER_REVIEW)
  (Hclosed : StatusBody.status body = "CLOSED") :
  let result := changeTaskStatus req taskId body db in
  let mayClose :=
    In (JwtPayload.role (Req.user req))
       [ROLES.DPO; ROLES.ORG_ADMIN; ROLES.COMPLIANCE_OFFICER] in
  let evidenceMissing :=
    RemediationTask.evidenceRequiredForClosure task = true
    /\ findEvidence db (RemediationTask.id task)
         (JwtPayload.orgId (Req.user req)) = None in
  (~ mayClose -> result = (Error 403 FORBIDDEN, db))
  /\ (mayClose -> evidenceMissing ->
      result = (Error 400 EVIDENCE_REQUIRED, db))
  /\ (mayClose -> ~ evidenceMissing ->
      exists t',
        fst result = Json 200 t'
        /\ RemediationTask.id t' = RemediationTask.id task
        /\ RemediationTask.status t' = CLOSED
        /\ RemediationTask.closedAt t' = Some (Req.now req)
        /\ In t' (Store.remediationTasks (snd result))).
Proof.
  intros result mayClose evidenceMissing.
  pose proof (closure_reply req taskId body db task Hfound Hreview Hclosed)
    as Hreply.
  cbv zeta in Hreply. fold result in Hreply.
  subst mayClose evidenceMissing. rewrite <- HandlerFacts.includes_iff.
  destruct (JS.includes [ROLES.DPO; ROLES.ORG_ADMIN; ROLES.COMPLIANCE_OFFICER]
              (JwtPayload.role (Req.user req))); cbn [negb] in Hreply.
  2: { split; [intros _; exact Hreply |]. split; intros H; discriminate. }
  split; [intros H; now contradiction H |].
  destruct (RemediationTask.evidenceRequiredForClosure task) eqn:Hev;
    destruct (findEvidence db (RemediationTask.id task)
                (JwtPayload.orgId (Req.user req))) as [e |] eqn:Hfile;
    cbn [andb] in Hreply.
  2: { split; [intros _ _; exact Hreply |].
       intros _ H. exfalso. apply H. now split. }
  all: split; [intros _ (H1 & H2); discriminate |]; intros _ _.
  all: destruct (changeTaskStatus_accepted _ _ _ _ Hreply)
         as (t' & db' & Hres);
    destruct (changeTaskStatus_success _ _ _ _ _ _ Hres)
      as (task0 & newStatus & Hf & _ & _ & Hnew & Hid & Hst & _ & Hat & _
          & _ & _ & _ & Hin);
    rewrite Hfound in Hf; injection Hf as <-;
    rewrite Hclosed in Hnew, Hat; injection Hnew as <-;
    subst result; rewrite Hres; exists t'; repeat split; assumption.
Qed.

Lemma closure_gate_witness :
  exists t',
    fst (changeTaskStatus officerReq 22%nat
           (StatusBody.mk "CLOSED" Undefined Undefined) reviewStore)
    = Json 200 t'
    /\ RemediationTask.status t' = CLOSED
    /\ RemediationTask.closedAt t' = Some 6000.
Proof.
  destruct (closure_gate officerReq 22%nat
              (StatusBody.mk "CLOSED" Undefined Undefined) reviewStore
              reviewTask eq_refl eq_refl eq_refl) as (_ & _ & Hok).
  destruct Hok as (t' & Hfst & _ & Hstatus & Hat & _).
  - right. right. left. reflexivity.
  - intros (_ & H). discriminate H.
  - exists t'. repeat split; assumption.
Defined.

Lemma deferral_reply (req : Req.t) (taskId : Id) (body : StatusBody.t)
  (db : Store.t) (task : RemediationTask.t) :
  findTask db taskId (JwtPayload.orgId (Req.user req)) = Some task ->
  In (RemediationTask.status task) [OPEN; IN_PROGRESS; UNDER_REVIEW] ->
  StatusBody.status body = "DEFERRED" ->
  let result := changeTaskStatus req taskId body db in
  if negb (JwtPayload.role (Req.user req) =? ROLES.DPO)%string
     && negb (JwtPayload.role (Req.user req) =? ROLES.ORG_ADMIN)%string
  then result = (Error 403 FORBIDDEN, db)
  else if negb (BodyField_truthy (StatusBody.notes body))
       then result = (Error 400 JUSTIFICATION_REQUIRED, db)
       else isSuccess (fst result) = true.
Proof.
  intros Hfound Hfrom Hdeferred result. subst result.
  unfold changeTaskStatus, guard.
  rewrite Hfound, Hdeferred.
  assert (Hinc : JS.includes (validTransitions (RemediationTask.status task))
                   "DEFERRED" = true).
  { destruct Hfrom as [<- | [<- | [<- | []]]]; reflexivity. }
  rewrite Hinc. cbn [negb].
  replace (("DEFERRED" =? "UNDER_REVIEW")%string) with false by reflexivity.
  replace (("DEFERRED" =? "CLOSED")%string) with false by reflexivity.
  replace (("DEFERRED" =? "IN_PROGRESS")%string) with false by reflexivity.
  replace (("DEFERRED" =? "DEFERRED")%string) with true by reflexivity.
  rewrite !andb_false_r. cbn [andb].
  destruct (negb (JwtPayload.role (Req.user req) =? ROLES.DPO)%string
            && negb (JwtPayload.role (Req.user req) =? ROLES.ORG_ADMIN)%string);
    [reflexivity |].
  destruct (BodyField_truthy (StatusBody.notes body)); reflexivity.
Qed.

(** X18: Deferring a task.  A task that the table lets be deferred
    (OPEN, IN_PROGRESS or UNDER_REVIEW) is deferred only by a DPO or an
    organization administrator (403 otherwise; a compliance officer,
    who may close, may not defer) and only with notes in the request
    (400 JUSTIFICATION_REQUIRED otherwise; notes already on the task do
    not count).  The deferred row is stored with the notes of the
    request. *)
Theorem deferral_gate (req : Req.t) (taskId : Id) (body : StatusBody.t)
  (db : Store.t) (task : RemediationTask.t)
  (Hfound : findTask db taskId (JwtPayload.orgId (Req.user req)) = Some task)
  (Hfrom : In (RemediationTask.status task) [OPEN; IN_PROGRESS; UNDER_REVIEW])
  (Hdeferred : StatusBody.status body = "DEFERRED") :
  let result := changeTaskStatus req taskId body db in
  let mayDefer :=
    In (JwtPayload.role (Req.user req)) [ROLES.DPO; ROLES.ORG_ADMIN] in
  (~ mayDefer -> result = (Error 403 FORBIDDEN, db))
  /\ (mayDefer -> BodyField_truthy (StatusBody.notes body) = false ->
      result = (Error 400 JUSTIFICATION_REQUIRED, db))
  /\ (mayDefer ->
      forall justification,
        StatusBody.notes body = Text justification ->
        justification <> EmptyString ->
        exists t',
          fst result = Json 200 t'
          /\ RemediationTask.id t' = RemediationTask.id task
          /\ RemediationTask.status t' = DEFERRED
          /\ RemediationTask.notes t' = Some justification
          /\ RemediationTask.closedAt t' = RemediationTask.closedAt task
          /\ In t' (Store.remediationTasks (snd result))).
Proof.
  intros result mayDefer.
  pose proof (deferral_reply req taskId body db task Hfound Hfrom Hdeferred)
    as Hreply.
  cbv zeta in Hreply. fold result in Hreply. subst mayDefer.
  assert (Hroles :
            In (JwtPayload.role (Req.user req)) [ROLES.DPO; ROLES.ORG_ADMIN]
            <-> negb (JwtPayload.role (Req.user req) =? ROLES.DPO)%string
                && negb (JwtPayload.role (Req.user req) =? ROLES.ORG_ADMIN)%string
                = false).
  { cbn [In].
    destruct (String.eqb_spec (JwtPayload.role (Req.user req)) ROLES.DPO);
      destruct (String.eqb_spec (JwtPayload.role (Req.user req))
                  ROLES.ORG_ADMIN); cbn; intuition congruence. }
  destruct (negb (JwtPayload.role (Req.user req) =? ROLES.DPO)%string
            && negb (JwtPayload.role (Req.user req) =? ROLES.ORG_ADMIN)%string).
  { split; [intros _; exact Hreply |].
    split; intros H; apply Hroles in H; discriminate. }
  split; [intros H; exfalso; apply H; now apply Hroles |].
  split.
  - intros _ Hnotes. rewrite Hnotes in Hreply. exact Hreply.
  - intros _ justification Hnotes Hne.
    assert (Ht : BodyField_truthy (StatusBody.notes body) = true).
    { rewrite Hnotes. cbn. unfold JS.truthy. apply negb_true_iff.
      now apply String.eqb_neq. }
    rewrite Ht in Hreply. cbn [negb] in Hreply.
    destruct (changeTaskStatus_accepted _ _ _ _ Hreply) as (t' & db' & Hres).
    destruct (changeTaskStatus_success _ _ _ _ _ _ Hres)
      as (task0 & newStatus & Hf & _ & _ & Hnew & Hid & Hst & Hn & Hat & _
          & _ & _ & _ & Hin).
    rewrite Hfound in Hf. injection Hf as <-.
    rewrite Hdeferred in Hnew, Hat. injection Hnew as <-.
    rewrite Ht, Hnotes in Hn.
    subst result. rewrite Hres. exists t'. repeat split; assumption.
Qed.

Lemma deferral_gate_witness :
  changeTaskStatus officerReq 22%nat
    (StatusBody.mk "DEFERRED" (Text "Waiting for the vendor") Undefined)
    reviewStore
  = (Error 403 FORBIDDEN, reviewStore).
Proof.
  refine (proj1 (deferral_gate officerReq 22%nat
                   (StatusBody.mk "DEFERRED" (Text "Waiting for the vendor")
                      Undefined)
                   reviewStore reviewTask eq_refl
                   (or_intror (or_intror (or_introl eq_refl))) eq_refl) _).
  intros [H | [H | []]]; discriminate H.
Defined.

Lemma review_reply (req : Req.t) (taskId : Id) (body : StatusBody.t)
  (db : Store.t) (task : RemediationTask.t) :
  findTask db taskId (JwtPayload.orgId (Req.user req)) = Some task ->
  let result := changeTaskStatus req taskId body db in
  (RemediationTask.status task = IN_PROGRESS ->
   StatusBody.status body = "UNDER_REVIEW" ->
   if negb (BodyField_truthy (StatusBody.notes body))
      && negb (JS.truthy_opt (RemediationTask.notes task))
   then result = (Error 400 NOTES_REQUIRED, db)
   else isSuccess (fst result) = true)
  /\ (RemediationTask.status task = UNDER_REVIEW ->
      StatusBody.status body = "IN_PROGRESS" ->
      if negb (BodyField_truthy (StatusBody.rejectionNote body))
      then result = (Error 400 REJECTION_NOTE_REQUIRED, db)
      else isSuccess (fst result) = true).
Proof.
  intros Hfound result. subst result.
  unfold changeTaskStatus, guard. rewrite Hfound.
  split; intros Hfrom Hto; rewrite Hfrom, Hto; cbn.
  - destruct (negb (BodyField_truthy (StatusBody.notes body))
              && negb (JS.truthy_opt (RemediationTask.notes task)));
      reflexivity.
  - destruct (negb (BodyField_truthy (StatusBody.rejectionNote body)));
      reflexivity.
Qed.

(** X19: The notes behind a review.  A task in progress is submitted
    for review by any role, but only if the request carries notes or the
    task already has some (400 NOTES_REQUIRED otherwise); the stored
    notes are those of the request when it has any, else the ones the
    task had.  A task under review is sent back to IN_PROGRESS only with
    a rejection note (400 REJECTION_NOTE_REQUIRED otherwise). *)
Theorem review_gates (req : Req.t) (taskId : Id) (body : StatusBody.t)
  (db : Store.t) (task : RemediationTask.t)
  (Hfound : findTask db taskId (JwtPayload.orgId (Req.user req)) = Some task) :
  let result := changeTaskStatus req taskId body db in
  let notes := StatusBody.notes body in
  (RemediationTask.status task = IN_PROGRESS ->
   StatusBody.status body = "UNDER_REVIEW" ->
   (BodyField_truthy notes = false ->
    JS.truthy_opt (RemediationTask.notes task) = false ->
    result = (Error 400 NOTES_REQUIRED, db))
   /\ (BodyField_truthy notes = true
       \/ JS.truthy_opt (RemediationTask.notes task) = true ->
       exists t',
         fst result = Json 200 t'
         /\ RemediationTask.status t' = UNDER_REVIEW
         /\ RemediationTask.notes t'
            = (if BodyField_truthy notes then columnOfNotes notes
               else RemediationTask.notes task)
         /\ In t' (Store.remediationTasks (snd result))))
  /\ (RemediationTask.status task = UNDER_REVIEW ->
      StatusBody.status body = "IN_PROGRESS" ->
      (BodyField_truthy (StatusBody.rejectionNote body) = false ->
       result = (Error 400 REJECTION_NOTE_REQUIRED, db))
      /\ (BodyField_truthy (StatusBody.rejectionNote body) = true ->
          exists t',
            fst result = Json 200 t'
            /\ RemediationTask.status t' = IN_PROGRESS
            /\ RemediationTask.notes t'
               = (if BodyField_truthy notes then columnOfNotes notes
                  else RemediationTask.notes task)
            /\ In t' (Store.remediationTasks (snd result)))).
Proof.
  intros result notes.
  destruct (review_reply req taskId body db task Hfound) as (Hsubmit & Hreject).
  fold result notes in Hsubmit, Hreject.
  assert (Hrow : isSuccess (fst result) = true ->
                 forall s, TaskStatus_ofString (StatusBody.status body)
                           = Some s ->
                 exists t',
                   fst result = Json 200 t'
                   /\ RemediationTask.status t' = s
                   /\ RemediationTask.notes t'
                      = (if BodyField_truthy notes then columnOfNotes notes
                         else RemediationTask.notes task)
                   /\ In t' (Store.remediationTasks (snd result))).
  { intros Hok s Hs.
    destruct (changeTaskStatus_accepted _ _ _ _ Hok) as (t' & db' & Hres).
    destruct (changeTaskStatus_success _ _ _ _ _ _ Hres)
      as (task0 & newStatus & Hf & _ & _ & Hnew & _ & Hst & Hn & _ & _
          & _ & _ & _ & Hin).
    rewrite Hfound in Hf. injection Hf as <-.
    rewrite Hs in Hnew. injection Hnew as <-.
    subst result. rewrite Hres. exists t'. repeat split; assumption. }
  split; intros Hfrom Hto.
  - specialize (Hsubmit Hfrom Hto). split.
    + intros H1 H2. now rewrite H1, H2 in Hsubmit.
    + intros H.
      assert (Hg : negb (BodyField_truthy notes)
                   && negb (JS.truthy_opt (RemediationTask.notes task))
                   = false).
      { destruct H as [-> | ->]; [reflexivity | apply andb_false_r]. }
      rewrite Hg in Hsubmit. apply (Hrow Hsubmit). now rewrite Hto.
  - specialize (Hreject Hfrom Hto). split.
    + intros H. now rewrite H in Hreject.
    + intros H. rewrite H in Hreject. apply (Hrow Hreject). now rewrite Hto.
Qed.

Lemma review_gates_witness :
  changeTaskStatus dpoReq 23%nat
    (StatusBody.mk "UNDER_REVIEW" Undefined Undefined) reviewStore
  = (Error 400 NOTES_REQUIRED, reviewStore)
  /\ changeTaskStatus dpoReq 22%nat
       (StatusBody.mk "IN_PROGRESS" (Text "Redo") Undefined) reviewStore
     = (Error 400 REJECTION_NOTE_REQUIRED, reviewStore).
Proof.
  split.
  - exact (proj1 (proj1 (review_gates dpoReq 23%nat
                           (StatusBody.mk "UNDER_REVIEW" Undefined Undefined)
                           reviewStore startedTask eq_refl)
                    eq_refl eq_refl) eq_refl eq_refl).
  - exact (proj1 (proj2 (review_gates dpoReq 22%nat
                           (StatusBody.mk "IN_PROGRESS" (Text "Redo")
                              Undefined)
                           reviewStore reviewTask eq_refl)
                    eq_refl eq_refl) eq_refl).
Defined.

(** X20: The rejection note is required but never stored: the reply,
    the task table and the audit log of a status change depend on the
    rejection note only through its presence, not through its text. *)
Theorem rejection_note_is_not_stored (req : Req.t) (taskId : Id)
  (status : string) (notes note1 note2 : BodyField) (db : Store.t)
  (Hpresent : BodyField_truthy note1 = BodyField_truthy note2) :
  changeTaskStatus req taskId (StatusBody.mk status notes note1) db
  = changeTaskStatus req taskId (StatusBody.mk status notes note2) db.
Proof.
  unfold changeTaskStatus, guard.
  cbn [StatusBody.status StatusBody.notes StatusBody.rejectionNote].
  rewrite Hpresent. reflexivity.
Qed.

Lemma rejection_note_is_not_stored_witness :
  changeTaskStatus dpoReq 22%nat
    (StatusBody.mk "IN_PROGRESS" Undefined (Text "Evidence is unsigned"))
    reviewStore
  = changeTaskStatus dpoReq 22%nat
      (StatusBody.mk "IN_PROGRESS" Undefined (Text "x")) reviewStore.
Proof.
  exact (rejection_note_is_not_stored dpoReq 22%nat "IN_PROGRESS" Undefined
           (Text "Evidence is unsigned") (Text "x") reviewStore eq_refl).
Defined.

End RemediationMoreFacts.

(* ===================================================================== *)
(** ** The handlers as a system: what sequences of requests preserve *)
(* ===================================================================== *)

Module SystemFacts.
Import Assessments AssessmentSpec Lifecycle LifecycleAux SystemSpec Samples.

Ltac framed :=
  LifecycleFacts.through_handler; unfold sameCatalogue; cbn;
  (repeat split; try lia;
   first [eexists; reflexivity | exists []; symmetry; apply app_nil_r]).

Lemma step_frame (db db' : Store.t) :
  step db db' ->
  sameCatalogue db db'
  /\ (Store.nextId db <= Store.nextId db')%nat
  /\ exists l, Store.auditLogs db' = (Store.auditLogs db ++ l)%list.
Proof.
  intros [req | req assessmentId controlId body | req assessmentId
         | req assessmentId | req taskId body].
  - unfold createAssessment. framed.
  - unfold submitResponse. framed.
  - unfold finalizeAssessment. framed.
  - unfold submitForReview. framed.
  - unfold Remediation.changeTaskStatus. framed.
Qed.





















(** The handlers that do not write the response table. *)
Lemma responses_frame (db : Store.t) :
  (forall req,
     Store.responses (snd (createAssessment req db)) = Store.responses db)
  /\ (forall req assessmentId,
        Store.responses (snd (finalizeAssessment req assessmentId db))
        = Store.responses db)
  /\ (forall req assessmentId,
        Store.responses (snd (submitForReview req assessmentId db))
        = Store.responses db)
  /\ (forall req taskId body,
        Store.responses (snd (Remediation.changeTaskStatus req taskId body db))
        = Store.responses db).
Proof.
  repeat split; intros req.
  - unfold createAssessment. LifecycleFacts.through_handler; reflexivity.
  - intros assessmentId. unfold finalizeAssessment.
    LifecycleFacts.through_handler; reflexivity.
  - intros assessmentId. unfold submitForReview.
    LifecycleFacts.through_handler; reflexivity.
  - intros taskId body. unfold Remediation.changeTaskStatus.
    LifecycleFacts.through_handler; reflexivity.
Qed.

(** A step is a response submission that was accepted, or it leaves the
    response table alone. *)
Lemma step_cases (db db' : Store.t) :
  step db db' ->
  Store.responses db' = Store.responses db
  \/ exists req assessmentId controlId body r,
       submitResponse req assessmentId controlId body db = (Json 200 r, db').
Proof.
  destruct (responses_frame db) as (Hc & Hf & Hr & Ht).
  intros [req | req assessmentId controlId body | req assessmentId
         | req assessmentId | req taskId body]; auto.
  destruct (submitResponse req assessmentId controlId body db)
    as [reply db1] eqn:Hsub.
  destruct reply as [st r | st code].
  - right. exists req, assessmentId, controlId, body, r.
    destruct (HandlerFacts.success_status db) as (_ & H200 & _).
    rewrite (H200 _ _ _ _ _ _ _ Hsub) in Hsub. exact Hsub.
  - left. pose proof (HandlerFacts.submitResponse_failure req assessmentId
                        controlId body db) as Hfail.
    rewrite Hsub in Hfail. cbn in Hfail. now rewrite Hfail.
Qed.







Lemma findControl_frame (db db' : Store.t) (controlId : string) :
  Store.controls db' = Store.controls db ->
  findControl db' controlId = findControl db controlId.
Proof. unfold findControl. now intros ->. Qed.



Lemma submitResponse_rows (req : Req.t) (assessmentId : Id)
  (controlId : string) (body : ResponseBody.t) (db db' : Store.t)
  (r : Response.t) :
  submitResponse req assessmentId controlId body db = (Json 200 r, db') ->
  forall x, In x (Store.responses db') -> x = r \/ In x (Store.responses db).
Proof.
  intros Hsub x Hx.
  destruct (ResubmissionFacts.submitResponse_success _ _ _ _ _ _ _ Hsub)
    as (_ & _ & _ & _ & _ & Hrows & _).
  rewrite Hrows in Hx.
  destruct (findResponse db assessmentId controlId) as [existing |].
  - apply in_map_iff in Hx. destruct Hx as (y & Hy & Hin).
    destruct (Nat.eqb (Response.id y) (Response.id existing));
      [left; congruence | right; congruence].
  - apply in_app_or in Hx. destruct Hx as [Hx | [<- | []]]; auto.
Qed.

Lemma step_derived (db db' : Store.t) : derived db -> step db db' -> derived db'.
Proof.
  intros Hd Hstep.
  destruct (step_frame _ _ Hstep) as ((_ & Hc & _) & _).
  assert (Hold : forall x, In x (Store.responses db) ->
                 exists c,
                   findControl db' (Response.controlId x) = Some c
                   /\ Response.pointsEarned x
                      = Scoring.getPointsForAnswer (Response.answer x)
                          (Control.pointsYes c) (Control.pointsPartial c)).
  { intros x Hx. rewrite (findControl_frame db db' _ Hc). now apply Hd. }
  destruct (step_cases _ _ Hstep)
    as [Hsame | (req & assessmentId & controlId & body & r & Hsub)].
  - intros x Hx. rewrite Hsame in Hx. now apply Hold.
  - intros x Hx.
    destruct (submitResponse_rows _ _ _ _ _ _ _ Hsub x Hx) as [-> | Hin];
      [| now apply Hold].
    destruct (HandlerFacts.submitResponse_accepted _ _ _ _ _ _ _ Hsub)
      as (a & control & _ & _ & Hcontrol & _ & Hr).
    destruct (ResubmissionFacts.submitResponse_success _ _ _ _ _ _ _ Hsub)
      as (_ & _ & _ & _ & Hpair & _).
    unfold pairOf in Hpair. injection Hpair as _ Hp2.
    exists control. rewrite (findControl_frame db db' _ Hc), Hp2.
    split; [exact Hcontrol |].
    rewrite Hr.
    destruct (findResponse db assessmentId controlId); reflexivity.
Qed.

Lemma points_in_range (answer : string) (pointsYes pointsPartial : Q) :
  (0 <= pointsPartial)%Q -> (pointsPartial <= pointsYes)%Q ->
  (0 <= Scoring.getPointsForAnswer answer pointsYes pointsPartial)%Q
  /\ (Scoring.getPointsForAnswer answer pointsYes pointsPartial
      <= pointsYes)%Q.
Proof.
  intros H0 H1. unfold Scoring.getPointsForAnswer.
  assert (0 <= pointsYes)%Q by (eapply Qle_trans; eassumption).
  repeat match goal with
         | |- context [if ?b then _ else _] => destruct b
         end; split; try assumption; apply Qle_refl.
Qed.

Lemma controlScoresOf_wellFormed (db : Store.t) (assessmentId : Id) :
  catalogueOk db -> derived db ->
  Forall ScoringSpec.wellFormed (controlScoresOf db assessmentId).
Proof.
  intros Hcat Hd. apply Forall_forall. intros c Hc.
  unfold controlScoresOf in Hc. apply in_flat_map in Hc.
  destruct Hc as (r & Hr & Hc).
  destruct (Nat.eqb (Response.assessmentId r) assessmentId); [| destruct Hc].
  destruct (Hd r Hr) as (control & Hfind & Hpoints).
  rewrite Hfind in Hc. destruct Hc as [<- | []].
  apply find_some in Hfind. destruct Hfind as (Hin & _).
  destruct (Hcat control Hin) as (Hw & Hp0 & Hp1).
  unfold ScoringSpec.wellFormed. cbn. rewrite Hpoints.
  split; [exact Hw | now apply points_in_range].
Qed.

Lemma overallScore_in_range (l : list ControlScore.t) :
  Forall ScoringSpec.wellFormed l ->
  (0 <= ScoreResult.overallScore (Scoring.calculateScores l))%Q
  /\ (ScoreResult.overallScore (Scoring.calculateScores l) <= 100)%Q.
Proof.
  intros Hwf. rewrite (ScoringFacts.overallScore_totals l).
  assert (Hwf' : Forall ScoringSpec.wellFormed (ScoringSpec.assessed l)).
  { apply Forall_forall. intros c Hc. apply filter_In in Hc.
    rewrite Forall_forall in Hwf. now apply Hwf. }
  destruct (ScoringFacts.sums_wellFormed _ Hwf') as (H0 & H1).
  apply ScoringFacts.percentOf_range; assumption.
Qed.

(** X23: When the catalogue gives every control a weight that is not
    negative and PARTIAL points between 0 and its YES points, and the
    response rows of the store hold the points of their answers (as in
    a store without responses), then after any sequence of requests
    every successful finalization stores and replies an overall score
    between 0 and 100. *)
Theorem finalized_score_within_bounds (db db' : Store.t)
  (Hcatalogue : catalogueOk db) (Hderived : derived db)
  (Hsteps : steps db db') :
  forall req assessmentId a',
    fst (finalizeAssessment req assessmentId db') = Json 200 a' ->
    exists score,
      Assessment.overallScore a' = Some score
      /\ (0 <= score)%Q /\ (score <= 100)%Q.
Proof.
  assert (H : catalogueOk db' /\ derived db').
  { induction Hsteps as [| db1 db2 _ IH Hstep]; [split; assumption |].
    destruct IH as (Hc1 & Hd1).
    destruct (step_frame _ _ Hstep) as ((_ & Hc & _) & _).
    split; [| eapply step_derived; eassumption].
    intros c Hin. rewrite Hc in Hin. now apply Hc1. }
  destruct H as (Hcat' & Hd').
  intros req assessmentId a' Hfst.
  destruct (finalizeAssessment req assessmentId db') as [reply db''] eqn:Hfin.
  cbn in Hfst. subst reply.
  destruct (HandlerFacts.finalizeAssessment_success _ _ _ _ _ Hfin)
    as (a & _ & _ & _ & -> & _).
  eexists. split; [reflexivity |].
  apply overallScore_in_range. now apply controlScoresOf_wellFormed.
Qed.

Lemma finalized_score_within_bounds_witness :
  exists a' score,
    fst (finalizeAssessment dpoReq 10%nat
           (snd (submitResponse dpoReq 10%nat "PDPL-S.9"
                   (ResponseBody.mk "PARTIAL" Undefined Undefined)
                   demoStore)))
    = Json 200 a'
    /\ Assessment.overallScore a' = Some score
    /\ (0 <= score)%Q /\ (score <= 100)%Q.
Proof.
  set (db1 := snd (submitResponse dpoReq 10%nat "PDPL-S.9"
                     (ResponseBody.mk "PARTIAL" Undefined Undefined)
                     demoStore)).
  assert (Hcat : catalogueOk demoStore).
  { intros c [<- | [<- | [<- | []]]]; cbn; repeat split; discriminate. }
  assert (Hd : derived demoStore) by (intros r []).
  assert (Hok : exists a', fst (finalizeAssessment dpoReq 10%nat db1)
                           = Json 200 a').
  { vm_compute. eexists. reflexivity. }
  destruct Hok as (a' & Ha'). exists a'.
  destruct (finalized_score_within_bounds demoStore db1 Hcat Hd
              (@steps_step demoStore demoStore _ (@steps_refl demoStore)
                 (@step_submitResponse demoStore dpoReq 10%nat "PDPL-S.9"
                    (ResponseBody.mk "PARTIAL" Undefined Undefined)))
              dpoReq 10%nat a' Ha')
    as (score & Hscore & H0 & H100).
  exists score. repeat split; assumption.
Defined.

(** The tasks an accepted submission adds draw fresh keys. *)
Lemma submitResponse_new_tasks (req : Req.t) (assessmentId : Id)
  (controlId : string) (body : ResponseBody.t) (db db' : Store.t)
  (r : Response.t) :
  submitResponse req assessmentId controlId body db = (Json 200 r, db') ->
  exists added,
    Store.remediationTasks db' = (Store.remediationTasks db ++ added)%list
    /\ NoDup (map RemediationTask.id added)
    /\ forall t, In t added ->
                 (Store.nextId db <= RemediationTask.id t
                  /\ RemediationTask.id t < Store.nextId db')%nat.
Proof.
  destruct body as [answer naJustification notes].
  unfold submitResponse, createTask, AuditLogger.logAudit.
  cbn [ResponseBody.answer ResponseBody.naJustification ResponseBody.notes].
  cbv zeta.
  destruct (negb (JS.includes ["YES"; "PARTIAL"; "NO"; "NA"] answer));
    [discriminate |].
  destruct (findAssessment db assessmentId _); [| discriminate].
  destruct (_ && _); [discriminate |].
  destruct (findControl db controlId) as [control |]; [| discriminate].
  destruct (if (answer =? "NA")%string && _ then _ else _) as [[|] |];
    try discriminate.
  destruct ((answer =? "NA")%string && justificationMissing naJustification);
    [discriminate |].
  destruct (findResponse db assessmentId controlId) as [existing |];
    [change (findTask (Store.withResponses ?l db) assessmentId controlId
               (JwtPayload.orgId (Req.user req)))
       with (findTask db assessmentId controlId
               (JwtPayload.orgId (Req.user req)))
    | change (findTask (Store.bumpId (Store.withResponses ?l db))
                assessmentId controlId (JwtPayload.orgId (Req.user req)))
        with (findTask db assessmentId controlId
                (JwtPayload.orgId (Req.user req)))];
    destruct ((answer =? "NO")%string || (answer =? "PARTIAL")%string);
    destruct (findTask db assessmentId controlId
                (JwtPayload.orgId (Req.user req)));
    destruct (JS.startsWith controlId "PDPL-T.8" && (answer =? "YES")%string);
    intro H; injection H as <- <-; cbn;
    eexists;
    (split;
     [first [reflexivity
            | symmetry; apply app_nil_r
            | symmetry; apply app_assoc]
     | split;
       [cbn; repeat constructor; cbn; intuition lia
       | intros x Hin; cbn in Hin; intuition (subst; cbn; lia)]]).
Qed.

Lemma TasksOk_frame (db db' : Store.t) :
  TasksOk db ->
  Store.remediationTasks db' = Store.remediationTasks db ->
  (Store.nextId db <= Store.nextId db')%nat ->
  TasksOk db'.
Proof.
  intros [Hfresh Hids] Hrows Hnext. constructor; rewrite Hrows.
  - intros t Ht. specialize (Hfresh t Ht). lia.
  - exact Hids.
Qed.

(** The handlers that do not write the task table. *)
Lemma tasks_frame (db : Store.t) :
  (forall req,
     Store.remediationTasks (snd (createAssessment req db))
     = Store.remediationTasks db)
  /\ (forall req assessmentId,
        Store.remediationTasks (snd (finalizeAssessment req assessmentId db))
        = Store.remediationTasks db)
  /\ (forall req assessmentId,
        Store.remediationTasks (snd (submitForReview req assessmentId db))
        = Store.remediationTasks db).
Proof.
  repeat split; intros req.
  - unfold createAssessment. LifecycleFacts.through_handler; reflexivity.
  - intros assessmentId. unfold finalizeAssessment.
    LifecycleFacts.through_handler; reflexivity.
  - intros assessmentId. unfold submitForReview.
    LifecycleFacts.through_handler; reflexivity.
Qed.

Lemma closed_not_changed (current : TaskStatus) (status : string) :
  JS.includes (Remediation.validTransitions current) status = true ->
  current <> CLOSED.
Proof. intros H ->. discriminate H. Qed.

Lemma step_tasks (db db' : Store.t) :
  TasksOk db -> step db db' ->
  TasksOk db'
  /\ forall t, In t (Store.remediationTasks db) ->
               RemediationTask.status t = CLOSED ->
               In t (Store.remediationTasks db').
Proof.
  intros Hok Hstep.
  destruct (step_frame _ _ Hstep) as (_ & Hnext & _).
  destruct (tasks_frame db) as (Hc & Hf & Hr).
  assert (Hsame : Store.remediationTasks db' = Store.remediationTasks db ->
                  TasksOk db'
                  /\ forall t, In t (Store.remediationTasks db) ->
                               RemediationTask.status t = CLOSED ->
                               In t (Store.remediationTasks db')).
  { intros E. split; [now apply (TasksOk_frame db) |].
    intros t Ht _. now rewrite E. }
  destruct Hstep as [req | req assessmentId controlId body | req assessmentId
                    | req assessmentId | req taskId body]; auto.
  - destruct (submitResponse req assessmentId controlId body db)
      as [reply db1] eqn:Hsub. cbn [snd] in *.
    destruct reply as [st r | st code].
    + destruct (HandlerFacts.success_status db) as (_ & H200 & _).
      rewrite (H200 _ _ _ _ _ _ _ Hsub) in Hsub.
      destruct (submitResponse_new_tasks _ _ _ _ _ _ _ Hsub)
        as (added & Hrows & Hnodup & Hfresh').
      destruct Hok as [Hfresh Hids]. split.
      * constructor; rewrite Hrows.
        -- intros t Ht. apply in_app_or in Ht. destruct Ht as [Ht | Ht].
           ++ specialize (Hfresh t Ht). lia.
           ++ apply (Hfresh' t Ht).
        -- rewrite map_app. apply NoDup_app; [exact Hids | exact Hnodup |].
           intros i Hi Hi'. apply in_map_iff in Hi, Hi'.
           destruct Hi as (t & <- & Ht). destruct Hi' as (t' & E & Ht').
           specialize (Hfresh t Ht). specialize (Hfresh' t' Ht'). lia.
      * intros t Ht _. rewrite Hrows. apply in_or_app. now left.
    + apply Hsame.
      pose proof (HandlerFacts.submitResponse_failure req assessmentId
                    controlId body db) as Hfail.
      rewrite Hsub in Hfail. cbn in Hfail. now rewrite Hfail.
  - destruct (Remediation.changeTaskStatus req taskId body db)
      as [reply db1] eqn:Hres. cbn [snd] in *.
    destruct reply as [st t' | st code].
    + destruct (HandlerFacts.success_status db) as (_ & _ & _ & _ & H200).
      rewrite (H200 _ _ _ _ _ _ Hres) in Hres.
      destruct (RemediationMoreFacts.changeTaskStatus_success _ _ _ _ _ _ Hres)
        as (task & newStatus & Hfind & Hinc & _ & _ & _ & _ & _ & _
            & (data & Hrows & _ & Hdata) & Hn & _).
      apply find_some in Hfind. destruct Hfind as (Hin & _).
      destruct Hok as [Hfresh Hids].
      set (g := fun t => if Nat.eqb (RemediationTask.id t)
                                    (RemediationTask.id task)
                         then data t else t) in Hrows.
      assert (Hg : forall t, RemediationTask.id (g t) = RemediationTask.id t).
      { intros t. unfold g.
        destruct (Nat.eqb (RemediationTask.id t) (RemediationTask.id task));
          [apply (Hdata t) | reflexivity]. }
      split.
      * constructor; rewrite Hrows.
        -- intros t Ht. apply in_map_iff in Ht.
           destruct Ht as (t0 & <- & Ht0). rewrite Hg, Hn.
           now apply Hfresh.
        -- rewrite map_map, (map_ext _ RemediationTask.id Hg). exact Hids.
      * intros t Ht Hclosed. rewrite Hrows. apply in_map_iff. exists t.
        split; [| exact Ht]. unfold g.
        destruct (Nat.eqb_spec (RemediationTask.id t) (RemediationTask.id task))
          as [E |]; [| reflexivity].
        exfalso.
        rewrite <- (LifecycleFacts.NoDup_map_eq _ _ RemediationTask.id _ t task
                      Hids Ht Hin E) in Hinc.
        now apply (closed_not_changed _ _ Hinc).
    + apply Hsame.
      pose proof (HandlerFacts.changeTaskStatus_failure req taskId body db)
        as Hfail.
      rewrite Hres in Hfail. cbn in Hfail. now rewrite Hfail.
Qed.

Lemma steps_tasks (db db' : Store.t) :
  TasksOk db -> steps db db' ->
  TasksOk db'
  /\ forall t, In t (Store.remediationTasks db) ->
               RemediationTask.status t = CLOSED ->
               In t (Store.remediationTasks db').
Proof.
  intros Hok Hsteps.
  induction Hsteps as [| db1 db2 _ IH Hstep]; [split; auto |].
  destruct IH as (Hok1 & Hkeep1).
  destruct (step_tasks _ _ Hok1 Hstep) as (Hok2 & Hkeep2).
  split; [exact Hok2 |]. intros t Ht Hc. apply Hkeep2; auto.
Qed.

(** X24: A closed task stays closed.  In a store whose task keys are
    unique, after any sequence of requests every CLOSED task row is
    still in the task table exactly as it was: no handler reopens,
    rewrites or removes it. *)
Theorem closed_tasks_stay_closed (db db' : Store.t)
  (Hok : TasksOk db) (Hsteps : steps db db') :
  forall t,
    In t (Store.remediationTasks db) ->
    RemediationTask.status t = CLOSED ->
    In t (Store.remediationTasks db').
Proof. exact (proj2 (steps_tasks db db' Hok Hsteps)). Qed.

Lemma closed_tasks_stay_closed_witness :
  In closedTask
     (Store.remediationTasks
        (snd (Remediation.changeTaskStatus dpoReq 21%nat
                (Remediation.StatusBody.mk "OPEN" Undefined Undefined)
                demoStore))).
Proof.
  refine (closed_tasks_stay_closed demoStore _ _
            (@steps_step demoStore demoStore _ (@steps_refl demoStore)
               (@step_changeTaskStatus demoStore dpoReq 21%nat
                  (Remediation.StatusBody.mk "OPEN" Undefined Undefined)))
            closedTask (or_intror (or_introl eq_refl)) eq_refl).
  constructor.
  - intros t [<- | [<- | []]]; cbn; lia.
  - cbn. repeat constructor; cbn; intuition lia.
Defined.

Import IsolationSpec.











End SystemFacts.

(* ===================================================================== *)
(** ** The read-only routes *)
(* ===================================================================== *)

Module QueryFacts.
Import AssessmentQueries Samples.





Import RemediationQueries QuerySpec.

Lemma riskRank_cases (level : string) :
  (level = "HIGH" /\ riskRank level = 1)
  \/ (level = "MEDIUM" /\ riskRank level = 2)
  \/ (level = "LOW" /\ riskRank level = 3)
  \/ (JS.includes ["HIGH"; "MEDIUM"; "LOW"] level = false
      /\ riskRank level = 4).
Proof.
  unfold riskRank, riskOrder, lookup, JS.includes. cbn [existsb].
  destruct (String.eqb_spec level "CRITICAL") as [-> | _];
    [right; right; right; split; reflexivity |].
  destruct (String.eqb_spec level "HIGH") as [-> | _];
    [left; split; reflexivity |].
  destruct (String.eqb_spec level "MEDIUM") as [-> | _];
    [right; left; split; reflexivity |].
  destruct (String.eqb_spec level "LOW") as [-> | _];
    [right; right; left; split; reflexivity |].
  right; right; right. split; reflexivity.
Qed.

Lemma insertByRisk_skip (x : RemediationTask.t)
  (l1 l2 : list RemediationTask.t) :
  (forall y, In y l1 ->
             riskRank (RemediationTask.riskLevel y)
             < riskRank (RemediationTask.riskLevel x)) ->
  insertByRisk x (l1 ++ l2) = (l1 ++ insertByRisk x l2)%list.
Proof.
  induction l1 as [| y l1 IH]; intros H; [reflexivity |].
  cbn. specialize (H y (or_introl eq_refl)) as Hy.
  destruct (Z.leb_spec (riskRank (RemediationTask.riskLevel x)
                        - riskRank (RemediationTask.riskLevel y)) 0);
    [lia |].
  f_equal. apply IH. intros z Hz. apply H. now right.
Qed.

Lemma insertByRisk_front (x : RemediationTask.t)
  (l : list RemediationTask.t) :
  (forall y, In y l ->
             riskRank (RemediationTask.riskLevel x)
             <= riskRank (RemediationTask.riskLevel y)) ->
  insertByRisk x l = x :: l.
Proof.
  destruct l as [| y l]; intros H; [reflexivity |].
  cbn. specialize (H y (or_introl eq_refl)).
  destruct (Z.leb_spec (riskRank (RemediationTask.riskLevel x)
                        - riskRank (RemediationTask.riskLevel y)) 0);
    [reflexivity | lia].
Qed.

Lemma bucket_rank (r : Z) (l : list RemediationTask.t) (y : RemediationTask.t) :
  In y (bucket r l) -> riskRank (RemediationTask.riskLevel y) = r.
Proof. unfold bucket. intros H. apply filter_In in H. lia. Qed.

Lemma bucket_cons (r : Z) (x : RemediationTask.t)
  (l : list RemediationTask.t) :
  bucket r (x :: l)
  = if riskRank (RemediationTask.riskLevel x) =? r
    then x :: bucket r l else bucket r l.
Proof. reflexivity. Qed.

(** A stable sort on four ranks is the concatenation of the buckets. *)
Lemma sortByRisk_buckets (l : list RemediationTask.t) :
  sortByRisk l = (bucket 1 l ++ bucket 2 l ++ bucket 3 l ++ bucket 4 l)%list.
Proof.
  induction l as [| x l IH]; [reflexivity |].
  change (sortByRisk (x :: l)) with (insertByRisk x (sortByRisk l)).
  rewrite IH, !bucket_cons.
  assert (Hranks : forall r y, In y (bucket r l) ->
                               riskRank (RemediationTask.riskLevel y) = r)
    by (intros r y; apply bucket_rank).
  destruct (riskRank_cases (RemediationTask.riskLevel x))
    as [[_ E] | [[_ E] | [[_ E] | [_ E]]]]; rewrite E; cbn [Z.eqb Pos.eqb].
  - apply insertByRisk_front. intros y Hy. rewrite E.
    repeat (apply in_app_or in Hy; destruct Hy as [Hy | Hy]);
      apply Hranks in Hy; lia.
  - rewrite insertByRisk_skip
      by (intros y Hy; rewrite E; apply Hranks in Hy; lia).
    f_equal. apply insertByRisk_front. intros y Hy. rewrite E.
    repeat (apply in_app_or in Hy; destruct Hy as [Hy | Hy]);
      apply Hranks in Hy; lia.
  - rewrite insertByRisk_skip
      by (intros y Hy; rewrite E; apply Hranks in Hy; lia).
    f_equal.
    rewrite insertByRisk_skip
      by (intros y Hy; rewrite E; apply Hranks in Hy; lia).
    f_equal. apply insertByRisk_front. intros y Hy. rewrite E.
    repeat (apply in_app_or in Hy; destruct Hy as [Hy | Hy]);
      apply Hranks in Hy; lia.
  - rewrite insertByRisk_skip
      by (intros y Hy; rewrite E; apply Hranks in Hy; lia).
    f_equal.
    rewrite insertByRisk_skip
      by (intros y Hy; rewrite E; apply Hranks in Hy; lia).
    f_equal.
    rewrite insertByRisk_skip
      by (intros y Hy; rewrite E; apply Hranks in Hy; lia).
    f_equal. apply insertByRisk_front. intros y Hy. rewrite E.
    apply Hranks in Hy. lia.
Qed.

Lemma bucket_level (l : list RemediationTask.t) :
  bucket 1 l = ofLevel "HIGH" l
  /\ bucket 2 l = ofLevel "MEDIUM" l
  /\ bucket 3 l = ofLevel "LOW" l
  /\ bucket 4 l = rest l.
Proof.
  unfold bucket, ofLevel, rest.
  repeat split; apply filter_ext; intros t;
    destruct (riskRank_cases (RemediationTask.riskLevel t))
      as [[L E] | [[L E] | [[L E] | [L E]]]]; rewrite E;
    first [rewrite L; reflexivity
          | unfold JS.includes in L; cbn [existsb] in L;
            destruct (_ =? "HIGH")%string, (_ =? "MEDIUM")%string,
              (_ =? "LOW")%string; try discriminate L; reflexivity].
Qed.

(** X27: The order of the task list.  The list of GET
    /remediation/tasks is the HIGH tasks, then the MEDIUM tasks, then
    the LOW tasks, then all the others, each group in the order the
    database gave them.  The rank 0 written for CRITICAL is falsy and
    so replaced by 4: the CRITICAL tasks are among the others, after
    every HIGH, MEDIUM and LOW task, and when every task has one of the
    four levels the others are the CRITICAL tasks.  No task is lost or
    repeated. *)
Theorem task_list_order (filtered : list RemediationTask.t) :
  sortByRisk filtered
  = (ofLevel "HIGH" filtered ++ ofLevel "MEDIUM" filtered
     ++ ofLevel "LOW" filtered ++ rest filtered)%list
  /\ (forall t,
        In t filtered -> RemediationTask.riskLevel t = "CRITICAL" ->
        In t (rest filtered))
  /\ ofLevel "CRITICAL" (rest filtered) = ofLevel "CRITICAL" filtered
  /\ ((forall t, In t filtered ->
                 In (RemediationTask.riskLevel t)
                    ["CRITICAL"; "HIGH"; "MEDIUM"; "LOW"]) ->
      rest filtered = ofLevel "CRITICAL" filtered)
  /\ Permutation filtered (sortByRisk filtered).
Proof.
  destruct (bucket_level filtered) as (H1 & H2 & H3 & H4).
  assert (Hsort : sortByRisk filtered
                  = (ofLevel "HIGH" filtered ++ ofLevel "MEDIUM" filtered
                     ++ ofLevel "LOW" filtered ++ rest filtered)%list)
    by (rewrite sortByRisk_buckets; congruence).
  split; [exact Hsort |]. split; [| split; [| split]].
  - intros t Hin Hlevel. unfold rest. apply filter_In.
    split; [exact Hin | rewrite Hlevel; reflexivity].
  - clear. unfold ofLevel, rest.
    induction filtered as [| t l IH]; [reflexivity |].
    cbn [filter].
    destruct (negb (JS.includes ["HIGH"; "MEDIUM"; "LOW"]
                      (RemediationTask.riskLevel t))) eqn:N; cbn [filter];
      destruct (String.eqb_spec (RemediationTask.riskLevel t) "CRITICAL")
        as [E | E]; try (now rewrite IH).
    rewrite E in N. discriminate N.
  - clear. intros Hknown. unfold rest, ofLevel. apply filter_ext_in.
    intros t Ht. destruct (Hknown t Ht) as [<- | [<- | [<- | [<- | []]]]];
      reflexivity.
  - clear. induction filtered as [| x l IH]; [constructor |].
    change (sortByRisk (x :: l)) with (insertByRisk x (sortByRisk l)).
    apply Permutation_trans with (x :: sortByRisk l);
      [now constructor |].
    generalize (sortByRisk l). clear. intros l.
    induction l as [| y l IH]; [reflexivity |]. cbn.
    destruct (_ <=? 0); [reflexivity |].
    apply Permutation_trans with (y :: x :: l); [constructor |].
    now constructor.
Qed.

Import ControlsRoute NumberKeyed.

Section Grouping.
Context {V : Type}.

Lemma insertByKey_Permutation (e : Z * V) (l : list (Z * V)) :
  Permutation (insertByKey e l) (e :: l).
Proof.
  induction l as [| y l IH]; cbn; [reflexivity |].
  destruct (fst e <=? fst y); [reflexivity |].
  apply Permutation_trans with (y :: e :: l); [now constructor | constructor].
Qed.

Lemma sortByKey_Permutation (l : list (Z * V)) : Permutation (sortByKey l) l.
Proof.
  induction l as [| x l IH]; cbn; [reflexivity |].
  apply Permutation_trans with (x :: sortByKey l).
  - apply insertByKey_Permutation.
  - now constructor.
Qed.

Lemma insertByKey_sorted (e : Z * V) (l : list (Z * V)) :
  StronglySorted (fun a b => fst a <= fst b) l ->
  StronglySorted (fun a b => fst a <= fst b) (insertByKey e l).
Proof.
  induction l as [| y l IH]; cbn; intros Hs.
  - repeat constructor.
  - inversion Hs as [| ? ? Hs' Hall]; subst.
    destruct (Z.leb_spec (fst e) (fst y)) as [Hle | Hgt].
    + constructor; [exact Hs |]. constructor; [exact Hle |].
      rewrite Forall_forall in *. intros z Hz. specialize (Hall z Hz). lia.
    + constructor; [now apply IH |].
      rewrite Forall_forall in *. intros z Hz.
      apply (Permutation_in _ (insertByKey_Permutation e l)) in Hz.
      destruct Hz as [<- | Hz]; [lia | now apply Hall].
Qed.

Lemma sortByKey_sorted (l : list (Z * V)) :
  StronglySorted (fun a b => fst a <= fst b) (sortByKey l).
Proof.
  induction l as [| x l IH]; cbn; [constructor |].
  now apply insertByKey_sorted.
Qed.

Lemma partition_Permutation (A : Type) (p : A -> bool) (l : list A) :
  Permutation (filter p l ++ filter (fun x => negb (p x)) l) l.
Proof.
  induction l as [| x l IH]; cbn; [constructor |].
  destruct (p x); cbn.
  - now constructor.
  - apply Permutation_trans with (x :: filter p l
                                    ++ filter (fun x => negb (p x)) l).
    + symmetry. apply Permutation_middle.
    + now constructor.
Qed.

(** The entries in the order [Object.values] reads them. *)
Lemma enumeration_Permutation (m : JS.Map V) :
  Permutation
    (sortByKey (filter (fun e => isArrayIndex (fst e)) m)
     ++ filter (fun e => negb (isArrayIndex (fst e))) m)
    m.
Proof.
  eapply Permutation_trans; [| apply (partition_Permutation _
                                        (fun e => isArrayIndex (fst e)))].
  apply Permutation_app_tail. apply sortByKey_Permutation.
Qed.

Lemma sorted_strict (l : list (Z * V)) :
  StronglySorted (fun a b => fst a <= fst b) l ->
  NoDup (map fst l) ->
  StronglySorted (fun a b => fst a < fst b) l.
Proof.
  induction l as [| x l IH]; cbn; intros Hs Hnd; [constructor |].
  inversion Hs as [| ? ? Hs' Hall]; subst.
  inversion Hnd as [| ? ? Hnotin Hnd']; subst.
  constructor; [now apply IH |].
  rewrite Forall_forall in *. intros z Hz. specialize (Hall z Hz).
  assert (fst z <> fst x).
  { intros E. apply Hnotin. rewrite <- E. now apply in_map. }
  lia.
Qed.

End Grouping.

Section Groups.
Variable domainNameOf : Control.t -> string.

Lemma get_groupStep (m : JS.Map DomainGroup.t) (c : Control.t) (k : Z) :
  JS.get k (groupStep domainNameOf m c)
  = if k =? Control.domainNumber c
    then Some (match JS.get k m with
               | Some g =>
                   DomainGroup.mk (DomainGroup.domainNumber g)
                     (DomainGroup.domainName g)
                     (DomainGroup.controls g ++ [c])%list
               | None => DomainGroup.mk k (domainNameOf c) [c]
               end)
    else JS.get k m.
Proof.
  unfold groupStep. cbv zeta. rewrite ScoringFacts.has_get.
  destruct (JS.get (Control.domainNumber c) m) as [g |] eqn:Hg; cbn [negb].
  - rewrite Hg, ScoringFacts.get_set.
    destruct (Z.eqb_spec k (Control.domainNumber c)) as [-> | _];
      [now rewrite Hg | reflexivity].
  - rewrite ScoringFacts.get_set, Z.eqb_refl, !ScoringFacts.get_set.
    destruct (Z.eqb_spec k (Control.domainNumber c)) as [-> | _];
      [now rewrite Hg | reflexivity].
Qed.

Lemma NoDup_groupStep (m : JS.Map DomainGroup.t) (c : Control.t) :
  NoDup (map fst m) -> NoDup (map fst (groupStep domainNameOf m c)).
Proof.
  intros H. unfold groupStep. cbv zeta.
  destruct (negb (JS.has (Control.domainNumber c) m));
    destruct (JS.get _ _); repeat apply ScoringFacts.NoDup_keys_set;
    assumption.
Qed.

Lemma NoDup_groupFold (l : list Control.t) (m : JS.Map DomainGroup.t) :
  NoDup (map fst m) ->
  NoDup (map fst (fold_left (groupStep domainNameOf) l m)).
Proof.
  revert m. induction l as [| c l IH]; intros m H; [exact H |].
  cbn. apply IH. now apply NoDup_groupStep.
Qed.

Lemma get_groupFold (l : list Control.t) (m : JS.Map DomainGroup.t) (k : Z) :
  JS.get k (fold_left (groupStep domainNameOf) l m)
  = match JS.get k m with
    | Some g =>
        Some (DomainGroup.mk (DomainGroup.domainNumber g)
                (DomainGroup.domainName g)
                (DomainGroup.controls g ++ ofDomain k l)%list)
    | None =>
        match ofDomain k l with
        | [] => None
        | c :: cs => Some (DomainGroup.mk k (domainNameOf c) (c :: cs))
        end
    end.
Proof.
  revert m. induction l as [| c l IH]; intros m.
  - cbn. destruct (JS.get k m) as [[n name cs] |]; [| reflexivity].
    cbn. now rewrite app_nil_r.
  - cbn [fold_left]. rewrite IH, get_groupStep.
    unfold ofDomain. cbn [filter]. rewrite (Z.eqb_sym (Control.domainNumber c)).
    destruct (k =? Control.domainNumber c).
    + destruct (JS.get k m) as [g |]; cbn; [| reflexivity].
      now rewrite <- app_assoc.
    + reflexivity.
Qed.

Lemma groupByDomain_entry (l : list Control.t) (k : Z) (g : DomainGroup.t) :
  In (k, g) (groupByDomain domainNameOf l)
  <-> exists c cs,
        ofDomain k l = c :: cs
        /\ g = DomainGroup.mk k (domainNameOf c) (c :: cs).
Proof.
  assert (Hnd : NoDup (map fst (groupByDomain domainNameOf l)))
    by (apply NoDup_groupFold; constructor).
  assert (Hget : JS.get k (groupByDomain domainNameOf l)
                 = match ofDomain k l with
                   | [] => None
                   | c :: cs =>
                       Some (DomainGroup.mk k (domainNameOf c) (c :: cs))
                   end)
    by (unfold groupByDomain; now rewrite get_groupFold).
  split.
  - intros Hin. apply (ScoringFacts.In_get _ _ _ Hnd) in Hin.
    rewrite Hget in Hin. destruct (ofDomain k l) as [| c cs];
      [discriminate |].
    injection Hin as <-. now exists c, cs.
  - intros (c & cs & Hk & ->). apply ScoringFacts.get_In.
    now rewrite Hget, Hk.
Qed.

Lemma ofDomain_In (k : Z) (l : list Control.t) (c : Control.t) :
  In c (ofDomain k l) <-> In c l /\ Control.domainNumber c = k.
Proof. unfold ofDomain. rewrite filter_In. now rewrite Z.eqb_eq. Qed.

Lemma list_sum_cons (n : nat) (l : list nat) :
  list_sum (n :: l) = (n + list_sum l)%nat.
Proof. reflexivity. Qed.

Lemma never (ks : list Z) (k : Z) :
  ~ In k ks ->
  list_sum (map (fun k' => if k =? k' then 1%nat else 0%nat) ks) = 0%nat.
Proof.
  induction ks as [| k' ks IH]; intros H; [reflexivity |].
  cbn [map]. rewrite list_sum_cons, IH by (intros Hin; apply H; now right).
  destruct (Z.eqb_spec k k') as [-> | _]; [| reflexivity].
  exfalso. apply H. now left.
Qed.

Lemma once (ks : list Z) (k : Z) :
  NoDup ks -> In k ks ->
  list_sum (map (fun k' => if k =? k' then 1%nat else 0%nat) ks) = 1%nat.
Proof.
  induction ks as [| k' ks IH]; intros Hnd Hin; [destruct Hin |].
  inversion Hnd as [| ? ? Hnotin Hnd']; subst.
  cbn [map]. rewrite list_sum_cons.
  destruct (Z.eqb_spec k k') as [-> | Hne].
  - now rewrite never.
  - destruct Hin as [-> | Hin]; [contradiction |]. now rewrite IH.
Qed.

Lemma sum_of_domains (ks : list Z) (l : list Control.t) :
  NoDup ks ->
  (forall c, In c l -> In (Control.domainNumber c) ks) ->
  list_sum (map (fun k => List.length (ofDomain k l)) ks) = List.length l.
Proof.
  intros Hnd. induction l as [| c l IH]; intros Hall.
  - clear. induction ks as [| k ks IHk]; [reflexivity |].
    cbn [map]. now rewrite list_sum_cons, IHk.
  - assert (E : forall ks',
                list_sum (map (fun k => List.length (ofDomain k (c :: l))) ks')
                = (list_sum (map (fun k' => if (Control.domainNumber c =? k')%Z
                                            then 1%nat else 0%nat) ks')
                   + list_sum (map (fun k => List.length (ofDomain k l)) ks'))
                  %nat).
    { induction ks' as [| k ks' IHk]; [reflexivity |].
      cbn [map]. rewrite !list_sum_cons, IHk. unfold ofDomain at 1.
      cbn [filter]. fold (ofDomain k l).
      destruct (Control.domainNumber c =? k); cbn [List.length]; lia. }
    rewrite E, IH by (intros x Hx; apply Hall; now right).
    rewrite once; [reflexivity | exact Hnd | apply Hall; now left].
Qed.

(** The groups of the reply, for any list of applicable controls. *)
Lemma groups_of (data : list Control.t) :
  let groups := Object_values (groupByDomain domainNameOf data) in
  (forall g, In g groups <->
             exists c cs,
               ofDomain (DomainGroup.domainNumber g) data = c :: cs
               /\ g = DomainGroup.mk (DomainGroup.domainNumber g)
                        (domainNameOf c) (c :: cs))
  /\ NoDup (map DomainGroup.domainNumber groups)
  /\ grouped groups = List.length data
  /\ ((forall c, In c data ->
                 isArrayIndex (Control.domainNumber c) = true) ->
      StronglySorted
        (fun g g' => DomainGroup.domainNumber g < DomainGroup.domainNumber g')
        groups).
Proof.
  intros groups. subst groups. unfold Object_values.
  set (m := groupByDomain domainNameOf data).
  set (L := (sortByKey (filter (fun e => isArrayIndex (fst e)) m)
             ++ filter (fun e => negb (isArrayIndex (fst e))) m)%list).
  assert (HP : Permutation L m) by apply enumeration_Permutation.
  assert (Hentry : forall k g, In (k, g) L <->
                     exists c cs,
                       ofDomain k data = c :: cs
                       /\ g = DomainGroup.mk k (domainNameOf c) (c :: cs)).
  { intros k g. rewrite <- groupByDomain_entry. fold m. split; intros H.
    - exact (Permutation_in _ HP H).
    - exact (Permutation_in _ (Permutation_sym HP) H). }
  assert (Hkey : forall e, In e L -> DomainGroup.domainNumber (snd e) = fst e).
  { intros [k g] He. apply Hentry in He. destruct He as (c & cs & _ & ->).
    reflexivity. }
  assert (Hkeys : map DomainGroup.domainNumber (map snd L) = map fst L).
  { rewrite map_map. apply map_ext_in. exact Hkey. }
  assert (Hnd : NoDup (map fst L)).
  { apply (Permutation_NoDup (l := map fst m)).
    - apply Permutation_map. now symmetry.
    - apply NoDup_groupFold. constructor. }
  split; [| split; [| split]].
  - intros g. rewrite in_map_iff. split.
    + intros ([k g'] & Hg & He). cbn in Hg. subst g'.
      pose proof (Hkey _ He) as Hk. cbn in Hk. rewrite Hk.
      now apply Hentry.
    + intros (c & cs & Hk & Hg).
      exists (DomainGroup.domainNumber g, g). split; [reflexivity |].
      apply Hentry. now exists c, cs.
  - rewrite Hkeys. exact Hnd.
  - unfold grouped. rewrite map_map.
    rewrite (map_ext_in _ (fun e => List.length (ofDomain (fst e) data))).
    + rewrite <- (map_map fst (fun k => List.length (ofDomain k data))).
      apply sum_of_domains; [exact Hnd |].
      intros c Hc.
      assert (Hne : exists x xs, ofDomain (Control.domainNumber c) data
                                 = x :: xs).
      { destruct (ofDomain (Control.domainNumber c) data) as [| x xs] eqn:E.
        - exfalso. assert (Hin : In c (ofDomain (Control.domainNumber c) data))
            by (apply ofDomain_In; now split).
          rewrite E in Hin. destruct Hin.
        - now exists x, xs. }
      destruct Hne as (x & xs & E).
      apply in_map_iff.
      exists (Control.domainNumber c,
              DomainGroup.mk (Control.domainNumber c) (domainNameOf x)
                (x :: xs)).
      split; [reflexivity |]. apply Hentry. now exists x, xs.
    + intros [k g] He. apply Hentry in He.
      destruct He as (c & cs & Hk & ->). cbn. now rewrite Hk.
  - intros Hidx.
    assert (Hall : forall e, In e m -> isArrayIndex (fst e) = true).
    { intros [k g] He. apply groupByDomain_entry in He.
      destruct He as (c & cs & Hk & _). cbn.
      assert (Hin : In c (ofDomain k data)) by (rewrite Hk; now left).
      apply ofDomain_In in Hin. destruct Hin as (Hin & <-).
      now apply Hidx. }
    assert (Hnone : filter (fun e => negb (isArrayIndex (fst e))) m = []).
    { destruct (filter (fun e => negb (isArrayIndex (fst e))) m)
        as [| e rest] eqn:E; [reflexivity |].
      assert (Hin : In e (filter (fun e => negb (isArrayIndex (fst e))) m))
        by (rewrite E; now left).
      apply filter_In in Hin. destruct Hin as (Hin & Hneg).
      rewrite (Hall e Hin) in Hneg. discriminate. }
    assert (Hsorted : StronglySorted (fun a b => fst a < fst b) L).
    { apply sorted_strict; [| exact Hnd].
      unfold L. rewrite Hnone, app_nil_r. apply sortByKey_sorted. }
    clear -Hsorted Hkey. induction L as [| e L IH]; [constructor |].
    inversion Hsorted as [| ? ? Hs' Hfa]; subst. cbn. constructor.
    + apply IH; [| exact Hs']. intros x Hx. apply Hkey. now right.
    + rewrite Forall_forall in *. intros g Hg. apply in_map_iff in Hg.
      destruct Hg as (x & <- & Hx).
      rewrite (Hkey e (or_introl eq_refl)), (Hkey x (or_intror Hx)).
      now apply Hfa.
Qed.

End Groups.

(** X28: The groups of GET /controls/applicable.  The controls listed
    are the controls of the catalogue that apply to the organization,
    and [domains] partitions them by domain number: every group is not
    empty and holds exactly the listed controls of its domain, in the
    order of the list, under the domain name of the first of them; no
    domain number has two groups; every listed control is in the group
    of its domain, so the groups together hold as many controls as the
    list, which is [total].  When the domain numbers are array indices
    (whole numbers from 0 to 4294967294) the groups come in ascending
    order of domain number. *)
Theorem applicable_controls_groups (domainNameOf : Control.t -> string)
  (ordered : list Control.t -> list Control.t) (req : Req.t) (db : Store.t)
  (reply : ApplicableReply.t)
  (Hok : listApplicable domainNameOf ordered req db = Json 200 reply) :
  let data := ApplicableReply.data reply in
  let groups := ApplicableReply.domains reply in
  (exists org,
     Assessments.findOrganization db (JwtPayload.orgId (Req.user req))
     = Some org
     /\ data = applicableOf (profileOf org)
                 (Branching.evaluateBranchingRules (profileOf org))
                 (ordered (Store.controls db)))
  /\ (forall g,
        In g groups ->
        DomainGroup.controls g = ofDomain (DomainGroup.domainNumber g) data
        /\ exists c cs,
             DomainGroup.controls g = c :: cs
             /\ DomainGroup.domainName g = domainNameOf c)
  /\ (forall c,
        In c data ->
        exists g,
          In g groups
          /\ DomainGroup.domainNumber g = Control.domainNumber c
          /\ In c (DomainGroup.controls g))
  /\ NoDup (map DomainGroup.domainNumber groups)
  /\ grouped groups = List.length data
  /\ ApplicableReply.total reply = Z.of_nat (List.length data)
  /\ ((forall c, In c data ->
                 isArrayIndex (Control.domainNumber c) = true) ->
      StronglySorted
        (fun g g' => DomainGroup.domainNumber g < DomainGroup.domainNumber g')
        groups).
Proof.
  intros data groups. subst data groups.
  unfold listApplicable in Hok.
  destruct (Assessments.findOrganization db _) as [org |] eqn:Horg;
    [| discriminate].
  injection Hok as <-.
  cbn [ApplicableReply.data ApplicableReply.domains ApplicableReply.total].
  set (data := applicableOf _ _ _).
  destruct (groups_of domainNameOf data) as (Hgroups & Hnd & Hsum & Hsorted).
  split; [exists org; split; reflexivity |].
  split; [| split; [| repeat split; assumption]].
  - intros g Hg. apply Hgroups in Hg. destruct Hg as (c & cs & Hk & Hg).
    split.
    + rewrite Hk, Hg. reflexivity.
    + exists c, cs. rewrite Hg. split; reflexivity.
  - intros c Hc.
    assert (Hin : In c (ofDomain (Control.domainNumber c) data))
      by (apply ofDomain_In; now split).
    destruct (ofDomain (Control.domainNumber c) data) as [| x xs] eqn:E;
      [destruct Hin |].
    exists (DomainGroup.mk (Control.domainNumber c) (domainNameOf x) (x :: xs)).
    split; [| split; [reflexivity | exact Hin]].
    apply Hgroups. exists x, xs. split; [exact E | reflexivity].
Qed.

Lemma applicable_controls_groups_witness :
  exists reply,
    listApplicable (fun c => Scoring.domainNameOf (Control.domainNumber c))
      (fun l => l) dpoReq demoStore
    = Json 200 reply
    /\ grouped (ApplicableReply.domains reply) = 3%nat
    /\ ApplicableReply.total reply = 3.
Proof.
  assert (Hok : exists reply,
            listApplicable (fun c => Scoring.domainNameOf (Control.domainNumber c))
      (fun l => l) dpoReq demoStore
            = Json 200 reply).
  { vm_compute. eexists. reflexivity. }
  destruct Hok as (reply & Hreply). exists reply.
  destruct (applicable_controls_groups
              (fun c => Scoring.domainNameOf (Control.domainNumber c))
              (fun l => l) dpoReq
              demoStore reply Hreply)
    as ((org & Horg & Hdata) & _ & _ & _ & Hsum & Htotal & _).
  injection Horg as <-.
  split; [exact Hreply |]. rewrite Hsum, Htotal, Hdata.
  split; reflexivity.
Defined.

End QueryFacts.

(* ===================================================================== *)
(** ** routes/dashboard: the figures shown *)
(* ===================================================================== *)

Module DashboardFacts.
Import Assessments Lifecycle LifecycleAux CreateSpec SystemSpec IsolationSpec.
Import Dashboard Samples.










End DashboardFacts.
